(** * The ZeroTouch workflow hook: step sequencer and human-approval gate

    A shallow embedding of the React hook [useZeroTouchWorkflow]
    (hooks/useZeroTouchWorkflow.ts, the version that calls the Launch IO
    backend) together with the tables of data/mockData.ts and the types of
    types/zerotouch.ts.

    The hook owns two pieces of React state ([state] and [pendingApproval]),
    one ref ([timeoutRef]) and a handful of async functions.  An async
    function runs atomically up to its next [await]; what remains is kept
    here as a continuation ([Kont]) in a table of suspended tasks, and the
    environment resumes it with an event.  Every state update of the hook but
    the one in [resetWorkflow] is a functional update [setState(prev => ...)],
    so applying the updates in program order is what React does with them.

    The repository holds a second version of the hook, which simulates the
    agent call locally and makes no backend call in [startWorkflow]; its
    [handleApproval], [resetWorkflow], approval branch of [executeStep] and
    timer callback are the same text as those embedded here. *)

From Stdlib Require Import QArith.
From Stdlib Require DecimalString DecimalN.
From stdpp Require Import gmap strings list.

Open Scope string_scope.

(** ** Values of type [any]

    Backend responses and tool results are untyped in the source.  Numbers
    are only stored and tested for truthiness, never computed with, so a
    rational stands for each numeric literal. *)

#[local] Unset Elimination Schemes.
Inductive JValue : Type :=
| JUndefined
| JNull
| JBool (b : bool)
| JNum (q : Q)
| JStr (s : string)
| JArr (items : list JValue)
| JObj (fields : list (string * JValue)).
#[local] Set Elimination Schemes.

(** [!!v] of JavaScript. *)
Definition truthy (v : JValue) : bool :=
  match v with
  | JUndefined | JNull => false
  | JBool b => b
  | JNum q => negb (Z.eqb (Qnum q) 0)
  | JStr s => negb (bool_decide (s = ""))
  | JArr _ | JObj _ => true
  end.

(** [typeof v === 'object'] (which holds of [null] too). *)
Definition typeof_object (v : JValue) : bool :=
  match v with
  | JNull | JArr _ | JObj _ => true
  | _ => false
  end.

Definition nullish (v : JValue) : bool :=
  match v with
  | JUndefined | JNull => true
  | _ => false
  end.

Fixpoint assoc (k : string) (fields : list (string * JValue)) : JValue :=
  match fields with
  | [] => JUndefined
  | (k', v) :: rest => if bool_decide (k' = k) then v else assoc k rest
  end.

(** [v.k] for a [v] that is neither [null] nor [undefined]; the keys the hook
    reads are own properties of plain objects only. *)
Definition jget (k : string) (v : JValue) : JValue :=
  match v with
  | JObj fields => assoc k fields
  | _ => JUndefined
  end.

(** [v[0]] for a [v] that is neither [null] nor [undefined]. *)
Definition jfirst (v : JValue) : JValue :=
  match v with
  | JArr (x :: _) => x
  | JObj fields => assoc "0" fields
  | JStr (String c _) => JStr (String c EmptyString)
  | _ => JUndefined
  end.

(** [a || b]. *)
Definition jor (a b : JValue) : JValue := if truthy a then a else b.

(** [v?.k] and [v?.[0]]. *)
Definition jget_opt (k : string) (v : JValue) : JValue :=
  if nullish v then JUndefined else jget k v.

Definition jfirst_opt (v : JValue) : JValue :=
  if nullish v then JUndefined else jfirst v.

(** ** types/zerotouch.ts *)

Inductive AgentType := sentinel | simulator | negotiator | executor | audit.

Inductive AgentStatus :=
| idle | processing | success | error | waiting.

#[global] Instance AgentType_eq_dec : EqDecision AgentType.
Proof. solve_decision. Defined.

#[global] Instance AgentStatus_eq_dec : EqDecision AgentStatus.
Proof. solve_decision. Defined.

(** Timestamps ([new Date().toISOString()], [Date.now()]) are kept as the
    number of milliseconds they denote. *)
Record Agent := mkAgent {
  id : string;
  name : string;
  type : AgentType;
  status : AgentStatus;
  description : string;
  tools : list string;
  confidence : JValue;
  lastUpdate : option Z
}.

(** The [Partial<Agent>] objects the hook passes to [updateAgent]. *)
Record AgentPatch := mkAgentPatch {
  p_status : option AgentStatus;
  p_confidence : option JValue;
  p_lastUpdate : option Z
}.

(** A call id [`call-${Date.now()}-${random}`], kept as its two parts. *)
Record CallId := mkCallId { call_time : Z; call_rand : string }.

#[global] Instance CallId_eq_dec : EqDecision CallId.
Proof. solve_decision. Defined.

Inductive CallStatus := call_pending | call_success | call_error.

#[global] Instance CallStatus_eq_dec : EqDecision CallStatus.
Proof. solve_decision. Defined.

Record ToolCall := mkToolCall {
  tc_id : CallId;
  tc_agentId : string;
  tc_toolName : string;
  tc_parameters : JValue;
  tc_result : option JValue;
  tc_timestamp : Z;
  tc_duration : option Z;
  tc_status : CallStatus
}.

(** The [Partial<ToolCall>] objects the hook passes to [updateToolCall]:
    always all three of result, status and duration. *)
Record ToolCallPatch := mkToolCallPatch {
  q_result : JValue;
  q_status : CallStatus;
  q_duration : Z
}.

Inductive PortStatus := port_normal | port_congested | port_strike | port_reroute.
Inductive Activity := act_low | act_medium | act_high.

Record PortData := mkPort {
  port_name : string;
  code : string;
  coordinates : Q * Q;
  port_status : PortStatus;
  containers : Z;
  congestionScore : option Q;
  craneActivity : option Activity
}.

Record Metrics := mkMetrics {
  costSavings : JValue;
  carbonReduction : Q;
  humanLaborSaved : Q;
  timeToResolution : Q
}.

(** [WorkflowState]; its optional fields [simulation], [negotiation] and
    [blockchain] are never written by the hook and are left out. *)
Record WorkflowState := mkState {
  currentStep : nat;
  totalSteps : nat;
  isRunning : bool;
  startTime : option Z;
  endTime : option Z;
  agents : list Agent;
  toolCalls : list ToolCall;
  ports : list PortData;
  metrics : Metrics
}.

Inductive ApprovalStatus :=
| ap_pending | ap_approved | ap_rejected | ap_timeout.

#[global] Instance ApprovalStatus_eq_dec : EqDecision ApprovalStatus.
Proof. solve_decision. Defined.

(** [ApprovalRequest]; [ap_id] is the [Date.now()] of [`approval-${Date.now()}`]. *)
Record ApprovalRequest := mkApproval {
  ap_id : Z;
  message : string;
  requestedBy : string;
  ap_timestamp : Z;
  timeout : Z;
  ap_status : ApprovalStatus
}.

(** ** data/mockData.ts *)

Definition MOCK_AGENTS : list Agent :=
  [ mkAgent "sentinel-001" "Watchtower" sentinel idle
      "Real-time anomaly detection and threat monitoring"
      ["analyze_satellite_imagery"; "monitor_darkweb"; "scan_iot_sensors"; "detect_anomalies"]
      (JNum 0) None;
    mkAgent "simulator-001" "Oracle" simulator idle
      "Impact forecasting and scenario modeling"
      ["run_monte_carlo"; "calculate_carbon_impact"; "forecast_demand"; "analyze_alternatives"]
      (JNum 0) None;
    mkAgent "negotiator-001" "Diplomat" negotiator idle
      "Autonomous contracting and deal optimization"
      ["negotiate_terms"; "request_human_approval"; "analyze_carrier_rates"; "optimize_contracts"]
      (JNum 0) None;
    mkAgent "executor-001" "Commander" executor idle
      "System implementation and logistics execution"
      ["reroute_shipments"; "update_erp"; "coordinate_carriers"; "manage_inventory"]
      (JNum 0) None;
    mkAgent "audit-001" "Guardian" audit idle
      "Immutable verification and compliance logging"
      ["log_to_blockchain"; "generate_compliance_report"; "verify_transactions"; "audit_trail"]
      (JNum 0) None ].

Definition MOCK_PORTS : list PortData :=
  [ mkPort "Port of Los Angeles" "LAX" (33.7, -118.2)%Q port_normal 420 (Some 0.15%Q) (Some act_high);
    mkPort "Port of Oakland" "OAK" (37.8, -122.3)%Q port_normal 180 (Some 0.05%Q) (Some act_medium);
    mkPort "Port of Vancouver" "VAN" (49.3, -123.1)%Q port_normal 240 (Some 0.08%Q) (Some act_medium);
    mkPort "Port of Seattle" "SEA" (47.6, -122.3)%Q port_normal 160 (Some 0.03%Q) (Some act_low) ].

(** [MOCK_ROUTES[0]]. *)
Definition MOCK_ROUTE_0 : JValue :=
  JObj [ ("fromPort", JStr "LAX"); ("toPort", JStr "OAK"); ("cost", JNum 15200);
         ("delay", JNum 48); ("carbonImpact", JNum (-42)); ("probability", JNum 0.89) ].

Record Step := mkStep {
  step : nat;
  title : string;
  step_description : string;
  agent : AgentType;
  tool : string;
  expectedDuration : Z
}.

Definition WORKFLOW_STEPS : list Step :=
  [ mkStep 1 "Threat Detection"
      "Sentinel detects LA port congestion via satellite imagery"
      sentinel "analyze_satellite_imagery" 45;
    mkStep 2 "Impact Analysis"
      "Simulator runs Monte Carlo analysis for optimal routing"
      simulator "run_monte_carlo" 30;
    mkStep 3 "Contract Negotiation"
      "Negotiator secures carrier capacity and terms"
      negotiator "negotiate_terms" 45;
    mkStep 4 "Human Approval"
      "Request approval for rerouting decision"
      negotiator "request_human_approval" 60;
    mkStep 5 "Execution"
      "Executor reroutes containers and updates systems"
      executor "reroute_shipments" 30;
    mkStep 6 "Audit & Compliance"
      "Audit logs to blockchain and generates reports"
      audit "log_to_blockchain" 20 ].

(** ** The hook's world

    Besides the two pieces of React state, the world holds what the hook
    reaches through closures and refs: [timeoutRef.current], the approval
    timers that [setTimeout] armed and that have neither fired nor been
    cleared (each with the agent id its callback closed over), the toasts
    shown so far, and the suspended async functions. *)

Record Toast := mkToast {
  toast_title : string;
  toast_description : string;
  destructive : bool
}.

(** The two loops over the steps: the one of [startWorkflow] and the one
    of [handleApproval]. *)
Inductive Origin := InStart | InApproval.

(** What is left of an async function at an [await].  [cap] is the
    [state.agents] that the [executeStep] closure in use was created with. *)
Inductive Kont :=
| KWorkflowInit (cap : list Agent)
    (* startWorkflow, awaiting invoke('zerotouch-workflow') *)
| KAnalysis (cap : list Agent)
    (* startWorkflow, awaiting invoke('ai-crisis-analyzer') *)
| KInvoke (o : Origin) (cap : list Agent) (i : nat)
          (agentId toolName : string) (callId : CallId) (startedAt : Z)
    (* executeStep(i) inside callLaunchIOAgent, awaiting invoke('launch-io-agents') *)
| KDelay (o : Origin) (cap : list Agent) (i : nat).
    (* after executeStep(i), awaiting the 1500 ms pause *)

(** The agents that a suspended loop closed over. *)
Definition kont_agents (k : Kont) : list Agent :=
  match k with
  | KWorkflowInit cap | KAnalysis cap => cap
  | KInvoke _ cap _ _ _ _ _ | KDelay _ cap _ => cap
  end.

Record World := mkWorld {
  state : WorkflowState;
  pendingApproval : option ApprovalRequest;
  timeoutRef : option nat;
  timers : gmap nat string;
  nextTimer : nat;
  toasts : list Toast;
  tasks : gmap nat Kont;
  nextTask : nat
}.

(** What the environment supplies when code runs: the clock and the
    random suffix of a call id. *)
Record Env := mkEnv { now : Z; rnd : string }.

(** How an awaited [supabase.functions.invoke] settles: it resolves to
    [{ data, error }] or the promise rejects. *)
Inductive InvokeOutcome :=
| Resolved (data err : JValue)
| Rejected.

(** *** State setters *)

Definition setState (f : WorkflowState -> WorkflowState) (w : World) : World :=
  mkWorld (f (state w)) (pendingApproval w) (timeoutRef w) (timers w)
          (nextTimer w) (toasts w) (tasks w) (nextTask w).

Definition setPendingApproval
    (f : option ApprovalRequest -> option ApprovalRequest) (w : World) : World :=
  mkWorld (state w) (f (pendingApproval w)) (timeoutRef w) (timers w)
          (nextTimer w) (toasts w) (tasks w) (nextTask w).

Definition toast (t : Toast) (w : World) : World :=
  mkWorld (state w) (pendingApproval w) (timeoutRef w) (timers w)
          (nextTimer w) (toasts w ++ [t]) (tasks w) (nextTask w).

(** [timeoutRef.current = setTimeout(callback, ...)], for a callback that
    closed over [agentId].  Handles start at 1, so a handle is truthy. *)
Definition setTimeoutRef (agentId : string) (w : World) : World :=
  mkWorld (state w) (pendingApproval w) (Some (nextTimer w))
          (<[nextTimer w := agentId]> (timers w))
          (S (nextTimer w)) (toasts w) (tasks w) (nextTask w).

(** [if (timeoutRef.current) clearTimeout(timeoutRef.current)]. *)
Definition clearTimeoutRef (w : World) : World :=
  match timeoutRef w with
  | Some h =>
      mkWorld (state w) (pendingApproval w) (timeoutRef w) (delete h (timers w))
              (nextTimer w) (toasts w) (tasks w) (nextTask w)
  | None => w
  end.

Definition dropTimer (h : nat) (w : World) : World :=
  mkWorld (state w) (pendingApproval w) (timeoutRef w) (delete h (timers w))
          (nextTimer w) (toasts w) (tasks w) (nextTask w).

Definition park (tid : nat) (k : Kont) (w : World) : World :=
  mkWorld (state w) (pendingApproval w) (timeoutRef w) (timers w)
          (nextTimer w) (toasts w) (<[tid := k]> (tasks w)) (nextTask w).

Definition finish (tid : nat) (w : World) : World :=
  mkWorld (state w) (pendingApproval w) (timeoutRef w) (timers w)
          (nextTimer w) (toasts w) (delete tid (tasks w)) (nextTask w).

(** A call of an async function: its task id. *)
Definition spawn (w : World) : nat * World :=
  (nextTask w,
   mkWorld (state w) (pendingApproval w) (timeoutRef w) (timers w)
           (nextTimer w) (toasts w) (tasks w) (S (nextTask w))).

Definition set_currentStep (n : nat) (s : WorkflowState) : WorkflowState :=
  mkState n (totalSteps s) (isRunning s) (startTime s) (endTime s)
          (agents s) (toolCalls s) (ports s) (metrics s).

Definition set_agents (l : list Agent) (s : WorkflowState) : WorkflowState :=
  mkState (currentStep s) (totalSteps s) (isRunning s) (startTime s) (endTime s)
          l (toolCalls s) (ports s) (metrics s).

Definition set_toolCalls (l : list ToolCall) (s : WorkflowState) : WorkflowState :=
  mkState (currentStep s) (totalSteps s) (isRunning s) (startTime s) (endTime s)
          (agents s) l (ports s) (metrics s).

Definition set_ports (l : list PortData) (s : WorkflowState) : WorkflowState :=
  mkState (currentStep s) (totalSteps s) (isRunning s) (startTime s) (endTime s)
          (agents s) (toolCalls s) l (metrics s).

Definition set_metrics (m : Metrics) (s : WorkflowState) : WorkflowState :=
  mkState (currentStep s) (totalSteps s) (isRunning s) (startTime s) (endTime s)
          (agents s) (toolCalls s) (ports s) m.

(** *** updateAgent, addToolCall, updateToolCall *)

(** [{ ...agent, ...updates }]. *)
Definition patchAgent (a : Agent) (updates : AgentPatch) : Agent :=
  mkAgent (id a) (name a) (type a)
          (default (status a) (p_status updates))
          (description a) (tools a)
          (default (confidence a) (p_confidence updates))
          (match p_lastUpdate updates with Some t => Some t | None => lastUpdate a end).

Definition updateAgent (agentId : string) (updates : AgentPatch) : World -> World :=
  setState (fun prev =>
    set_agents
      (map (fun agent => if bool_decide (id agent = agentId)
                         then patchAgent agent updates else agent)
           (agents prev))
      prev).

Definition statusPatch (s : AgentStatus) : AgentPatch := mkAgentPatch (Some s) None None.

Definition addToolCall (newToolCall : ToolCall) : World -> World :=
  setState (fun prev => set_toolCalls (toolCalls prev ++ [newToolCall]) prev).

(** [{ ...call, ...updates }]. *)
Definition patchToolCall (c : ToolCall) (updates : ToolCallPatch) : ToolCall :=
  mkToolCall (tc_id c) (tc_agentId c) (tc_toolName c) (tc_parameters c)
             (Some (q_result updates)) (tc_timestamp c)
             (Some (q_duration updates)) (q_status updates).

Definition updateToolCall (callId : CallId) (updates : ToolCallPatch) : World -> World :=
  setState (fun prev =>
    set_toolCalls
      (map (fun call => if bool_decide (tc_id call = callId)
                        then patchToolCall call updates else call)
           (toolCalls prev))
      prev).

(** *** getMockResultForTool *)

Definition getMockResultForTool (toolName : string) : JValue :=
  if bool_decide (toolName = "analyze_satellite_imagery") then
    JObj [ ("congestion_score", JNum 0.92); ("crane_activity", JStr "low");
           ("confidence", JNum 0.89); ("containers_detected", JNum 420);
           ("strike_indicators", JBool true) ]
  else if bool_decide (toolName = "run_monte_carlo") then
    JObj [ ("optimal_route", MOCK_ROUTE_0); ("cost_savings", JNum 2100000);
           ("delay_analysis", JObj [("expected", JNum 48); ("variance", JNum 12)]);
           ("scenarios_tested", JNum 10000); ("confidence", JNum 0.87) ]
  else if bool_decide (toolName = "negotiate_terms") then
    JObj [ ("carrier", JStr "Maersk"); ("original_rate", JNum 17000);
           ("negotiated_rate", JNum 15200); ("discount", JNum 0.12);
           ("terms", JArr [JStr "Priority loading"; JStr "48h SLA"; JStr "Real-time tracking"]);
           ("success", JBool true) ]
  else if bool_decide (toolName = "reroute_shipments") then
    JObj [ ("rerouted_containers", JArr [JStr "CTN-7843"; JStr "CTN-7844"; JStr "CTN-7845"]);
           ("destination", JStr "Port of Oakland");
           ("eta", JStr "2024-07-22T14:30:00Z");
           ("tracking_ids", JArr [JStr "TRK-001"; JStr "TRK-002"; JStr "TRK-003"]) ]
  else if bool_decide (toolName = "log_to_blockchain") then
    JObj [ ("transaction_hash", JStr "0x89b2f3e8c1d4a567890123456789abcdef123456");
           ("block_number", JNum 18745623); ("gas_used", JNum 52341);
           ("confirmed", JBool true) ]
  else
    JObj [ ("success", JBool true); ("data", JObj []) ].

(** *** callLaunchIOAgent

    The part before the [await] records the call and marks the agent; the
    part after it is the rest of the [try] block, or the [catch] block when
    the [try] block throws.  [agentType] and [parameters] go into the request
    body. *)

Definition callLaunchIOAgent_begin
    (agentId : string) (agentType : AgentType) (toolName : string)
    (parameters : JValue) (e : Env) (w : World) : World * CallId :=
  let callId := mkCallId (now e) (rnd e) in
  let w := addToolCall
             (mkToolCall callId agentId toolName parameters None (now e) None call_pending) w in
  let w := updateAgent agentId (statusPatch processing) w in
  (w, callId).

(** The [try] block from the [await] on, up to the value of [result]:
    [None] when it throws (the promise rejected, [error] is truthy, or
    [data.result] is read off [null] or [undefined]). *)
Definition invoke_result (toolName : string) (out : InvokeOutcome) : option JValue :=
  match out with
  | Rejected => None
  | Resolved data err =>
      if truthy err then None
      else if nullish data then None
      else
        let result := jget "result" data in
        Some (if negb (truthy result) || negb (typeof_object result)
              then getMockResultForTool toolName else result)
  end.

Definition callLaunchIOAgent_settle
    (agentId toolName : string) (callId : CallId) (startedAt : Z)
    (out : InvokeOutcome) (e : Env) (w : World) : World * JValue :=
  match invoke_result toolName out with
  | Some result =>
      let duration := (now e - startedAt)%Z in
      let w := updateToolCall callId (mkToolCallPatch result call_success duration) w in
      let w := updateAgent agentId
                 (mkAgentPatch (Some success)
                               (Some (jor (jget "confidence" result) (JNum 0.85)))
                               (Some (now e))) w in
      (w, result)
  | None =>
      let mockResult := getMockResultForTool toolName in
      let w := updateToolCall callId (mkToolCallPatch mockResult call_success 2000) w in
      let w := updateAgent agentId
                 (mkAgentPatch (Some success)
                               (Some (jor (jget "confidence" mockResult) (JNum 0.75)))
                               (Some (now e))) w in
      (w, mockResult)
  end.

(** *** executeStep *)

Definition APPROVAL_TOOL : string := "request_human_approval".

(** The parameters object that [executeStep] builds for the agent call. *)
Definition stepParameters (a : AgentType) : JValue :=
  JObj [ ("coordinates", if bool_decide (a = sentinel) then JStr "33.7°N, 118.2°W" else JUndefined);
         ("containers", if bool_decide (a = simulator) then JNum 150 else JUndefined);
         ("carrier", if bool_decide (a = negotiator) then JStr "Maersk" else JUndefined);
         ("container_ids", if bool_decide (a = executor) then JArr [JStr "CTN-7843"] else JUndefined);
         ("action", if bool_decide (a = audit)
                    then JObj [("type", JStr "reroute"); ("data", JStr "container logistics")]
                    else JUndefined) ].

(** How far a call of [executeStep] gets before it returns or suspends. *)
Inductive StepResult :=
| Returned
| Awaiting (agentId toolName : string) (callId : CallId) (startedAt : Z).

(** The callback of the approval timer, for the agent id it closed over. *)
Definition approvalTimeout (agentId : string) (w : World) : World :=
  let w := setPendingApproval
             (fun prev => match prev with
                          | Some p => Some (mkApproval (ap_id p) (message p) (requestedBy p)
                                                       (ap_timestamp p) (timeout p) ap_timeout)
                          | None => None
                          end) w in
  let w := updateAgent agentId (statusPatch error) w in
  toast (mkToast "Approval Timeout" "Human approval request timed out" true) w.

(** [executeStep(stepIndex)] up to its return or to the [await] inside
    [callLaunchIOAgent]; [cap] is the [state.agents] of its closure. *)
Definition executeStep (cap : list Agent) (stepIndex : nat) (e : Env) (w : World)
  : World * StepResult :=
  match WORKFLOW_STEPS !! stepIndex with
  | None => (w, Returned)
  | Some st =>
      match find (fun a => bool_decide (type a = agent st)) cap with
      | None => (w, Returned)
      | Some ag =>
          let w := setState (set_currentStep (stepIndex + 1)) w in
          let w := toast (mkToast (title st) (step_description st) false) w in
          if bool_decide (tool st = APPROVAL_TOOL) then
            let approvalRequest :=
              mkApproval (now e) "Approve Oakland reroute for 150 containers?"
                         (id ag) (now e) 300000 ap_pending in
            let w := setPendingApproval (fun _ => Some approvalRequest) w in
            let w := updateAgent (id ag) (statusPatch waiting) w in
            let w := setTimeoutRef (id ag) w in
            (w, Returned)
          else
            let '(w, callId) :=
              callLaunchIOAgent_begin (id ag) (agent st) (tool st)
                                      (stepParameters (agent st)) e w in
            (w, Awaiting (id ag) (tool st) callId (now e))
      end
  end.

(** The rest of [executeStep(stepIndex)] once the awaited agent call
    settles: the metrics bound to steps 1 and 4. *)
Definition executeStep_resume
    (stepIndex : nat) (agentId toolName : string) (callId : CallId) (startedAt : Z)
    (out : InvokeOutcome) (e : Env) (w : World) : World :=
  let w := fst (callLaunchIOAgent_settle agentId toolName callId startedAt out e w) in
  let w := if bool_decide (stepIndex = 1)
           then setState (fun prev =>
                  set_metrics (mkMetrics (JNum 2100000) 42
                                         (humanLaborSaved (metrics prev))
                                         (timeToResolution (metrics prev))) prev) w
           else w in
  if bool_decide (stepIndex = 4)
  then setState (fun prev =>
         set_metrics (mkMetrics (costSavings (metrics prev))
                                (carbonReduction (metrics prev))
                                18.7
                                (timeToResolution (metrics prev))) prev) w
  else w.

(** *** The two loops and the completion block *)

(** The block after either loop: "Complete workflow". *)
Definition completeWorkflow (o : Origin) (e : Env) (w : World) : World :=
  let w := setState (fun prev =>
             mkState (currentStep prev) (totalSteps prev) false
                     (startTime prev) (Some (now e))
                     (agents prev) (toolCalls prev) (ports prev)
                     (mkMetrics (costSavings (metrics prev))
                                (carbonReduction (metrics prev))
                                (humanLaborSaved (metrics prev))
                                4.2)) w in
  toast (mkToast "Workflow Complete"
           (match o with
            | InStart => "ZeroTouch system successfully resolved the port strike using Launch IO AI"
            | InApproval => "ZeroTouch system successfully resolved the port strike"
            end) false) w.

(** What follows [await executeStep(i)] in the loop body.  The loop of
    [startWorkflow] pauses after a step that is not the approval step and
    returns (the task ends) after the approval step; the loop of
    [handleApproval] always pauses. *)
Definition after_step (o : Origin) (cap : list Agent) (i : nat) (tid : nat) (w : World)
  : World :=
  match o with
  | InStart =>
      match WORKFLOW_STEPS !! i with
      | Some st =>
          if bool_decide (tool st <> APPROVAL_TOOL)
          then park tid (KDelay o cap i) w
          else finish tid w
      | None => finish tid w
      end
  | InApproval => park tid (KDelay o cap i) w
  end.

(** The loop test at index [i] and what it leads to: the body up to its
    first suspension, or the completion block. *)
Definition loop_from (o : Origin) (cap : list Agent) (i : nat) (e : Env) (tid : nat)
    (w : World) : World :=
  if bool_decide (i < length WORKFLOW_STEPS) then
    match executeStep cap i e w with
    | (w, Awaiting agentId toolName callId startedAt) =>
        park tid (KInvoke o cap i agentId toolName callId startedAt) w
    | (w, Returned) => after_step o cap i tid w
    end
  else finish tid (completeWorkflow o e w).

(** *** startWorkflow *)

Definition startWorkflow (e : Env) (w0 : World) : World :=
  let cap := agents (state w0) in
  let '(tid, w) := spawn w0 in
  let w := setState (fun prev =>
             mkState 0 (totalSteps prev) true (Some (now e)) (endTime prev)
                     (map (fun a => mkAgent (id a) (name a) (type a) idle (description a)
                                            (tools a) (JNum 0) (lastUpdate a))
                          MOCK_AGENTS)
                     [] (ports prev) (metrics prev)) w in
  let w := setState (fun prev =>
             set_ports
               (map (fun port => if bool_decide (code port = "LAX")
                                 then mkPort (port_name port) (code port) (coordinates port)
                                             port_strike (containers port) (Some 0.92%Q)
                                             (craneActivity port)
                                 else port)
                    (ports prev)) prev) w in
  park tid (KWorkflowInit cap) w.

(** The [catch] block around the two backend calls of [startWorkflow]. *)
Definition startWorkflow_catch (w : World) : World :=
  toast (mkToast "Launch IO Integration" "Running with AI-enhanced simulation mode" false) w.

(** After [invoke('zerotouch-workflow')] settles. *)
Definition startWorkflow_after_init
    (cap : list Agent) (out : InvokeOutcome) (e : Env) (tid : nat) (w : World) : World :=
  match out with
  | Resolved _ _ => park tid (KAnalysis cap) w
  | Rejected => loop_from InStart cap 0 e tid (startWorkflow_catch w)
  end.

(** After [invoke('ai-crisis-analyzer')] settles. *)
Definition startWorkflow_after_analysis
    (cap : list Agent) (out : InvokeOutcome) (e : Env) (tid : nat) (w : World) : World :=
  match out with
  | Resolved analysisData analysisError =>
      let analysis := jget_opt "analysis" analysisData in
      let w := if negb (truthy analysisError) && truthy analysis
               then setState (fun prev =>
                      set_metrics
                        (mkMetrics
                           (jor (jget_opt "expected_savings"
                                   (jfirst_opt (jget "recommendations" analysis)))
                                (JNum 0))
                           42
                           (humanLaborSaved (metrics prev))
                           (timeToResolution (metrics prev))) prev) w
               else w in
      loop_from InStart cap 0 e tid w
  | Rejected => loop_from InStart cap 0 e tid (startWorkflow_catch w)
  end.

(** *** handleApproval

    The handler in use is the one of the latest render, so the
    [pendingApproval] and [state.agents] it closed over are the current
    ones. *)
Definition handleApproval (approved : bool) (e : Env) (w0 : World) : World :=
  match pendingApproval w0 with
  | None => w0
  | Some p =>
      let cap := agents (state w0) in
      let w := clearTimeoutRef w0 in
      let w := match find (fun a => bool_decide (id a = requestedBy p)) cap with
               | Some ag => updateAgent (id ag)
                              (statusPatch (if approved then success else error)) w
               | None => w
               end in
      let w := setPendingApproval (fun _ => None) w in
      if approved then
        let w := toast (mkToast "Approval Granted"
                                "Continuing with container rerouting..." false) w in
        let '(tid, w) := spawn w in
        loop_from InApproval cap 4 e tid w
      else
        let w := toast (mkToast "Approval Denied"
                                "Workflow terminated by human override" true) w in
        setState (fun prev =>
          mkState (currentStep prev) (totalSteps prev) false
                  (startTime prev) (Some (now e))
                  (agents prev) (toolCalls prev) (ports prev) (metrics prev)) w
  end.

(** [handleApproval] as the closure of any render: [captured] and [cap]
    are the [pendingApproval] and the [state.agents] of that render, while
    [timeoutRef] and the state updates are those of the hook as it is now.
    [handleApproval] above is the closure of the latest render. *)
Definition handleApproval_closure
    (captured : option ApprovalRequest) (cap : list Agent)
    (approved : bool) (e : Env) (w0 : World) : World :=
  match captured with
  | None => w0
  | Some p =>
      let w := clearTimeoutRef w0 in
      let w := match find (fun a => bool_decide (id a = requestedBy p)) cap with
               | Some ag => updateAgent (id ag)
                              (statusPatch (if approved then success else error)) w
               | None => w
               end in
      let w := setPendingApproval (fun _ => None) w in
      if approved then
        let w := toast (mkToast "Approval Granted"
                                "Continuing with container rerouting..." false) w in
        let '(tid, w) := spawn w in
        loop_from InApproval cap 4 e tid w
      else
        let w := toast (mkToast "Approval Denied"
                                "Workflow terminated by human override" true) w in
        setState (fun prev =>
          mkState (currentStep prev) (totalSteps prev) false
                  (startTime prev) (Some (now e))
                  (agents prev) (toolCalls prev) (ports prev) (metrics prev)) w
  end.

(** *** resetWorkflow *)

Definition initialState : WorkflowState :=
  mkState 0 (length WORKFLOW_STEPS) false None None
          MOCK_AGENTS [] MOCK_PORTS
          (mkMetrics (JNum 0) 0 0 0).

Definition resetWorkflow (w : World) : World :=
  let w := clearTimeoutRef w in
  let w := setState (fun _ => initialState) w in
  setPendingApproval (fun _ => None) w.

(** The hook at its first render. *)
Definition initialWorld : World :=
  mkWorld initialState None None ∅ 1 [] ∅ 0.

(** ** Events

    What can happen to the hook: a call of one of the three functions it
    returns, the approval timer firing, and an awaited promise settling. *)
Inductive Event :=
| EStart (e : Env)
| EReset
| EDecide (approved : bool) (e : Env)
| ETimeout (h : nat)
| ESettle (tid : nat) (out : InvokeOutcome) (e : Env)
| EDelay (tid : nat) (e : Env).

(** One event; [None] when the event cannot happen in [w] (no such live
    timer, no task suspended at such an await). *)
Definition step_event (ev : Event) (w : World) : option World :=
  match ev with
  | EStart e => Some (startWorkflow e w)
  | EReset => Some (resetWorkflow w)
  | EDecide approved e => Some (handleApproval approved e w)
  | ETimeout h =>
      match timers w !! h with
      | Some agentId => Some (approvalTimeout agentId (dropTimer h w))
      | None => None
      end
  | ESettle tid out e =>
      match tasks w !! tid with
      | Some (KWorkflowInit cap) => Some (startWorkflow_after_init cap out e tid w)
      | Some (KAnalysis cap) => Some (startWorkflow_after_analysis cap out e tid w)
      | Some (KInvoke o cap i agentId toolName callId startedAt) =>
          Some (after_step o cap i tid
                  (executeStep_resume i agentId toolName callId startedAt out e w))
      | _ => None
      end
  | EDelay tid e =>
      match tasks w !! tid with
      | Some (KDelay o cap i) => Some (loop_from o cap (S i) e tid w)
      | _ => None
      end
  end.

(** A sequence of events, from left to right. *)
Fixpoint run (evs : list Event) (w : World) : option World :=
  match evs with
  | [] => Some w
  | ev :: rest =>
      match step_event ev w with
      | Some w' => run rest w'
      | None => None
      end
  end.

(** ** Observations and scenarios *)

Definition approvalStatus (w : World) : option ApprovalStatus :=
  ap_status <$> pendingApproval w.

Definition agentStatus (agentId : string) (w : World) : option AgentStatus :=
  status <$> find (fun a => bool_decide (id a = agentId)) (agents (state w)).

Definition running (w : World) : bool := isRunning (state w).

(** No tool call of the log is still pending: every agent invocation
    recorded so far has settled. *)
Definition no_pending (w : World) : Prop :=
  Forall (fun c => tc_status c <> call_pending) (toolCalls (state w)).

(** The first render, [start()], every backend and agent call failing, up
    to the approval step: steps 0 to 2 settle with fallback results, step 3
    opens the approval request at t = 4900 and arms timer 1. *)
Definition until_approval : list Event :=
  [ EStart (mkEnv 0 "a");
    ESettle 0 Rejected (mkEnv 100 "b");
    ESettle 0 Rejected (mkEnv 200 "c");
    EDelay 0 (mkEnv 1700 "d");
    ESettle 0 Rejected (mkEnv 1800 "e");
    EDelay 0 (mkEnv 3300 "f");
    ESettle 0 Rejected (mkEnv 3400 "g");
    EDelay 0 (mkEnv 4900 "h") ].

(** The resumed loop of an approved run, every agent call failing, the
    decision taken at time [t]; the run ends at [t + 3200]. *)
Definition after_approval (t : Z) : list Event :=
  [ EDecide true (mkEnv t "i");
    ESettle 1 Rejected (mkEnv (t + 100) "j");
    EDelay 1 (mkEnv (t + 1600) "k");
    ESettle 1 Rejected (mkEnv (t + 1700) "l");
    EDelay 1 (mkEnv (t + 3200) "m") ].

(** The elapsed time of a run in minutes, as the specification words the
    time to resolution: now − startedAt. *)
Definition elapsedMinutes (startedAt now_ : Z) : Q :=
  (inject_Z (now_ - startedAt) / 60000)%Q.

(** ** A single run

    A run is [startWorkflow] followed by any events other than another
    start or a reset. *)

(** The events of a run once it is started. *)
Definition run_event (ev : Event) : bool :=
  match ev with
  | EStart _ | EReset => false
  | _ => true
  end.

(** [handleApproval(true)]. *)
Definition is_approve (ev : Event) : bool :=
  match ev with
  | EDecide true _ => true
  | _ => false
  end.

(** The events that happen, each with the world before and after it; the
    list ends at the first event that cannot happen. *)
Fixpoint transitions (evs : list Event) (w : World) : list (World * Event * World) :=
  match evs with
  | [] => []
  | ev :: rest =>
      match step_event ev w with
      | Some w' => (w, ev, w') :: transitions rest w'
      | None => []
      end
  end.

(** A coarser reading of the order, a stepping stone of the proofs:
    [currentStep] does not decrease, and it moves only with no call pending. *)
Definition coarse_order (t : World * Event * World) : Prop :=
  let '(w1, ev, w2) := t in
  let c1 := currentStep (state w1) in
  let c2 := currentStep (state w2) in
  c1 <= c2 /\
  (c1 < c2 -> no_pending w1) /\
  (length (toolCalls (state w1)) < length (toolCalls (state w2)) -> c1 < c2) /\
  (pendingApproval w1 = None -> pendingApproval w2 <> None -> c1 < c2 /\ c2 = 4) /\
  (c1 <= 4 -> 4 < c2 ->
   is_approve ev = true /\ pendingApproval w1 <> None /\ c1 = 4 /\ c2 = 5).

(** The list has the five agent roles, in the order of [MOCK_AGENTS]. *)
Definition roles_ok (l : list Agent) : Prop := map type l = map type MOCK_AGENTS.

(** The only calls still pending are those with id [callId]. *)
Definition pending_only (callId : CallId) (w : World) : Prop :=
  Forall (fun c => tc_status c = call_pending -> tc_id c = callId) (toolCalls (state w)).

(** Where a loop can be: the loop of [startWorkflow] at a step before the
    approval step; the loop of [handleApproval] at step 4 or 5, run with an
    [executeStep] that finds every agent, [currentStep] showing that step. *)
Definition origin_ok (o : Origin) (cap : list Agent) (i c : nat) : Prop :=
  match o with
  | InStart => i < 3
  | InApproval => 4 <= i < 6 /\ roles_ok cap /\ c = S i
  end.

(** The task table holds at most the task [tid]. *)
Definition sole (tid : nat) (w : World) : Prop :=
  tasks w = ∅ \/ exists k, tasks w = {[tid := k]}.

(** Where a run can be: in the backend calls of [startWorkflow]; in a
    step's agent call; in the pause after a step; or with no task (at the
    approval gate, or over). *)
Inductive Phase (w : World) : Prop :=
| PBackend tid k :
    tasks w = {[tid := k]} ->
    (exists cap, k = KWorkflowInit cap \/ k = KAnalysis cap) ->
    currentStep (state w) = 0 ->
    toolCalls (state w) = [] ->
    pendingApproval w = None ->
    Phase w
| PInvoke tid o cap i agentId toolName callId t0 :
    tasks w = {[tid := KInvoke o cap i agentId toolName callId t0]} ->
    origin_ok o cap i (currentStep (state w)) ->
    currentStep (state w) = S i ->
    pending_only callId w ->
    pendingApproval w = None ->
    Phase w
| PDelay tid o cap i :
    tasks w = {[tid := KDelay o cap i]} ->
    origin_ok o cap i (currentStep (state w)) ->
    currentStep (state w) <= S i ->
    no_pending w ->
    pendingApproval w = None ->
    Phase w
| PIdle :
    tasks w = ∅ ->
    no_pending w ->
    (pendingApproval w <> None -> currentStep (state w) = 4) ->
    Phase w.

(** The invariant of a run. *)
Definition Inv (w : World) : Prop := roles_ok (agents (state w)) /\ Phase w.


(** ** The order of the steps

    The hook keeps no status per step.  What it records of a step is the
    tool call that the step makes (pending until the call settles, success
    from then on) and, for the approval step, the approval request. *)

(** The tools of the steps of index below [c] that call an agent, in the
    order of the steps. *)
Definition begun_tools (c : nat) : list string :=
  filter (fun t => t <> APPROVAL_TOOL) (map tool (take c WORKFLOW_STEPS)).

(** Every tool call recorded so far has settled with success. *)
Definition all_success (w : World) : Prop :=
  Forall (fun c => tc_status c = call_success) (toolCalls (state w)).

(** The step of index [i] begins between [w1] and [w2]: the approval step
    opens a pending request and records no call; any other step appends a
    pending call of its tool to the log. *)
Definition begins_step (i : nat) (w1 w2 : World) : Prop :=
  match WORKFLOW_STEPS !! i with
  | None => False
  | Some st =>
      if bool_decide (tool st = APPROVAL_TOOL) then
        toolCalls (state w2) = toolCalls (state w1) /\
        pendingApproval w1 = None /\
        approvalStatus w2 = Some ap_pending
      else
        pendingApproval w2 = None /\
        exists c, toolCalls (state w2) = (toolCalls (state w1) ++ [c])%list /\
                  tc_toolName c = tool st /\ tc_status c = call_pending
  end.

(** One transition respects the order of the steps.  [currentStep] is the
    index of the latest step begun, plus one.  Before the transition the log
    holds one call for each step begun that calls an agent, in the order of
    the steps.  The transition begins no step, or exactly the step of index
    [currentStep]; it begins it only when every call of the log has
    succeeded; without a step begun the log gets no call and no request is
    opened.  While a request is open [currentStep] is 4, and the step of
    index 4 begins exactly at an approving decision. *)
Definition in_order (t : World * Event * World) : Prop :=
  let '(w1, ev, w2) := t in
  let c1 := currentStep (state w1) in
  let c2 := currentStep (state w2) in
  map tc_toolName (toolCalls (state w1)) = begun_tools c1 /\
  (c2 = c1 \/ c2 = S c1) /\
  (c2 = c1 ->
   length (toolCalls (state w2)) = length (toolCalls (state w1)) /\
   (pendingApproval w1 = None -> pendingApproval w2 = None)) /\
  (c2 = S c1 -> all_success w1 /\ begins_step c1 w1 w2) /\
  (pendingApproval w1 <> None -> c1 = 4 /\ (c2 = 5 <-> is_approve ev = true)) /\
  (c1 = 4 -> c2 = 5 -> is_approve ev = true /\ pendingApproval w1 <> None).

(** What the order rests on, in addition to [Inv]: the log lists the tools
    of the steps begun, no call has status error, every suspended loop closed
    over a list with the five roles, and a loop that pauses after the step of
    index [i] has [currentStep] at [i + 1]. *)
Definition Sequenced (w : World) : Prop :=
  map tc_toolName (toolCalls (state w)) = begun_tools (currentStep (state w)) /\
  Forall (fun c => tc_status c <> call_error) (toolCalls (state w)) /\
  map_Forall (fun _ k => roles_ok (kont_agents k) /\
                         match k with
                         | KDelay _ _ i => currentStep (state w) = S i
                         | _ => True
                         end) (tasks w).

(** The first run of the counterexample to the order: [start()], the first
    backend call fails, the call of step 0 is in flight, [reset()]. *)
Definition stale_start : list Event :=
  [ EStart (mkEnv 0 "a"); ESettle 0 Rejected (mkEnv 100 "b"); EReset ].

(** The second run, begun by [start()] with that call still in flight: the
    old call settles and the old loop goes on to step 1, then the first
    backend call of the new run fails and the new loop begins step 0. *)
Definition stale_run : list Event :=
  [ ESettle 0 Rejected (mkEnv 300 "d");
    EDelay 0 (mkEnv 1800 "e");
    ESettle 1 Rejected (mkEnv 1900 "f") ].

(** ** The dashboard

    components/ZeroTouchDashboard.tsx is the caller of the hook.  Its Start
    and Reset buttons are disabled while [state.isRunning].  It renders the
    approval dialog while [pendingApproval] is not null, inside
    [AnimatePresence]: when the request is cleared, the dialog of the last
    render that had one stays mounted until its exit animation ends, with its
    buttons and with the [handleApproval] of that render. *)

(** The dialog as last rendered: the request it shows and the
    [state.agents] of that render, which its handlers closed over. *)
Record Dialog := mkDialog {
  dialog_request : ApprovalRequest;
  dialog_agents : list Agent
}.

Record Dashboard := mkDashboard {
  hook : World;
  dialog : option Dialog
}.

(** A render after the hook changed: an open request is shown with the
    handlers of this render; without a request the dialog that was there, if
    any, stays as it was, on its way out. *)
Definition render (previous : option Dialog) (w : World) : Dashboard :=
  mkDashboard w
    (match pendingApproval w with
     | Some p => Some (mkDialog p (agents (state w)))
     | None => previous
     end).

Definition firstRender : Dashboard := render None initialWorld.

(** What can happen to the dashboard: an event of the hook (for a start, a
    reset or a decision: the click on the button), or the end of the exit
    animation of a dialog. *)
Inductive Action :=
| Happens (ev : Event)
| ExitEnds.

(** One action; [None] when it cannot happen: a click on a disabled button
    or on a dialog that is not there, an event that the hook cannot have. *)
Definition dashboard_step (a : Action) (d : Dashboard) : option Dashboard :=
  match a with
  | Happens (EStart e) =>
      if isRunning (state (hook d)) then None
      else Some (render (dialog d) (startWorkflow e (hook d)))
  | Happens EReset =>
      if isRunning (state (hook d)) then None
      else Some (render (dialog d) (resetWorkflow (hook d)))
  | Happens (EDecide approved e) =>
      match dialog d with
      | Some dl =>
          Some (render (dialog d)
                  (handleApproval_closure (Some (dialog_request dl)) (dialog_agents dl)
                                          approved e (hook d)))
      | None => None
      end
  | Happens ev =>
      match step_event ev (hook d) with
      | Some w => Some (render (dialog d) w)
      | None => None
      end
  | ExitEnds =>
      match pendingApproval (hook d), dialog d with
      | None, Some _ => Some (mkDashboard (hook d) None)
      | _, _ => None
      end
  end.

Fixpoint dashboard_run (acts : list Action) (d : Dashboard) : option Dashboard :=
  match acts with
  | [] => Some d
  | a :: rest =>
      match dashboard_step a d with
      | Some d' => dashboard_run rest d'
      | None => None
      end
  end.

(** The action is no click on a dialog that is on its way out: a decision
    is taken while the request is open. *)
Definition on_open_request (a : Action) (d : Dashboard) : bool :=
  match a with
  | Happens (EDecide _ _) =>
      match pendingApproval (hook d) with Some _ => true | None => false end
  | _ => true
  end.

(** No action of the run is a click on a dialog on its way out. *)
Fixpoint no_late_click (acts : list Action) (d : Dashboard) : bool :=
  match acts with
  | [] => true
  | a :: rest =>
      on_open_request a d &&
      match dashboard_step a d with
      | Some d' => no_late_click rest d'
      | None => true
      end
  end.

(** The dialog of an open request is that of the latest render. *)
Definition dialog_current (d : Dashboard) : Prop :=
  forall p, pendingApproval (hook d) = Some p ->
            dialog d = Some (mkDialog p (agents (state (hook d)))).

(** Nothing in flight and no approval open. *)
Definition quiescent (w : World) : Prop :=
  tasks w = ∅ /\ pendingApproval w = None.

(** ** What stays of an agent, a tool call and a port

    The fields that no update of the hook writes. *)

Definition agentIdentity (a : Agent) : string * string * AgentType * string * list string :=
  (id a, name a, type a, description a, tools a).

Definition callRecord (c : ToolCall) : CallId * string * string * JValue * Z :=
  (tc_id c, tc_agentId c, tc_toolName c, tc_parameters c, tc_timestamp c).

(** [MOCK_PORTS] after the second state update of [startWorkflow]. *)
Definition strikePorts : list PortData :=
  map (fun port => if bool_decide (code port = "LAX")
                   then mkPort (port_name port) (code port) (coordinates port)
                               port_strike (containers port) (Some 0.92%Q)
                               (craneActivity port)
                   else port)
      MOCK_PORTS.

(** What no event but a start or a reset changes: who the agents are, the
    number of steps, the ports and the start time. *)
Definition same_frame (w w' : World) : Prop :=
  map agentIdentity (agents (state w')) = map agentIdentity (agents (state w)) /\
  totalSteps (state w') = totalSteps (state w) /\
  ports (state w') = ports (state w) /\
  startTime (state w') = startTime (state w).

(** How the log of tool calls may grow in one event: every entry stays in
    its place with its id, agent, tool, parameters and timestamp, an entry
    that has succeeded stays so, and at most one entry is added. *)
Definition log_grows (w w' : World) : Prop :=
  exists kept added,
    toolCalls (state w') = (kept ++ added)%list /\
    length added <= 1 /\
    Forall2 (fun c c' => callRecord c' = callRecord c /\
                         (tc_status c = call_success -> tc_status c' = call_success))
            (toolCalls (state w)) kept.

(** The bounds the progress display relies on. *)
Definition step_bounded (w : World) : Prop :=
  totalSteps (state w) = length WORKFLOW_STEPS /\
  currentStep (state w) <= totalSteps (state w).

(** The agents are those of [MOCK_AGENTS], whatever their status. *)
Definition mock_agents (w : World) : Prop :=
  map agentIdentity (agents (state w)) = map agentIdentity MOCK_AGENTS.

(** The ports are those of [MOCK_PORTS], Los Angeles on strike from the
    first start on until a reset. *)
Definition ports_follow_start (w : World) : Prop :=
  ports (state w) = match startTime (state w) with
                    | Some _ => strikePorts
                    | None => MOCK_PORTS
                    end.

(** ** supabase/functions/zerotouch-workflow/index.ts

    The edge function that the hook invokes at the start of a run.  It
    keeps its workflows in a [Map] from the workflow id to a workflow object;
    a handler mutates the object it got from the map in place, so what it
    writes is in the map at once, also when the handler throws later.  A
    workflow object is identified here with its entry in the map: the entry
    of an id is replaced only by a start that draws an id already in use.
    Requests are taken as typed by their interfaces ([step_index] a whole
    number, [workflow_id] and [agent_type] strings). *)

Inductive StepState := st_pending | st_processing | st_completed | st_failed.

Inductive FlowState := flow_active | flow_completed | flow_failed.

Record FlowStep := mkFlowStep {
  fs_name : string;
  fs_agent : string;
  fs_status : StepState;
  fs_description : string;
  fs_started_at : option Z;
  fs_completed_at : option Z;
  fs_result : option JValue;
  fs_error : option JValue
}.

(** [time_to_resolution] is a quotient of two whole numbers of
    milliseconds; the rational stands for it. *)
Record FlowMetrics := mkFlowMetrics {
  cost_savings : JValue;
  carbon_reduction : Q;
  human_labor_saved : Q;
  time_to_resolution : Q
}.

Record Workflow := mkWorkflow {
  wf_id : string;
  wf_status : FlowState;
  wf_created_at : Z;
  wf_completed_at : option Z;
  wf_crisis_type : JValue;
  wf_location : JValue;
  wf_severity : JValue;
  wf_containers_affected : JValue;
  wf_current_step : Z;
  wf_steps : list FlowStep;
  wf_metrics : FlowMetrics
}.

(** [StepExecutionRequest]. *)
Record StepRequest := mkStepRequest {
  rq_workflow_id : string;
  rq_step_index : Z;
  rq_agent_type : string;
  rq_parameters : JValue
}.

(** The errors that end in the [catch] of [serve]: the three that the
    function throws itself, and those that the runtime throws (a body that
    is not JSON, a failed fetch, a property read off [null]). *)
Inductive ErrorKind :=
| ErrInvalidEndpoint | ErrWorkflowNotFound | ErrInvalidStepIndex | ErrRuntime.

(** The responses, by the object that is serialised into the body. *)
Inductive Reply :=
| ReplyPreflight
| ReplyStarted (workflow_id : string) (workflow : Workflow)
| ReplyStep (workflow_id : string) (step_result : JValue)
            (workflow_status : FlowState) (current_step : Z)
| ReplyStatus (workflow : Workflow)
| ReplyNotFound
| ReplyError (error : ErrorKind).

(** The HTTP status of a response. *)
Definition reply_status (r : Reply) : Z :=
  match r with
  | ReplyNotFound => 404
  | ReplyError _ => 500
  | _ => 200
  end.

(** How the call of the agent function settles: the fetch or the parsing
    of its body throws, or the body parses to [agentResult]. *)
Inductive AgentReply :=
| AgentThrows
| AgentJson (agentResult : JValue).

(** [s.includes(sub)]. *)
Fixpoint includes (sub s : string) : bool :=
  String.prefix sub s ||
  match s with
  | EmptyString => false
  | String _ rest => includes sub rest
  end.

(** [s.split('/').pop()]. *)
Fixpoint last_segment_from (cur s : string) : string :=
  match s with
  | EmptyString => cur
  | String c rest =>
      if bool_decide (String c "" = "/") then last_segment_from "" rest
      else last_segment_from (cur ++ String c "") rest
  end.

Definition last_segment (s : string) : string := last_segment_from "" s.

Inductive Endpoint :=
| EpPreflight | EpStart | EpExecuteStep | EpStatus (workflowId : string) | EpInvalid.

(** The dispatch of [serve]. *)
Definition endpoint_of (method pathname : string) : Endpoint :=
  if bool_decide (method = "OPTIONS") then EpPreflight
  else if includes "/start" pathname then EpStart
  else if includes "/execute-step" pathname then EpExecuteStep
  else if includes "/status" pathname then EpStatus (last_segment pathname)
  else EpInvalid.

Definition initialSteps : list FlowStep :=
  [ mkFlowStep "Crisis Detection" "sentinel" st_pending
      "Analyzing satellite imagery and port data for strike indicators"
      None None None None;
    mkFlowStep "Impact Simulation" "simulator" st_pending
      "Running Monte Carlo simulations for optimal rerouting"
      None None None None;
    mkFlowStep "Carrier Negotiation" "negotiator" st_pending
      "Negotiating terms with alternative carriers"
      None None None None;
    mkFlowStep "Route Execution" "executor" st_pending
      "Implementing container rerouting to Oakland"
      None None None None;
    mkFlowStep "Compliance Audit" "audit" st_pending
      "Logging actions to blockchain for audit trail"
      None None None None ].

Definition set_step (f : FlowStep -> FlowStep) (i : nat) (wf : Workflow) : Workflow :=
  mkWorkflow (wf_id wf) (wf_status wf) (wf_created_at wf) (wf_completed_at wf)
             (wf_crisis_type wf) (wf_location wf) (wf_severity wf)
             (wf_containers_affected wf) (wf_current_step wf)
             (alter f i (wf_steps wf)) (wf_metrics wf).

Definition set_flow_metrics (m : FlowMetrics) (wf : Workflow) : Workflow :=
  mkWorkflow (wf_id wf) (wf_status wf) (wf_created_at wf) (wf_completed_at wf)
             (wf_crisis_type wf) (wf_location wf) (wf_severity wf)
             (wf_containers_affected wf) (wf_current_step wf)
             (wf_steps wf) m.

Module Backend.

(** [startWorkflow(request)]; [workflowId] is the id that it draws,
    [`workflow-${Date.now()}-${random}`]. *)
Definition startWorkflow (request : JValue) (workflowId : string) (now_ : Z)
    (store : gmap string Workflow) : gmap string Workflow * Reply :=
  if nullish request then (store, ReplyError ErrRuntime)
  else
    let workflow :=
      mkWorkflow workflowId flow_active now_ None
                 (jget "crisis_type" request) (jget "location" request)
                 (jget "severity" request)
                 (jor (jget "containers_affected" request) (JNum 150))
                 0 initialSteps
                 (mkFlowMetrics (JNum 0) 0 0 0) in
    (<[workflowId := workflow]> store, ReplyStarted workflowId workflow).

(** [updateWorkflowMetrics(workflow, agentType, result)]; [None] when it
    throws (a property read off a [result] that is null or undefined). *)
Definition updateWorkflowMetrics (workflow : Workflow) (agentType : string)
    (result : JValue) : option Workflow :=
  let m := wf_metrics workflow in
  if bool_decide (agentType = "simulator") then
    if nullish result then None
    else if truthy (jget "cost_analysis" result) then
      Some (set_flow_metrics
              (mkFlowMetrics (jor (jget "savings" (jget "cost_analysis" result))
                                  (JNum 2100000))
                             (carbon_reduction m) (human_labor_saved m)
                             (time_to_resolution m)) workflow)
    else Some workflow
  else if bool_decide (agentType = "negotiator") then
    if nullish result then None
    else if truthy (jget "price_analysis" result) then
      Some (set_flow_metrics
              (mkFlowMetrics (cost_savings m) 42 (human_labor_saved m)
                             (time_to_resolution m)) workflow)
    else Some workflow
  else if bool_decide (agentType = "executor") then
    Some (set_flow_metrics
            (mkFlowMetrics (cost_savings m) (carbon_reduction m) 18.7
                           (time_to_resolution m)) workflow)
  else Some workflow.

(** [executeWorkflowStep] up to its [await fetch(...)]: the lookups, and
    the step marked as processing.  [inr i] is the index of the step. *)
Definition executeWorkflowStep_begin (request : StepRequest) (now_ : Z)
    (store : gmap string Workflow) : gmap string Workflow * (ErrorKind + nat) :=
  match store !! rq_workflow_id request with
  | None => (store, inl ErrWorkflowNotFound)
  | Some workflow =>
      if bool_decide (0 <= rq_step_index request < Z.of_nat (length (wf_steps workflow)))%Z
      then
        let i := Z.to_nat (rq_step_index request) in
        (<[rq_workflow_id request :=
             set_step (fun step =>
               mkFlowStep (fs_name step) (fs_agent step) st_processing
                          (fs_description step) (Some now_) (fs_completed_at step)
                          (fs_result step) (fs_error step)) i workflow]> store,
         inr i)
      else (store, inl ErrInvalidStepIndex)
  end.

(** The part of the success branch before [updateWorkflowMetrics]. *)
Definition complete_step (i : nat) (result : JValue) (now_ : Z) (workflow : Workflow)
  : Workflow :=
  set_step (fun step =>
    mkFlowStep (fs_name step) (fs_agent step) st_completed (fs_description step)
               (fs_started_at step) (Some now_) (Some result) (fs_error step))
    i workflow.

(** The part of the success branch after [updateWorkflowMetrics]. *)
Definition advance (request : StepRequest) (now_ : Z) (workflow : Workflow) : Workflow :=
  let current := (rq_step_index request + 1)%Z in
  if bool_decide (Z.of_nat (length (wf_steps workflow)) <= current)%Z then
    mkWorkflow (wf_id workflow) flow_completed (wf_created_at workflow) (Some now_)
               (wf_crisis_type workflow) (wf_location workflow) (wf_severity workflow)
               (wf_containers_affected workflow) current (wf_steps workflow)
               (mkFlowMetrics (cost_savings (wf_metrics workflow))
                              (carbon_reduction (wf_metrics workflow))
                              (human_labor_saved (wf_metrics workflow))
                              (inject_Z (now_ - wf_created_at workflow) / 1000 / 60)%Q)
  else
    mkWorkflow (wf_id workflow) (wf_status workflow) (wf_created_at workflow)
               (wf_completed_at workflow)
               (wf_crisis_type workflow) (wf_location workflow) (wf_severity workflow)
               (wf_containers_affected workflow) current (wf_steps workflow)
               (wf_metrics workflow).

(** The [else] branch: the agent did not report success. *)
Definition fail_step (i : nat) (err : JValue) (workflow : Workflow) : Workflow :=
  let wf := set_step (fun step =>
              mkFlowStep (fs_name step) (fs_agent step) st_failed (fs_description step)
                         (fs_started_at step) (fs_completed_at step)
                         (fs_result step) (Some err)) i workflow in
  mkWorkflow (wf_id wf) flow_failed (wf_created_at wf) (wf_completed_at wf)
             (wf_crisis_type wf) (wf_location wf) (wf_severity wf)
             (wf_containers_affected wf) (wf_current_step wf) (wf_steps wf)
             (wf_metrics wf).

(** [executeWorkflowStep] from the settlement of the fetch on, for the
    step of index [i] of the workflow in the entry of the request's id. *)
Definition executeWorkflowStep_finish (request : StepRequest) (i : nat)
    (reply : AgentReply) (now_ : Z) (store : gmap string Workflow)
  : gmap string Workflow * Reply :=
  match store !! rq_workflow_id request, reply with
  | None, _ => (store, ReplyError ErrRuntime)
  | Some _, AgentThrows => (store, ReplyError ErrRuntime)
  | Some workflow, AgentJson agentResult =>
      if nullish agentResult then (store, ReplyError ErrRuntime)
      else if truthy (jget "success" agentResult) then
        let result := jget "result" agentResult in
        let wf := complete_step i result now_ workflow in
        match updateWorkflowMetrics wf (rq_agent_type request) result with
        | None => (<[rq_workflow_id request := wf]> store, ReplyError ErrRuntime)
        | Some wf =>
            let wf := advance request now_ wf in
            (<[rq_workflow_id request := wf]> store,
             ReplyStep (rq_workflow_id request) agentResult
                       (wf_status wf) (wf_current_step wf))
        end
      else
        let wf := fail_step i (jget "error" agentResult) workflow in
        (<[rq_workflow_id request := wf]> store,
         ReplyStep (rq_workflow_id request) agentResult
                   (wf_status wf) (wf_current_step wf))
  end.

(** [executeWorkflowStep] with nothing else happening to the map while
    it awaits the agent: begun at [t1], the agent settling at [t2]. *)
Definition executeWorkflowStep (request : StepRequest) (t1 : Z)
    (reply : AgentReply) (t2 : Z) (store : gmap string Workflow)
  : gmap string Workflow * Reply :=
  match executeWorkflowStep_begin request t1 store with
  | (store, inl err) => (store, ReplyError err)
  | (store, inr i) => executeWorkflowStep_finish request i reply t2 store
  end.

Definition getWorkflowStatus (workflowId : string) (store : gmap string Workflow)
  : Reply :=
  match store !! workflowId with
  | Some workflow => ReplyStatus workflow
  | None => ReplyNotFound
  end.

End Backend.

(** ** supabase/functions/launch-io-agents/index.ts: orchestrateWorkflow *)

(** [AgentTaskRequest]. *)
Record AgentTask := mkAgentTask {
  at_agent_type : string;
  at_task_id : string;
  at_parameters : JValue;
  at_priority : JValue
}.

(** How a call of [executeAgentTask] ends: it throws (the agent API
    answers with an error status, the fetch fails, a body is not JSON), or it
    returns its response. *)
Inductive TaskOutcome :=
| TaskThrows (message : string)
| TaskReturns (agentResult execution_time : JValue).

(** The two shapes of an element of [results]: the body of the response of
    [executeAgentTask], and the object that the [catch] pushes. *)
Inductive TaskResult :=
| TaskCompleted (task_id agent_type : string) (result execution_time : JValue)
| TaskFailed (task_id agent_type : string) (error : string).

(** [r.success]. *)
Definition tr_success (r : TaskResult) : bool :=
  match r with
  | TaskCompleted _ _ _ _ => true
  | TaskFailed _ _ _ => false
  end.

Definition tr_task_id (r : TaskResult) : string :=
  match r with
  | TaskCompleted t _ _ _ | TaskFailed t _ _ => t
  end.

(** The body of the loop of [orchestrateWorkflow] for one task. *)
Definition taskResultOf (agentTask : AgentTask) (out : TaskOutcome) : TaskResult :=
  match out with
  | TaskReturns agentResult execution_time =>
      TaskCompleted (at_task_id agentTask) (at_agent_type agentTask) agentResult
                    (jor execution_time (JNum 0))
  | TaskThrows message =>
      TaskFailed (at_task_id agentTask) (at_agent_type agentTask) message
  end.

(** The loop: [exec k task] is how the call for the task at position [k]
    ends. *)
Fixpoint orchestrate_from (k : nat) (exec : nat -> AgentTask -> TaskOutcome)
    (agents : list AgentTask) : list TaskResult :=
  match agents with
  | [] => []
  | agentTask :: rest =>
      taskResultOf agentTask (exec k agentTask) :: orchestrate_from (S k) exec rest
  end.

(** The body of the response of [orchestrateWorkflow].  [success_rate] is
    [None] for the NaN that 0 / 0 gives.  The quotient of the two counts is a
    rational here; its comparison with 0.8 agrees with that of the rounded
    quotient for every list that fits in memory. *)
Record Orchestration := mkOrchestration {
  or_workflow_id : string;
  overall_success : bool;
  success_rate : option Q;
  results : list TaskResult
}.

Definition orchestrateWorkflow (workflow_id : string) (agents : list AgentTask)
    (exec : nat -> AgentTask -> TaskOutcome) : Orchestration :=
  let results := orchestrate_from 0 exec agents in
  let successfulTasks := length (filter (fun r => tr_success r = true) results) in
  let successRate :=
    match length results with
    | O => None
    | S n => Some (Z.of_nat successfulTasks # Pos.of_succ_nat n)
    end in
  mkOrchestration workflow_id
    (match successRate with Some q => Qle_bool 0.8 q | None => false end)
    successRate results.

(** ** components/ApprovalGateway.tsx

    The countdown of the approval dialog: [timeLeft] starts at the timeout
    of the request, and an interval of one second applies [tick] to it until
    it clears itself.  Times are whole milliseconds. *)
Record Countdown := mkCountdown { timeLeft : Z; ticking : bool }.

Definition countdown_start (timeout : Z) : Countdown := mkCountdown timeout true.

Definition countdown_tick (c : Countdown) : Countdown :=
  if ticking c then
    if bool_decide (timeLeft c <= 1000)%Z then mkCountdown 0 false
    else mkCountdown (timeLeft c - 1000) true
  else c.

(** The state after [n] seconds. *)
Definition countdown_after (n : nat) (timeout : Z) : Countdown :=
  Nat.iter n countdown_tick (countdown_start timeout).

(** [String(n)] for a whole number [n] (below 10^21, from where on the
    source prints an exponent). *)
Definition numberToString (n : Z) : string :=
  if bool_decide (n < 0)%Z
  then "-" ++ DecimalString.NilEmpty.string_of_uint (N.to_uint (Z.abs_N n))
  else DecimalString.NilEmpty.string_of_uint (N.to_uint (Z.to_N n)).

(** [s.padStart(2, '0')]. *)
Definition padStart2 (s : string) : string :=
  match String.length s with
  | 0 => "00"
  | 1 => "0" ++ s
  | _ => s
  end.

(** [formatTime(ms)]: [%] is the remainder that has the sign of the
    dividend. *)
Definition formatTime (ms : Z) : string :=
  let minutes := (ms / 60000)%Z in
  let seconds := (Z.rem ms 60000 / 1000)%Z in
  numberToString minutes ++ ":" ++ padStart2 (numberToString seconds).

(** The string has a colon. *)
Fixpoint has_colon (s : string) : bool :=
  match s with
  | EmptyString => false
  | String c rest => bool_decide (String c "" = ":") || has_colon rest
  end.


(** ** components/WorkflowTimeline.tsx *)

Inductive StepDisplay := shown_completed | shown_active | shown_pending.

(** [getStepStatus(stepIndex)] for the props [currentStep] and [isRunning]. *)
Definition getStepStatus (currentStep : nat) (isRunning : bool) (stepIndex : nat)
  : StepDisplay :=
  if bool_decide (stepIndex < currentStep) then shown_completed
  else if bool_decide (stepIndex = currentStep) && isRunning then shown_active
  else shown_pending.

(** ** components/ZeroTouchDashboard.tsx: the risk report *)

(** The [visible] prop of [RiskSummaryReport]. *)
Definition report_visible (w : World) : bool :=
  forallb (fun agent => bool_decide (status agent = success)) (agents (state w))
  && negb (isRunning (state w)).

(** In the list, the id of the audit agent belongs to an agent of type
    audit only. *)
Definition audit_typed (l : list Agent) : Prop :=
  Forall (fun a => id a = "audit-001" -> type a = audit) l.

(** A suspended loop that awaits a call for the audit agent is at the last
    step. *)
Definition kont_ok (k : Kont) : Prop :=
  audit_typed (kont_agents k) /\
  match k with
  | KInvoke _ _ i agentId _ _ _ => agentId = "audit-001" -> i = 5
  | _ => True
  end.

Definition audit_succeeded (l : list Agent) : Prop :=
  Exists (fun a => id a = "audit-001" /\ status a = success) l.

(** What links the status of the audit agent to the end of a run. *)
Definition ReportInv (w : World) : Prop :=
  mock_agents w /\
  map_Forall (fun _ k => kont_ok k) (tasks w) /\
  (forall p, pendingApproval w = Some p -> requestedBy p <> "audit-001") /\
  (audit_succeeded (agents (state w)) -> currentStep (state w) = 6) /\
  (isRunning (state w) = false -> currentStep (state w) = 6 ->
   timeToResolution (metrics (state w)) = 4.2%Q /\ endTime (state w) <> None).

(** ** Tactics *)

(** A lookup in a task table that holds one task. *)
Ltac task_lookup H :=
  match type of H with
  | context [ {[ ?t0 := _ ]} !! ?t ] =>
      destruct (decide (t0 = t)) as [->|?];
      [ rewrite lookup_singleton_eq in H
      | rewrite lookup_singleton_ne in H by done; discriminate ]
  end.

(** * Properties *)

(** ** Reset *)

(** C5. [resetWorkflow], called in any world whatever (with an approval
    pending, with tasks in flight), leaves the run not running, the
    tool-call log empty, no approval request, and the five agents of
    [MOCK_AGENTS], each idle with confidence 0. *)
Theorem reset_yields_idle (w : World) :
  let w' := resetWorkflow w in
  isRunning (state w') = false /\
  toolCalls (state w') = [] /\
  pendingApproval w' = None /\
  map type (agents (state w')) = [sentinel; simulator; negotiator; executor; audit] /\
  Forall (fun a => status a = idle /\ confidence a = JNum 0) (agents (state w')).
Proof.
  unfold resetWorkflow, clearTimeoutRef.
  destruct (timeoutRef w); cbn; repeat split; repeat constructor.
Qed.

(** C9. [resetWorkflow] is idempotent: a second call changes nothing, in
    the observable state or anywhere else in the world. *)
Theorem reset_idempotent (w : World) :
  resetWorkflow (resetWorkflow w) = resetWorkflow w.
Proof.
  unfold resetWorkflow, clearTimeoutRef.
  destruct (timeoutRef w) as [h|] eqn:Href; cbn; rewrite ?Href; [|done].
  by rewrite delete_delete_eq.
Qed.

(** ** The approval gate *)

(** C10. [handleApproval], with either answer, called while
    [pendingApproval] is null returns at once: the world is unchanged. *)
Theorem handleApproval_without_request (approved : bool) (e : Env) (w : World) :
  pendingApproval w = None ->
  handleApproval approved e w = w /\
  step_event (EDecide approved e) w = Some w.
Proof.
  intros Hnone. unfold step_event, handleApproval. by rewrite Hnone.
Qed.

Lemma handleApproval_without_request_witness :
  handleApproval true (mkEnv 5 "x") initialWorld = initialWorld /\
  step_event (EDecide true (mkEnv 5 "x")) initialWorld = Some initialWorld.
Proof.
  apply (handleApproval_without_request true (mkEnv 5 "x") initialWorld).
  reflexivity.
Defined.

(** ** Agent calls *)

Lemma executeStep_resume_log i agentId toolName callId t0 out e w :
  let w' := executeStep_resume i agentId toolName callId t0 out e w in
  let s := (callLaunchIOAgent_settle agentId toolName callId t0 out e w).1 in
  toolCalls (state w') = toolCalls (state s) /\
  agents (state w') = agents (state s) /\
  isRunning (state w') = isRunning (state s) /\
  currentStep (state w') = currentStep (state s) /\
  pendingApproval w' = pendingApproval s /\
  tasks w' = tasks s /\ timers w' = timers s /\ timeoutRef w' = timeoutRef s.
Proof.
  unfold executeStep_resume. repeat case_bool_decide; cbn; repeat split; reflexivity.
Qed.

Lemma settle_failed agentId toolName callId t0 out e w :
  invoke_result toolName out = None ->
  let mock := getMockResultForTool toolName in
  let w' := (callLaunchIOAgent_settle agentId toolName callId t0 out e w).1 in
  toolCalls (state w') =
    map (fun c => if bool_decide (tc_id c = callId)
                  then patchToolCall c (mkToolCallPatch mock call_success 2000) else c)
        (toolCalls (state w)) /\
  agents (state w') =
    map (fun a => if bool_decide (id a = agentId)
                  then patchAgent a (mkAgentPatch (Some success)
                                       (Some (jor (jget "confidence" mock) (JNum 0.75)))
                                       (Some (now e)))
                  else a)
        (agents (state w)) /\
  isRunning (state w') = isRunning (state w).
Proof.
  intros Hfail. unfold callLaunchIOAgent_settle. rewrite Hfail. cbn. done.
Qed.

(** C3. For every step that is not the approval step, when the agent
    invocation fails (the promise rejects, the response carries an error, or
    it has no data to read the result from), [isRunning] is left as it was,
    the step's tool call is in the log, every entry of the log with the
    call's id has status success and the fallback result of
    [getMockResultForTool] for the step's tool, and every agent with the
    owning agent's id has status success. *)
Theorem agent_failure_falls_back
    (w : World) (cap : list Agent) (i : nat) (st : Step) (ag : Agent)
    (out : InvokeOutcome) (e e' : Env) :
  WORKFLOW_STEPS !! i = Some st ->
  tool st <> APPROVAL_TOOL ->
  find (fun a => bool_decide (type a = agent st)) cap = Some ag ->
  invoke_result (tool st) out = None ->
  let callId := mkCallId (now e) (rnd e) in
  let w1 := (executeStep cap i e w).1 in
  let w2 := executeStep_resume i (id ag) (tool st) callId (now e) out e' w1 in
  (executeStep cap i e w).2 = Awaiting (id ag) (tool st) callId (now e) /\
  isRunning (state w2) = isRunning (state w) /\
  (exists c, c ∈ toolCalls (state w2) /\ tc_id c = callId) /\
  Forall (fun c => tc_id c = callId ->
                   tc_status c = call_success /\
                   tc_result c = Some (getMockResultForTool (tool st)))
         (toolCalls (state w2)) /\
  map id (agents (state w2)) = map id (agents (state w)) /\
  Forall (fun a => id a = id ag -> status a = success) (agents (state w2)).
Proof.
  intros Hst Htool Hag Hfail callId w1 w2.
  destruct (executeStep_resume_log i (id ag) (tool st) callId (now e) out e' w1)
    as (Hcalls & Hagents & Hrun & _).
  destruct (settle_failed (id ag) (tool st) callId (now e) out e' w1 Hfail)
    as (Hcalls' & Hagents' & Hrun').
  fold w2 in Hcalls, Hagents, Hrun.
  rewrite Hcalls, Hagents, Hrun, Hcalls', Hagents', Hrun'. clear Hcalls Hagents Hrun Hcalls' Hagents' Hrun' w2.
  subst w1. unfold executeStep.
  rewrite Hst, Hag, (bool_decide_eq_false_2 _ Htool). cbn.
  split; [reflexivity|]. split; [reflexivity|].
  rewrite map_app. cbn. rewrite bool_decide_eq_true_2 by reflexivity.
  split.
  { eexists. split; [apply elem_of_app; right; apply list_elem_of_singleton; reflexivity|].
    reflexivity. }
  split.
  { apply Forall_app. split.
    - apply Forall_map, Forall_forall. intros c _. cbn.
      case_bool_decide; [cbn; done | done].
    - repeat constructor. }
  split.
  { rewrite !map_map. apply map_ext. intros a.
    repeat case_bool_decide; reflexivity. }
  rewrite map_map. apply Forall_map, Forall_forall. intros a _. cbn.
  repeat case_bool_decide; cbn in *; done.
Qed.

Lemma agent_failure_falls_back_witness :
  let st := mkStep 1 "Threat Detection"
              "Sentinel detects LA port congestion via satellite imagery"
              sentinel "analyze_satellite_imagery" 45 in
  let callId := mkCallId 100 "b" in
  let w1 := (executeStep MOCK_AGENTS 0 (mkEnv 100 "b") initialWorld).1 in
  let w2 := executeStep_resume 0 "sentinel-001" (tool st) callId 100
              Rejected (mkEnv 200 "c") w1 in
  (executeStep MOCK_AGENTS 0 (mkEnv 100 "b") initialWorld).2 =
    Awaiting "sentinel-001" (tool st) callId 100 /\
  isRunning (state w2) = isRunning (state initialWorld) /\
  (exists c, c ∈ toolCalls (state w2) /\ tc_id c = callId) /\
  Forall (fun c => tc_id c = callId ->
                   tc_status c = call_success /\
                   tc_result c = Some (getMockResultForTool (tool st)))
         (toolCalls (state w2)) /\
  map id (agents (state w2)) = map id (agents (state initialWorld)) /\
  Forall (fun a => id a = "sentinel-001" -> status a = success) (agents (state w2)).
Proof.
  exact (agent_failure_falls_back initialWorld MOCK_AGENTS 0
           (mkStep 1 "Threat Detection"
              "Sentinel detects LA port congestion via satellite imagery"
              sentinel "analyze_satellite_imagery" 45)
           (mkAgent "sentinel-001" "Watchtower" sentinel idle
              "Real-time anomaly detection and threat monitoring"
              ["analyze_satellite_imagery"; "monitor_darkweb";
               "scan_iot_sensors"; "detect_anomalies"]
              (JNum 0) None)
           Rejected (mkEnv 100 "b") (mkEnv 200 "c")
           eq_refl ltac:(discriminate) eq_refl eq_refl).
Defined.

(** ** Timeout and decision *)

(** The timer callback never touches [isRunning] or [endTime]. *)
Lemma timeout_keeps_isRunning (w : World) (h : nat) (agentId : string) :
  timers w !! h = Some agentId ->
  exists w', step_event (ETimeout h) w = Some w' /\
             isRunning (state w') = isRunning (state w) /\
             endTime (state w') = endTime (state w) /\
             tasks w' = tasks w.
Proof.
  intros Hh. eexists. cbn. rewrite Hh. split; [reflexivity|]. cbn. done.
Qed.

(** [handleApproval] reads [requestedBy] off the request and nothing else:
    whatever the status of the request, it does the same. *)
Lemma handleApproval_ignores_status
    (approved : bool) (e : Env) (w : World) (p : ApprovalRequest) (s : ApprovalStatus) :
  handleApproval approved e
    (setPendingApproval
       (fun _ => Some (mkApproval (ap_id p) (message p) (requestedBy p)
                                  (ap_timestamp p) (timeout p) s)) w) =
  handleApproval approved e (setPendingApproval (fun _ => Some p) w).
Proof.
  unfold handleApproval, clearTimeoutRef. cbn.
  destruct (timeoutRef w), (find _ (agents (state w))), approved; reflexivity.
Qed.

(** C2. The run is started, the three agent calls settle, the approval
    step opens and nobody decides; the timer fires.  The request then has
    status timeout and the negotiator agent status error, and the run is
    still running: [isRunning] is true and no [endTime] is set. *)
Theorem timeout_leaves_run_running :
  let fired := run (until_approval ++ [ETimeout 1]) initialWorld in
  approvalStatus <$> fired = Some (Some ap_timeout) /\
  agentStatus "negotiator-001" <$> fired = Some (Some error) /\
  running <$> fired = Some true /\
  (fun w => endTime (state w)) <$> fired = Some None.
Proof. vm_compute. done. Qed.

(** C1. The same run; one millisecond after the timer has fired,
    [handleApproval(true)] is called.  It is not a no-op: the request,
    which had status timeout, is cleared, the negotiator agent goes from
    error to success, and the loop over the remaining steps is started
    (step 4 begins: [currentStep] is 5, a tool call for reroute_shipments is
    pending, a task is suspended).  [handleApproval(false)] at that point is
    not a no-op either: it clears the request and ends the run. *)
Theorem decide_after_timeout_takes_effect :
  let fired := run (until_approval ++ [ETimeout 1]) initialWorld in
  let decided := run (until_approval ++ [ETimeout 1; EDecide true (mkEnv 304901 "i")])
                     initialWorld in
  let declined := run (until_approval ++ [ETimeout 1; EDecide false (mkEnv 304901 "i")])
                      initialWorld in
  approvalStatus <$> fired = Some (Some ap_timeout) /\
  approvalStatus <$> decided = Some None /\
  agentStatus "negotiator-001" <$> fired = Some (Some error) /\
  agentStatus "negotiator-001" <$> decided = Some (Some success) /\
  (fun w => currentStep (state w)) <$> fired = Some 4 /\
  (fun w => currentStep (state w)) <$> decided = Some 5 /\
  (fun w => map (fun c => (tc_toolName c, tc_status c)) (toolCalls (state w))) <$> decided =
    Some [ ("analyze_satellite_imagery", call_success); ("run_monte_carlo", call_success);
           ("negotiate_terms", call_success); ("reroute_shipments", call_pending) ] /\
  (fun w => size (tasks w)) <$> fired = Some 0 /\
  (fun w => size (tasks w)) <$> decided = Some 1 /\
  running <$> fired = Some true /\
  running <$> declined = Some false /\
  approvalStatus <$> declined = Some None.
Proof. vm_compute. done. Qed.

(** ** Completion *)

(** C6, as stated, fails.  A run started at t = 0 is approved after one
    minute and ends at t = 63200 ms; another is approved after four minutes
    and ends at t = 243200 ms.  Both end with [metrics.timeToResolution]
    4.2, which is the elapsed time of neither, in minutes or in
    milliseconds. *)
Lemma time_to_resolution_is_not_elapsed_time :
  let observe := fun w => (isRunning (state w), startTime (state w), endTime (state w),
                           timeToResolution (metrics (state w))) in
  observe <$> run (until_approval ++ after_approval 60000) initialWorld =
    Some (false, Some 0%Z, Some 63200%Z, 4.2%Q) /\
  observe <$> run (until_approval ++ after_approval 240000) initialWorld =
    Some (false, Some 0%Z, Some 243200%Z, 4.2%Q) /\
  ~ (4.2 == elapsedMinutes 0 63200)%Q /\
  ~ (4.2 == elapsedMinutes 0 243200)%Q /\
  ~ (4.2 == inject_Z (63200 - 0))%Q /\
  ~ (4.2 == inject_Z (243200 - 0))%Q.
Proof.
  split; [vm_compute; reflexivity|]. split; [vm_compute; reflexivity|].
  repeat split; intros H; vm_compute in H; discriminate.
Qed.

(** C6, amended.  When either loop gets past the last step (the pause
    after step 5 ends), [isRunning] becomes false, [endTime] is set to the
    current time, and [metrics.timeToResolution] is set to the constant 4.2,
    a positive number that does not depend on when the run started; the task
    is over. *)
Theorem completion_sets_constant_time
    (o : Origin) (cap : list Agent) (tid : nat) (e : Env) (w : World) :
  tasks w !! tid = Some (KDelay o cap 5) ->
  exists w', step_event (EDelay tid e) w = Some w' /\
             isRunning (state w') = false /\
             endTime (state w') = Some (now e) /\
             timeToResolution (metrics (state w')) = 4.2%Q /\
             (0 < timeToResolution (metrics (state w')))%Q /\
             startTime (state w') = startTime (state w) /\
             tasks w' !! tid = None.
Proof.
  intros Htask. eexists. cbn. rewrite Htask. split; [reflexivity|].
  cbn. repeat split. apply lookup_delete_eq.
Qed.

Lemma completion_sets_constant_time_witness :
  let w := park 1 (KDelay InApproval MOCK_AGENTS 5) initialWorld in
  exists w', step_event (EDelay 1 (mkEnv 3600000 "m")) w = Some w' /\
             isRunning (state w') = false /\
             endTime (state w') = Some 3600000%Z /\
             timeToResolution (metrics (state w')) = 4.2%Q /\
             (0 < timeToResolution (metrics (state w')))%Q /\
             startTime (state w') = startTime (state w) /\
             tasks w' !! 1 = None.
Proof.
  exact (completion_sets_constant_time InApproval MOCK_AGENTS 1 (mkEnv 3600000 "m")
           (park 1 (KDelay InApproval MOCK_AGENTS 5) initialWorld) eq_refl).
Defined.

(** ** Start *)

(** C7, as stated, fails.  In the run above, after the approval timer has
    fired, [start()] is called again: the request with status timeout is
    still there afterwards. *)
Lemma start_keeps_approval_request :
  let restarted := run (until_approval ++ [ETimeout 1; EStart (mkEnv 400000 "z")])
                       initialWorld in
  approvalStatus <$> restarted = Some (Some ap_timeout) /\
  running <$> restarted = Some true /\
  (fun w => currentStep (state w)) <$> restarted = Some 0.
Proof. vm_compute. done. Qed.

(** C7, amended.  [startWorkflow] sets [isRunning] and [startTime], sets
    [currentStep] to 0, empties the tool-call log and puts the five agents
    of [MOCK_AGENTS] back to idle with confidence 0.  It leaves
    [pendingApproval], the approval timers and [timeoutRef] as they were.
    It suspends at the first backend call, and whichever way the two backend
    calls settle, what the task does next is the step loop at index 0. *)
Theorem start_fresh_running_state (e : Env) (w : World) :
  let w' := startWorkflow e w in
  let tid := nextTask w in
  let cap := agents (state w) in
  isRunning (state w') = true /\
  startTime (state w') = Some (now e) /\
  currentStep (state w') = 0 /\
  toolCalls (state w') = [] /\
  map type (agents (state w')) = [sentinel; simulator; negotiator; executor; audit] /\
  Forall (fun a => status a = idle /\ confidence a = JNum 0) (agents (state w')) /\
  pendingApproval w' = pendingApproval w /\
  timers w' = timers w /\
  timeoutRef w' = timeoutRef w /\
  tasks w' = <[tid := KWorkflowInit cap]> (tasks w) /\
  forall out1 e1 out2 e2, exists e' wm,
    currentStep (state wm) = 0 /\
    toolCalls (state wm) = [] /\
    (run [ESettle tid out1 e1] w' = Some (loop_from InStart cap 0 e' tid wm) \/
     run [ESettle tid out1 e1; ESettle tid out2 e2] w' =
       Some (loop_from InStart cap 0 e' tid wm)).
Proof.
  cbn zeta. unfold startWorkflow. cbn.
  do 5 (split; [reflexivity|]).
  split; [repeat constructor|].
  do 4 (split; [reflexivity|]).
  intros out1 e1 out2 e2. cbn. rewrite lookup_insert_eq.
  destruct out1 as [d1 r1|].
  - exists e2. cbn. rewrite lookup_insert_eq.
    destruct out2 as [d2 r2|]; cbn.
    + eexists. split; [|split; [|right; reflexivity]].
      * destruct (negb (truthy r2) && truthy (jget_opt "analysis" d2)); reflexivity.
      * destruct (negb (truthy r2) && truthy (jget_opt "analysis" d2)); reflexivity.
    + eexists. split; [|split; [|right; reflexivity]]; reflexivity.
  - exists e1. eexists. split; [|split; [|left; reflexivity]]; reflexivity.
Qed.

(** ** Reset and work in flight *)

(** What settling an agent call does, whatever the outcome: the log
    entries with the call's id are patched with a success status, the agents
    with the given id are patched with a success status, the rest of the
    world is left alone. *)
Lemma settle_effect agentId toolName callId t0 out e w :
  let w' := (callLaunchIOAgent_settle agentId toolName callId t0 out e w).1 in
  (exists q, q_status q = call_success /\
     toolCalls (state w') =
       map (fun c => if bool_decide (tc_id c = callId) then patchToolCall c q else c)
           (toolCalls (state w))) /\
  (exists p, p_status p = Some success /\
     agents (state w') =
       map (fun a => if bool_decide (id a = agentId) then patchAgent a p else a)
           (agents (state w))) /\
  isRunning (state w') = isRunning (state w) /\
  currentStep (state w') = currentStep (state w) /\
  pendingApproval w' = pendingApproval w /\
  tasks w' = tasks w /\ timers w' = timers w /\ timeoutRef w' = timeoutRef w.
Proof.
  unfold callLaunchIOAgent_settle.
  destruct (invoke_result toolName out); cbn;
    (split; [eexists; split; [|reflexivity]; reflexivity|]);
    (split; [eexists; split; [|reflexivity]; reflexivity|]); done.
Qed.

Lemma executeStep_resume_effect i agentId toolName callId t0 out e w :
  let w' := executeStep_resume i agentId toolName callId t0 out e w in
  (exists q, q_status q = call_success /\
     toolCalls (state w') =
       map (fun c => if bool_decide (tc_id c = callId) then patchToolCall c q else c)
           (toolCalls (state w))) /\
  (exists p, p_status p = Some success /\
     agents (state w') =
       map (fun a => if bool_decide (id a = agentId) then patchAgent a p else a)
           (agents (state w))) /\
  isRunning (state w') = isRunning (state w) /\
  currentStep (state w') = currentStep (state w) /\
  pendingApproval w' = pendingApproval w /\
  tasks w' = tasks w /\ timers w' = timers w /\ timeoutRef w' = timeoutRef w.
Proof.
  cbn zeta.
  destruct (executeStep_resume_log i agentId toolName callId t0 out e w)
    as (-> & -> & -> & -> & -> & -> & -> & ->).
  apply settle_effect.
Qed.


(** C8, as stated, fails.  [start()], the first backend call fails, step
    0's agent call is in flight, [reset()].  The state is then the initial
    one.  When the agent call settles, the sentinel agent of the reset state
    becomes success; when the pause ends, the old loop runs step 1 in the
    reset state.  The same stale settlement changes a run restarted after the
    reset. *)
Lemma stale_work_mutates_reset_state :
  let pre := [ EStart (mkEnv 0 "a"); ESettle 0 Rejected (mkEnv 100 "b"); EReset ] in
  let observe := fun w => (currentStep (state w), agentStatus "sentinel-001" w,
                           map tc_toolName (toolCalls (state w))) in
  state <$> run pre initialWorld = Some initialState /\
  observe <$> run pre initialWorld = Some (0, Some idle, []) /\
  observe <$> run (pre ++ [ESettle 0 Rejected (mkEnv 200 "c")]) initialWorld =
    Some (0, Some success, []) /\
  observe <$> run (pre ++ [ESettle 0 Rejected (mkEnv 200 "c"); EDelay 0 (mkEnv 1700 "d")])
                  initialWorld =
    Some (2, Some success, ["run_monte_carlo"]) /\
  observe <$> run (pre ++ [EStart (mkEnv 150 "n")]) initialWorld =
    Some (0, Some idle, []) /\
  observe <$> run (pre ++ [EStart (mkEnv 150 "n"); ESettle 0 Rejected (mkEnv 200 "c")])
                  initialWorld =
    Some (0, Some success, []).
Proof. vm_compute. done. Qed.

(** C8, amended.  [resetWorkflow] leaves the suspended tasks where they
    are.  An agent call of a step other than the approval step that was in
    flight at the reset still settles afterwards: the agents are then those
    of [MOCK_AGENTS] with the call's agent set to success, the tool-call log
    stays empty (the entry to update is gone), and the task goes on to the
    pause before the next step. *)
Theorem reset_keeps_work_in_flight
    (w : World) (tid : nat) (o : Origin) (cap : list Agent) (i : nat) (st : Step)
    (agentId toolName : string) (callId : CallId) (t0 : Z)
    (out : InvokeOutcome) (e : Env) :
  tasks w !! tid = Some (KInvoke o cap i agentId toolName callId t0) ->
  WORKFLOW_STEPS !! i = Some st ->
  tool st <> APPROVAL_TOOL ->
  tasks (resetWorkflow w) = tasks w /\
  exists w', step_event (ESettle tid out e) (resetWorkflow w) = Some w' /\
             toolCalls (state w') = [] /\
             map (fun a => (id a, status a)) (agents (state w')) =
               map (fun a => (id a, if bool_decide (id a = agentId) then success else idle))
                   MOCK_AGENTS /\
             tasks w' !! tid = Some (KDelay o cap i).
Proof.
  intros Htask Hst Htool.
  assert (Htasks : tasks (resetWorkflow w) = tasks w).
  { unfold resetWorkflow, clearTimeoutRef. destruct (timeoutRef w); reflexivity. }
  assert (Hstate : state (resetWorkflow w) = initialState).
  { unfold resetWorkflow, clearTimeoutRef. destruct (timeoutRef w); reflexivity. }
  split; [exact Htasks|].
  eexists. cbn [step_event]. rewrite Htasks, Htask. split; [reflexivity|].
  destruct (executeStep_resume_effect i agentId toolName callId t0 out e (resetWorkflow w))
    as ((q & _ & Hcalls) & (p & Hp & Hagents) & _).
  assert (Hafter : forall w0, after_step o cap i tid w0 = park tid (KDelay o cap i) w0).
  { intros w0. unfold after_step.
    destruct o; rewrite ?Hst, ?(bool_decide_eq_true_2 _ Htool); reflexivity. }
  rewrite Hafter. cbn [park state tasks].
  rewrite Hcalls, Hagents, Hstate. cbn.
  split; [reflexivity|]. split; [|apply lookup_insert_eq].
  unfold patchAgent. rewrite Hp. repeat case_bool_decide; reflexivity.
Qed.

Lemma reset_keeps_work_in_flight_witness :
  let w := park 0 (KInvoke InStart MOCK_AGENTS 0 "sentinel-001" "analyze_satellite_imagery"
                           (mkCallId 100 "b") 100) initialWorld in
  tasks (resetWorkflow w) = tasks w /\
  exists w', step_event (ESettle 0 Rejected (mkEnv 200 "c")) (resetWorkflow w) = Some w' /\
             toolCalls (state w') = [] /\
             map (fun a => (id a, status a)) (agents (state w')) =
               map (fun a => (id a, if bool_decide (id a = "sentinel-001")
                                    then success else idle))
                   MOCK_AGENTS /\
             tasks w' !! 0 = Some (KDelay InStart MOCK_AGENTS 0).
Proof.
  exact (reset_keeps_work_in_flight
           (park 0 (KInvoke InStart MOCK_AGENTS 0 "sentinel-001" "analyze_satellite_imagery"
                            (mkCallId 100 "b") 100) initialWorld)
           0 InStart MOCK_AGENTS 0
           (mkStep 1 "Threat Detection"
              "Sentinel detects LA port congestion via satellite imagery"
              sentinel "analyze_satellite_imagery" 45)
           "sentinel-001" "analyze_satellite_imagery" (mkCallId 100 "b") 100
           Rejected (mkEnv 200 "c") eq_refl eq_refl ltac:(discriminate)).
Defined.

(** ** The order of the steps *)

Lemma approval_index i st :
  WORKFLOW_STEPS !! i = Some st -> (tool st = APPROVAL_TOOL <-> i = 3).
Proof.
  intros H. do 6 (destruct i as [|i]; [injection H as <-; cbn; split; done|]).
  done.
Qed.

Lemma step_exists i : i < 6 -> exists st, WORKFLOW_STEPS !! i = Some st.
Proof.
  intros H. do 6 (destruct i as [|i]; [eexists; reflexivity|]). lia.
Qed.

Lemma roles_find cap i st :
  roles_ok cap -> WORKFLOW_STEPS !! i = Some st ->
  exists ag, find (fun a => bool_decide (type a = agent st)) cap = Some ag.
Proof.
  unfold roles_ok. intros Hcap Hst.
  destruct cap as [|a1 [|a2 [|a3 [|a4 [|a5 [|]]]]]]; try discriminate.
  cbn in Hcap. injection Hcap as H1 H2 H3 H4 H5.
  do 6 (destruct i as [|i];
        [injection Hst as <-; cbn; rewrite ?H1, ?H2, ?H3, ?H4, ?H5; cbn; eauto|]).
  done.
Qed.

Lemma updateAgent_roles agentId p w :
  map type (agents (state (updateAgent agentId p w))) = map type (agents (state w)).
Proof.
  cbn. rewrite map_map. apply map_ext. intros a. case_bool_decide; reflexivity.
Qed.

(** What a call of [executeStep] does before it returns or suspends. *)
Lemma executeStep_effect cap i e w :
  let w' := (executeStep cap i e w).1 in
  tasks w' = tasks w /\
  map type (agents (state w')) = map type (agents (state w)) /\
  match (executeStep cap i e w).2 with
  | Returned =>
      toolCalls (state w') = toolCalls (state w) /\
      ((currentStep (state w') = currentStep (state w) /\
        pendingApproval w' = pendingApproval w) \/
       (i = 3 /\ currentStep (state w') = 4 /\ pendingApproval w' <> None))
  | Awaiting agentId toolName callId t0 =>
      i <> 3 /\
      currentStep (state w') = S i /\
      pendingApproval w' = pendingApproval w /\
      exists c, tc_id c = callId /\ toolCalls (state w') = (toolCalls (state w) ++ [c])%list
  end.
Proof.
  unfold executeStep.
  destruct (WORKFLOW_STEPS !! i) as [st|] eqn:Hst; [|cbn; auto 6].
  destruct (find _ cap) as [ag|]; [|cbn; auto 6].
  pose proof (approval_index i st Hst) as Hidx.
  case_bool_decide as Htool.
  - apply Hidx in Htool as ->. cbn.
    split; [reflexivity|]. split.
    { rewrite map_map. apply map_ext. intros a. case_bool_decide; reflexivity. }
    split; [reflexivity|]. right. done.
  - cbn. split; [reflexivity|]. split.
    { rewrite map_map. apply map_ext. intros a. case_bool_decide; reflexivity. }
    split; [intros ->; apply Htool, Hidx; reflexivity|].
    split; [f_equal; lia|]. split; [reflexivity|].
    eexists. split; [|reflexivity]. reflexivity.
Qed.

Lemma executeStep_awaits cap i e w st ag :
  WORKFLOW_STEPS !! i = Some st ->
  tool st <> APPROVAL_TOOL ->
  find (fun a => bool_decide (type a = agent st)) cap = Some ag ->
  (executeStep cap i e w).2 =
    Awaiting (id ag) (tool st) (mkCallId (now e) (rnd e)) (now e).
Proof.
  intros Hst Htool Hag. unfold executeStep.
  rewrite Hst, Hag, (bool_decide_eq_false_2 _ Htool). reflexivity.
Qed.

Lemma sole_park tid k w : sole tid w -> tasks (park tid k w) = {[tid := k]}.
Proof.
  intros [H | [k0 H]]; cbn; rewrite H.
  - apply insert_empty.
  - apply insert_singleton_eq.
Qed.

Lemma sole_finish tid w : sole tid w -> tasks (finish tid w) = ∅.
Proof.
  intros [H | [k0 H]]; cbn; rewrite H.
  - apply delete_empty.
  - apply delete_singleton_eq.
Qed.

Lemma no_pending_only callId c w' w :
  no_pending w -> tc_id c = callId ->
  toolCalls (state w') = (toolCalls (state w) ++ [c])%list ->
  pending_only callId w'.
Proof.
  unfold no_pending, pending_only. intros Hw Hc ->.
  apply Forall_app. split.
  - eapply Forall_impl; [exact Hw|]. cbn. intros c0 Hne Hp. done.
  - repeat constructor. done.
Qed.

Lemma pending_only_settled callId q w' w :
  pending_only callId w -> q_status q = call_success ->
  toolCalls (state w') =
    map (fun c => if bool_decide (tc_id c = callId) then patchToolCall c q else c)
        (toolCalls (state w)) ->
  no_pending w'.
Proof.
  unfold no_pending, pending_only. intros Hw Hq ->.
  apply Forall_map. eapply Forall_impl; [exact Hw|]. cbn. intros c Hc.
  case_bool_decide as Hid; cbn.
  - rewrite Hq. discriminate.
  - intros Hp. apply Hid, Hc, Hp.
Qed.

Lemma no_pending_ext w w' :
  toolCalls (state w') = toolCalls (state w) -> no_pending w -> no_pending w'.
Proof. unfold no_pending. by intros ->. Qed.

(** The loop of [startWorkflow] entered at an index up to the approval
    step, no call pending and no approval open. *)
Lemma loop_from_start cap i e tid w :
  sole tid w -> no_pending w -> pendingApproval w = None ->
  currentStep (state w) <= i -> i <= 3 ->
  let w' := loop_from InStart cap i e tid w in
  Phase w' /\
  map type (agents (state w')) = map type (agents (state w)) /\
  currentStep (state w) <= currentStep (state w') <= 4 /\
  (length (toolCalls (state w)) < length (toolCalls (state w')) ->
   currentStep (state w) < currentStep (state w')) /\
  (pendingApproval w' <> None ->
   currentStep (state w) < currentStep (state w') /\ currentStep (state w') = 4).
Proof.
  intros Hsole Hnp Hap Hc Hi. unfold loop_from.
  rewrite bool_decide_eq_true_2 by (cbn; lia).
  destruct (step_exists i ltac:(lia)) as [st Hst].
  pose proof (approval_index i st Hst) as Hidx.
  pose proof (executeStep_effect cap i e w) as Heff. cbn zeta in Heff.
  destruct (executeStep cap i e w) as [w1 r]. cbn [fst snd] in Heff.
  destruct Heff as (Htasks & Hroles & Hr).
  assert (Hsole1 : sole tid w1) by (unfold sole; rewrite Htasks; exact Hsole).
  destruct r as [|agentId toolName callId t0].
  - destruct Hr as (Hcalls & Hr). unfold after_step. rewrite Hst.
    case_bool_decide as Htool.
    + assert (i <> 3) by (intros ->; apply Htool, Hidx; reflexivity).
      destruct Hr as [[Hcur Hpa] | [? _]]; [|done].
      split; [|cbn; rewrite Hcalls, Hcur, Hpa; repeat split; try done; lia].
      eapply (PDelay _ tid InStart cap i); cbn.
      * apply (sole_park tid _ w1 Hsole1).
      * lia.
      * lia.
      * by apply (no_pending_ext w).
      * congruence.
    + split.
      * apply PIdle; cbn.
        -- apply (sole_finish tid w1 Hsole1).
        -- by apply (no_pending_ext w).
        -- destruct Hr as [[_ Hpa] | (_ & ? & _)]; [congruence | done].
      * cbn. rewrite Hcalls.
        destruct Hr as [[Hcur Hpa] | (-> & Hcur & Hpa)].
        -- rewrite Hcur, Hpa. repeat split; try done; lia.
        -- rewrite Hcur. repeat split; try done; lia.
  - destruct Hr as (Hne & Hcur & Hpa & c & Hcid & Hcalls).
    split.
    + eapply (PInvoke _ tid InStart cap i); cbn.
      * apply (sole_park tid _ w1 Hsole1).
      * lia.
      * exact Hcur.
      * by apply (no_pending_only _ c w1 w).
      * congruence.
    + cbn. rewrite Hcur, Hpa. repeat split; try done; lia.
Qed.

(** The loop of [handleApproval] entered at step 4 or 5, or past the last
    step. *)
Lemma loop_from_approval cap i e tid w :
  sole tid w -> no_pending w -> pendingApproval w = None -> roles_ok cap ->
  4 <= i <= 6 ->
  let w' := loop_from InApproval cap i e tid w in
  Phase w' /\
  map type (agents (state w')) = map type (agents (state w)) /\
  pendingApproval w' = None /\
  (i < 6 -> currentStep (state w') = S i) /\
  (i = 6 -> currentStep (state w') = currentStep (state w) /\
            toolCalls (state w') = toolCalls (state w)).
Proof.
  intros Hsole Hnp Hap Hcap Hi. unfold loop_from.
  case_bool_decide as Hlt; cbn in Hlt.
  - destruct (step_exists i Hlt) as [st Hst].
    pose proof (approval_index i st Hst) as Hidx.
    destruct (roles_find cap i st Hcap Hst) as [ag Hag].
    assert (Htool : tool st <> APPROVAL_TOOL) by (intros Ht; apply Hidx in Ht; lia).
    pose proof (executeStep_awaits cap i e w st ag Hst Htool Hag) as Haw.
    pose proof (executeStep_effect cap i e w) as Heff. cbn zeta in Heff.
    destruct (executeStep cap i e w) as [w1 r]. cbn [fst snd] in Heff, Haw. subst r.
    destruct Heff as (Htasks & Hroles & _ & Hcur & Hpa & c & Hcid & Hcalls).
    assert (Hsole1 : sole tid w1) by (unfold sole; rewrite Htasks; exact Hsole).
    split.
    + eapply (PInvoke _ tid InApproval cap i); cbn.
      * apply (sole_park tid _ w1 Hsole1).
      * rewrite Hcur. repeat split; try done; lia.
      * exact Hcur.
      * by apply (no_pending_only _ c w1 w).
      * congruence.
    + cbn. repeat split; try done; try congruence; lia.
  - split.
    + apply PIdle; cbn.
      * apply (sole_finish tid _ Hsole).
      * exact Hnp.
      * done.
    + cbn. repeat split; try done; lia.
Qed.

Lemma Phase_ext w w' :
  tasks w' = tasks w ->
  toolCalls (state w') = toolCalls (state w) ->
  currentStep (state w') = currentStep (state w) ->
  (pendingApproval w = None -> pendingApproval w' = None) ->
  Phase w -> Phase w'.
Proof.
  intros Ht Hc Hs Hp [tid k H1 H2 H3 H4 H5
                     | tid o cap i a tn cid t0 H1 H2 H3 H4 H5
                     | tid o cap i H1 H2 H3 H4 H5
                     | H1 H2 H3].
  - eapply PBackend; rewrite ?Ht, ?Hc, ?Hs; eauto.
  - eapply PInvoke; rewrite ?Ht, ?Hs; eauto.
    unfold pending_only. rewrite Hc. exact H4.
  - eapply PDelay; rewrite ?Ht, ?Hs; eauto using no_pending_ext.
  - apply PIdle;
      [ by rewrite Ht
      | by apply (no_pending_ext w)
      | rewrite Hs; intros Hne; apply H3; intros Hnone; apply Hne, Hp, Hnone ].
Qed.

(** A transition that starts no step and opens no approval is in order. *)
Lemma coarse_order_still w ev w' :
  currentStep (state w') = currentStep (state w) ->
  length (toolCalls (state w')) = length (toolCalls (state w)) ->
  (pendingApproval w = None -> pendingApproval w' = None) ->
  coarse_order (w, ev, w').
Proof.
  intros Hs Hc Hp. unfold coarse_order. cbn zeta. rewrite Hs, Hc.
  split; [lia|]. split; [lia|]. split; [lia|]. split; [|lia].
  intros Hn Hne. destruct (Hne (Hp Hn)).
Qed.

(** A transition that does not take [currentStep] from 4 or less to more
    than 4. *)
Lemma coarse_order_intro w ev w' :
  currentStep (state w) <= currentStep (state w') ->
  no_pending w ->
  (length (toolCalls (state w)) < length (toolCalls (state w')) ->
   currentStep (state w) < currentStep (state w')) ->
  (pendingApproval w' <> None ->
   currentStep (state w) < currentStep (state w') /\ currentStep (state w') = 4) ->
  (currentStep (state w') <= 4 \/ 4 < currentStep (state w)) ->
  coarse_order (w, ev, w').
Proof.
  intros Hle Hnp Hlen Hpa Hgate. unfold coarse_order. cbn zeta.
  split; [exact Hle|]. split; [intros _; exact Hnp|]. split; [exact Hlen|].
  split; [intros _; exact Hpa|]. lia.
Qed.

Lemma handleApproval_reject e w p :
  pendingApproval w = Some p ->
  let w' := handleApproval false e w in
  tasks w' = tasks w /\
  toolCalls (state w') = toolCalls (state w) /\
  currentStep (state w') = currentStep (state w) /\
  map type (agents (state w')) = map type (agents (state w)) /\
  pendingApproval w' = None /\
  isRunning (state w') = false.
Proof.
  intros Hp. unfold handleApproval, clearTimeoutRef. rewrite Hp.
  destruct (timeoutRef w), (find _ (agents (state w))); cbn;
    repeat split; try reflexivity;
    rewrite map_map; apply map_ext; intros x; case_bool_decide; reflexivity.
Qed.

Lemma handleApproval_approve e w p :
  pendingApproval w = Some p ->
  exists wm,
    handleApproval true e w = loop_from InApproval (agents (state w)) 4 e (nextTask w) wm /\
    tasks wm = tasks w /\
    toolCalls (state wm) = toolCalls (state w) /\
    currentStep (state wm) = currentStep (state w) /\
    map type (agents (state wm)) = map type (agents (state w)) /\
    pendingApproval wm = None /\
    isRunning (state wm) = isRunning (state w).
Proof.
  intros Hp. unfold handleApproval, clearTimeoutRef. rewrite Hp.
  destruct (timeoutRef w), (find _ (agents (state w))); cbn;
    (eexists; split; [reflexivity|]); cbn;
    repeat split; try reflexivity;
    rewrite map_map; apply map_ext; intros x; case_bool_decide; reflexivity.
Qed.

Lemma Phase_pending w p : Phase w -> pendingApproval w = Some p ->
  tasks w = ∅ /\ no_pending w /\ currentStep (state w) = 4.
Proof.
  intros [tid k H1 H2 H3 H4 H5
         | tid o cap i a tn cid t0 H1 H2 H3 H4 H5
         | tid o cap i H1 H2 H3 H4 H5
         | H1 H2 H3] Hp; try congruence.
  repeat split; try done. apply H3. congruence.
Qed.

(** Every event of a run keeps the invariant and is in order. *)
Lemma step_preserves w ev w' :
  Inv w -> run_event ev = true -> step_event ev w = Some w' ->
  Inv w' /\ coarse_order (w, ev, w').
Proof.
  intros [Hroles Hphase] Hev Hstep.
  destruct ev as [e0| |approved e|h|tid out e|tid e]; try discriminate; cbn in Hstep.
  - (* handleApproval *)
    injection Hstep as <-.
    destruct (pendingApproval w) as [p|] eqn:Hp.
    + destruct (Phase_pending w p Hphase Hp) as (Htasks & Hnp & Hcur).
      destruct approved.
      * destruct (handleApproval_approve e w p Hp)
          as (wm & -> & Htm & Hcm & Hsm & Hrm & Hpm & _).
        destruct (loop_from_approval (agents (state w)) 4 e (nextTask w) wm)
          as (Hph & Hro & Hpa & Hc5 & _);
          [left; congruence | by apply (no_pending_ext w) | done | done | lia |].
        specialize (Hc5 ltac:(lia)).
        split; [split; [unfold roles_ok in *; congruence | exact Hph]|].
        unfold coarse_order. cbn zeta. rewrite Hc5, Hcur.
        split; [lia|]. split; [intros _; exact Hnp|]. split; [lia|].
        split; [intros Hn; congruence|]. intros _ _.
        split; [reflexivity|]. split; [congruence|]. split; reflexivity.
      * destruct (handleApproval_reject e w p Hp) as (Ht & Hc & Hs & Hr & Hpa & _).
        split; [split; [unfold roles_ok in *; congruence|]|].
        -- apply PIdle; [congruence | by apply (no_pending_ext w) | done].
        -- apply coarse_order_still; [done | by rewrite Hc | done].
    + unfold handleApproval. rewrite Hp.
      split; [split; done|]. by apply coarse_order_still.
  - (* the approval timer *)
    destruct (timers w !! h) as [agentId|]; [|discriminate]. injection Hstep as <-.
    split; [split|].
    + unfold roles_ok. rewrite <- Hroles.
      exact (updateAgent_roles agentId (statusPatch error)
               (setPendingApproval _ (dropTimer h w))).
    + apply (Phase_ext w); try reflexivity; [|exact Hphase]. cbn. by intros ->.
    + apply coarse_order_still; try reflexivity. cbn. by intros ->.
  - (* an awaited call settles *)
    destruct Hphase as [tid0 k H1 H2 H3 H4 H5
                       | tid0 o cap i a tn cid t0 H1 H2 H3 H4 H5
                       | tid0 o cap i H1 H2 H3 H4 H5
                       | H1 H2 H3];
      rewrite H1 in Hstep.
    + task_lookup Hstep.
      assert (Hsole : sole tid w) by (right; eauto).
      assert (Hnp : no_pending w) by (unfold no_pending; rewrite H4; constructor).
      assert (Hloop : forall wm,
                 tasks wm = tasks w -> toolCalls (state wm) = toolCalls (state w) ->
                 currentStep (state wm) = currentStep (state w) ->
                 agents (state wm) = agents (state w) ->
                 pendingApproval wm = pendingApproval w ->
                 forall cap, Inv (loop_from InStart cap 0 e tid wm) /\
                             coarse_order (w, ESettle tid out e, loop_from InStart cap 0 e tid wm)).
      { intros wm Ht Hc Hs Ha Hp cap.
        destruct (loop_from_start cap 0 e tid wm)
          as (Hph & Hro & Hle & Hlen & Hpa);
          [unfold sole; rewrite Ht; exact Hsole | by apply (no_pending_ext w)
          | congruence | lia | lia |].
        split; [split; [unfold roles_ok in *; congruence | exact Hph]|].
        apply coarse_order_intro; rewrite <- ?Hs, <- ?Hc; [lia | done | done | done | lia]. }
      destruct H2 as [cap [-> | ->]]; injection Hstep as <-.
      * destruct out as [d r|]; cbn [startWorkflow_after_init].
        -- split; [split; [exact Hroles|]|by apply coarse_order_still].
           eapply (PBackend _ tid); cbn; eauto. rewrite H1. apply insert_singleton_eq.
        -- by apply Hloop.
      * destruct out as [d r|]; cbn [startWorkflow_after_analysis]; [|by apply Hloop].
        destruct (negb (truthy r) && truthy (jget_opt "analysis" d)); by apply Hloop.
    + task_lookup Hstep.
      injection Hstep as <-.
      destruct (executeStep_resume_effect i a tn cid t0 out e w)
        as ((q & Hq & Hcalls) & (pa & _ & Hagents) & _ & Hcur & Hpa & Htasks & _).
      set (w1 := executeStep_resume i a tn cid t0 out e w) in *.
      assert (Hafter : after_step o cap i tid w1 = park tid (KDelay o cap i) w1).
      { unfold after_step. destruct o; [|reflexivity].
        cbn in H2. destruct (step_exists i ltac:(lia)) as [st Hst]. rewrite Hst.
        rewrite bool_decide_eq_true_2; [reflexivity|].
        intros Ht. apply (approval_index i st Hst) in Ht. lia. }
      rewrite Hafter.
      split; [split|].
      * unfold roles_ok. rewrite <- Hroles. cbn. rewrite Hagents.
        rewrite map_map. apply map_ext. intros a0. case_bool_decide; reflexivity.
      * eapply (PDelay _ tid o cap i); cbn.
        -- rewrite Htasks, H1. apply insert_singleton_eq.
        -- by rewrite Hcur.
        -- lia.
        -- by apply (pending_only_settled cid q w1 w).
        -- congruence.
      * apply coarse_order_still; cbn; [done | | congruence].
        rewrite Hcalls. apply length_map.
    + task_lookup Hstep. discriminate.
    + rewrite lookup_empty in Hstep. discriminate.
  - (* a pause ends *)
    destruct Hphase as [tid0 k H1 H2 H3 H4 H5
                       | tid0 o cap i a tn cid t0 H1 H2 H3 H4 H5
                       | tid0 o cap i H1 H2 H3 H4 H5
                       | H1 H2 H3];
      rewrite H1 in Hstep.
    + task_lookup Hstep.
      destruct H2 as [cap [-> | ->]]; discriminate.
    + task_lookup Hstep. discriminate.
    + task_lookup Hstep.
      injection Hstep as <-.
      assert (Hsole : sole tid w) by (right; eauto).
      destruct o; cbn in H2.
      * destruct (loop_from_start cap (S i) e tid w)
          as (Hph & Hro & Hle & Hlen & Hpa); [done | done | done | lia | lia |].
        split; [split; [unfold roles_ok in *; congruence | exact Hph]|].
        apply coarse_order_intro; [lia | done | done | done | lia].
      * destruct H2 as (Hi & Hcap & Hcur).
        destruct (loop_from_approval cap (S i) e tid w)
          as (Hph & Hro & Hpa & Hlt & Heq); [done | done | done | done | lia |].
        split; [split; [unfold roles_ok in *; congruence | exact Hph]|].
        destruct (decide (S i < 6)) as [Hlt6|Hge6].
        -- specialize (Hlt Hlt6).
           apply coarse_order_intro; rewrite ?Hlt, ?Hcur, ?Hpa; [lia | done | lia | done | lia].
        -- destruct (Heq ltac:(lia)) as [Hc Hcalls].
           apply coarse_order_still; [done | by rewrite Hcalls | done].
    + rewrite lookup_empty in Hstep. discriminate.
Qed.

Lemma startWorkflow_Inv e w :
  tasks w = ∅ -> pendingApproval w = None -> Inv (startWorkflow e w).
Proof.
  intros Ht Hp. split; [reflexivity|].
  apply (PBackend _ (nextTask w) (KWorkflowInit (agents (state w)))).
  - cbn. by rewrite Ht, insert_empty.
  - eauto.
  - reflexivity.
  - reflexivity.
  - exact Hp.
Qed.

(** ** The order of the steps *)

Lemma begun_tools_S (i : nat) (st : Step) :
  WORKFLOW_STEPS !! i = Some st ->
  begun_tools (S i) =
    if bool_decide (tool st = APPROVAL_TOOL) then begun_tools i
    else (begun_tools i ++ [tool st])%list.
Proof.
  intros H.
  do 6 (destruct i as [|i]; [injection H as <-; reflexivity|]).
  done.
Qed.

Lemma settled_all_success (w : World) :
  no_pending w -> Forall (fun c => tc_status c <> call_error) (toolCalls (state w)) ->
  all_success w.
Proof.
  unfold no_pending, all_success. rewrite !Forall_forall. intros Hp He c Hc.
  specialize (Hp c Hc). specialize (He c Hc). by destruct (tc_status c).
Qed.

Lemma all_success_nil (w : World) :
  map tc_toolName (toolCalls (state w)) = begun_tools 0 -> all_success w.
Proof.
  unfold all_success. intros H. destruct (toolCalls (state w)); [constructor | discriminate].
Qed.

(** What [executeStep] does when it finds its step and its agent. *)
Lemma executeStep_begins (cap : list Agent) (i : nat) (e : Env) (w : World) :
  roles_ok cap -> i < 6 ->
  exists st ag,
    WORKFLOW_STEPS !! i = Some st /\
    let w' := (executeStep cap i e w).1 in
    currentStep (state w') = S i /\
    tasks w' = tasks w /\
    if bool_decide (tool st = APPROVAL_TOOL) then
      (executeStep cap i e w).2 = Returned /\
      toolCalls (state w') = toolCalls (state w) /\
      approvalStatus w' = Some ap_pending
    else
      (executeStep cap i e w).2 =
        Awaiting (id ag) (tool st) (mkCallId (now e) (rnd e)) (now e) /\
      pendingApproval w' = pendingApproval w /\
      exists c, toolCalls (state w') = (toolCalls (state w) ++ [c])%list /\
                tc_toolName c = tool st /\ tc_status c = call_pending.
Proof.
  intros Hcap Hi.
  destruct (step_exists i Hi) as [st Hst].
  destruct (roles_find cap i st Hcap Hst) as [ag Hag].
  exists st, ag. split; [exact Hst|]. cbn zeta.
  unfold executeStep. rewrite Hst, Hag.
  case_bool_decide as Htool; cbn.
  - split; [lia|]. done.
  - split; [lia|]. split; [reflexivity|]. split; [reflexivity|]. split; [reflexivity|].
    eexists. split; [reflexivity|]. done.
Qed.

(** The loop entered at index [i], with [currentStep] at [i], the steps
    before it recorded and no request open. *)
Lemma loop_from_sequenced (o : Origin) (cap : list Agent) (i : nat) (e : Env)
    (tid : nat) (w : World) :
  roles_ok cap -> sole tid w -> (o = InStart -> i <= 3) -> i <= 6 ->
  pendingApproval w = None ->
  currentStep (state w) = i ->
  map tc_toolName (toolCalls (state w)) = begun_tools i ->
  Forall (fun c => tc_status c <> call_error) (toolCalls (state w)) ->
  let w' := loop_from o cap i e tid w in
  Sequenced w' /\
  (i < 6 -> currentStep (state w') = S i /\ begins_step i w w') /\
  (i = 6 -> currentStep (state w') = 6 /\
            toolCalls (state w') = toolCalls (state w) /\
            pendingApproval w' = None).
Proof.
  intros Hcap Hsole Ho Hi Hp Hc Hnames Herr. cbn zeta. unfold loop_from.
  case_bool_decide as Hlt; cbn in Hlt.
  - destruct (executeStep_begins cap i e w Hcap Hlt) as (st & ag & Hst & Hcur & Ht & Hrest).
    cbn zeta in Hcur, Ht, Hrest.
    pose proof (begun_tools_S i st Hst) as Hbt.
    pose proof (approval_index i st Hst) as Hidx.
    destruct (executeStep cap i e w) as [w1 r]. cbn [fst snd] in *.
    assert (Hsole1 : sole tid w1).
    { destruct Hsole as [H | [k H]]; [left | right; exists k]; congruence. }
    case_bool_decide as Htool.
    + destruct Hrest as (-> & Hlog & Hap).
      assert (Hafter : exists w2, after_step o cap i tid w1 = w2 /\
                 state w2 = state w1 /\ pendingApproval w2 = pendingApproval w1 /\
                 (tasks w2 = ∅ \/ tasks w2 = {[tid := KDelay o cap i]})).
      { eexists. split; [reflexivity|]. unfold after_step.
        destruct o; [rewrite Hst; case_bool_decide|]; cbn;
          (split; [reflexivity|]); (split; [reflexivity|]);
          first [ left; apply (sole_finish tid w1 Hsole1)
                | right; apply (sole_park tid _ w1 Hsole1) ]. }
      destruct Hafter as (w2 & -> & Hs2 & Hp2 & Ht2).
      split; [|split; [|lia]].
      * unfold Sequenced. rewrite Hs2, Hcur, Hlog, Hbt.
        split; [exact Hnames|]. split; [exact Herr|].
        destruct Ht2 as [-> | ->]; [apply map_Forall_empty|].
        apply map_Forall_singleton. by split.
      * intros _. rewrite Hs2. split; [exact Hcur|].
        unfold begins_step. rewrite Hst, bool_decide_eq_true_2 by exact Htool.
        rewrite Hs2. unfold approvalStatus. rewrite Hp2. done.
    + destruct Hrest as (-> & Hpa & c & Hlog & Hcn & Hcs).
      split; [|split; [|lia]].
      * unfold Sequenced. rewrite (sole_park tid _ w1 Hsole1).
        cbn. rewrite Hcur, Hlog, Hbt.
        split; [by rewrite map_app, Hnames, <- Hcn|]. split.
        -- apply Forall_app. split; [exact Herr|]. repeat constructor. by rewrite Hcs.
        -- apply map_Forall_singleton. by split.
      * intros _. cbn. split; [exact Hcur|].
        unfold begins_step. rewrite Hst, bool_decide_eq_false_2 by exact Htool.
        cbn. split; [congruence|]. by exists c.
  - assert (i = 6) as -> by lia. cbn.
    split; [|split; [lia|intros _; by rewrite Hc]].
    unfold Sequenced. cbn. rewrite Hc.
    split; [exact Hnames|]. split; [exact Herr|].
    destruct Hsole as [-> | [k ->]];
      [rewrite delete_empty | rewrite delete_singleton_eq]; apply map_Forall_empty.
Qed.

Lemma still_in_order (w : World) (ev : Event) (w' : World) :
  Phase w -> Sequenced w ->
  (pendingApproval w <> None -> is_approve ev = false) ->
  currentStep (state w') = currentStep (state w) ->
  length (toolCalls (state w')) = length (toolCalls (state w)) ->
  (pendingApproval w = None -> pendingApproval w' = None) ->
  in_order (w, ev, w').
Proof.
  intros Hphase (Hnames & _) Hev Hc Hl Hp. unfold in_order. cbn zeta. rewrite Hc.
  split; [exact Hnames|]. split; [by left|]. split; [done|].
  split; [intros ?; lia|]. split; [|intros ? ?; lia].
  intros Hne. destruct (pendingApproval w) as [p|] eqn:Hpa; [|done].
  destruct (Phase_pending w p Hphase Hpa) as (_ & _ & H4).
  split; [exact H4|]. rewrite (Hev Hne), H4. split; [lia | discriminate].
Qed.

Lemma begins_step_from (i : nat) (w wm w' : World) :
  toolCalls (state wm) = toolCalls (state w) ->
  (i = 3 -> pendingApproval w = None) ->
  begins_step i wm w' -> begins_step i w w'.
Proof.
  intros Hl Hp. unfold begins_step. rewrite Hl.
  destruct (WORKFLOW_STEPS !! i) as [st|] eqn:Hst; [|done].
  case_bool_decide as Htool; [|done].
  apply (approval_index i st Hst) in Htool.
  intros (Hlog & _ & Hap). by repeat split; [|apply Hp|].
Qed.

(** Every event of a run keeps [Sequenced] and is in order. *)
Lemma step_sequenced (w : World) (ev : Event) (w' : World) :
  Inv w -> Sequenced w -> run_event ev = true -> step_event ev w = Some w' ->
  Sequenced w' /\ in_order (w, ev, w').
Proof.
  intros [Hroles Hphase] Hseq Hev Hstep.
  pose proof Hseq as (Hnames & Herr & Htasks).
  destruct ev as [e0| |approved e|h|tid out e|tid e]; try discriminate; cbn in Hstep.
  - (* a decision *)
    injection Hstep as <-.
    destruct (pendingApproval w) as [p|] eqn:Hp.
    + destruct (Phase_pending w p Hphase Hp) as (Ht & Hnp & Hcur).
      destruct approved.
      * destruct (handleApproval_approve e w p Hp)
          as (wm & -> & Htm & Hlm & Hcm & _ & Hpm & _).
        assert (Hsolem : sole (nextTask w) wm) by (left; congruence).
        assert (Hc4 : currentStep (state wm) = 4) by congruence.
        assert (Hnm : map tc_toolName (toolCalls (state wm)) = begun_tools 4)
          by (rewrite Hlm, Hnames, Hcur; reflexivity).
        assert (Herrm : Forall (fun c => tc_status c <> call_error) (toolCalls (state wm)))
          by (by rewrite Hlm).
        destruct (loop_from_sequenced InApproval (agents (state w)) 4 e (nextTask w) wm
                    Hroles Hsolem ltac:(discriminate) ltac:(lia) Hpm Hc4 Hnm Herrm)
          as (Hseq' & Hbeg & _).
        destruct Hbeg as [Hc5 Hb]; [lia|].
        split; [exact Hseq'|].
        unfold in_order. cbn zeta. rewrite Hc5, Hcur.
        split; [by rewrite Hcur in Hnames|]. split; [by right|].
        split; [intros ?; lia|].
        split.
        { intros _. split; [by apply settled_all_success|].
          apply (begins_step_from 4 w wm); [exact Hlm | intros ?; lia | exact Hb]. }
        split; [|intros _ _; split; [reflexivity | congruence]].
        intros _. done.
      * destruct (handleApproval_reject e w p Hp) as (Ht' & Hc' & Hs' & _ & Hp' & _).
        cbn zeta in Ht', Hc', Hs', Hp'.
        split.
        -- unfold Sequenced. rewrite Hc', Hs', Ht', Ht.
           split; [exact Hnames|]. split; [exact Herr|]. apply map_Forall_empty.
        -- unfold in_order. cbn zeta. rewrite Hs', Hcur.
           split; [by rewrite Hcur in Hnames|]. split; [by left|].
           split; [intros _; split; [by rewrite Hc' | congruence]|].
           split; [intros ?; lia|]. split; [|intros ? ?; lia]. intros _.
           split; [reflexivity|]. split; [intros ?; lia | discriminate].
    + unfold handleApproval. rewrite Hp. split; [exact Hseq|].
      apply still_in_order; try done; by rewrite Hp.
  - (* the approval timer *)
    destruct (timers w !! h) as [agentId|]; [|discriminate]. injection Hstep as <-.
    split.
    + unfold Sequenced. cbn. done.
    + apply still_in_order; try done; cbn; try by intros ->.
  - (* an awaited call settles *)
    destruct (tasks w !! tid) as [k|] eqn:Hk; [|discriminate].
    pose proof (Htasks tid k Hk) as [Hcap Hki].
    assert (Hfacts : tasks w = {[tid := k]} /\ pendingApproval w = None /\
                     match k with
                     | KWorkflowInit _ | KAnalysis _ => currentStep (state w) = 0
                     | KInvoke _ _ i _ _ callId _ =>
                         currentStep (state w) = S i /\ pending_only callId w
                     | KDelay _ _ _ => no_pending w
                     end).
    { destruct Hphase as [t k0 H1 [c [-> | ->]] H3 _ H5
                         | t o c i a tn cid s H1 _ H3 H4 H5
                         | t o c i H1 _ _ H4 H5 | H1 _ _];
        rewrite H1 in Hk; try done; task_lookup Hk; injection Hk as <-; by rewrite H1. }
    destruct Hfacts as (Ht & Hp & Hk').
    assert (Hsole : sole tid w) by (right; eauto).
    destruct k as [cap|cap|o cap i agentId toolName callId t0|o cap i]; [| | |discriminate];
      injection Hstep as <-; cbn [kont_agents] in Hcap.
    + (* zerotouch-workflow *)
      unfold startWorkflow_after_init. destruct out as [d er|].
      * split.
        -- unfold Sequenced. cbn. split; [exact Hnames|]. split; [exact Herr|].
           apply map_Forall_insert_2; [by split | exact Htasks].
        -- apply still_in_order; try done.
      * assert (Hn0 : map tc_toolName (toolCalls (state w)) = begun_tools 0)
          by (by rewrite Hk' in Hnames).
        destruct (loop_from_sequenced InStart cap 0 e tid (startWorkflow_catch w)
                    Hcap Hsole ltac:(lia) ltac:(lia) Hp Hk' Hn0 Herr)
          as (Hseq' & Hbeg & _).
        destruct Hbeg as [Hc1 Hb]; [lia|].
        split; [exact Hseq'|].
        unfold in_order. cbn zeta. rewrite Hc1, Hk'.
        split; [exact Hn0|]. split; [by right|]. split; [intros ?; lia|].
        split; [intros _; split; [by apply all_success_nil | exact Hb]|].
        split; [done | intros ?; lia].
    + (* ai-crisis-analyzer *)
      assert (Hloop : forall wm,
                state wm = state w \/
                (exists m, state wm = set_metrics m (state w)) ->
                pendingApproval wm = pendingApproval w -> tasks wm = tasks w ->
                Sequenced (loop_from InStart cap 0 e tid wm) /\
                in_order (w, ESettle tid out e, loop_from InStart cap 0 e tid wm)).
      { intros wm Hs Hpm Htm.
        assert (Hcm : currentStep (state wm) = currentStep (state w))
          by (destruct Hs as [-> | [m ->]]; reflexivity).
        assert (Hlm : toolCalls (state wm) = toolCalls (state w))
          by (destruct Hs as [-> | [m ->]]; reflexivity).
        assert (Hn0 : map tc_toolName (toolCalls (state w)) = begun_tools 0)
          by (by rewrite Hk' in Hnames).
        assert (Hsolem : sole tid wm) by (right; exists (KAnalysis cap); congruence).
        destruct (loop_from_sequenced InStart cap 0 e tid wm
                    Hcap Hsolem ltac:(lia) ltac:(lia) ltac:(congruence) ltac:(congruence)
                    ltac:(by rewrite Hlm) ltac:(by rewrite Hlm))
          as (Hseq' & Hbeg & _).
        destruct Hbeg as [Hc1 Hb]; [lia|].
        split; [exact Hseq'|].
        unfold in_order. cbn zeta. rewrite Hc1, Hk'.
        split; [exact Hn0|]. split; [by right|]. split; [intros ?; lia|].
        split; [intros _; split|split; [done | intros ?; lia]].
        - by apply all_success_nil.
        - apply (begins_step_from 0 w wm); [exact Hlm | intros ?; lia | exact Hb]. }
      unfold startWorkflow_after_analysis. destruct out as [d er|].
      * destruct (negb (truthy er) && _); apply Hloop; try done; [right; eauto | by left].
      * apply Hloop; try done. by left.
    + (* launch-io-agents *)
      destruct Hk' as [Hc Hpo].
      destruct (executeStep_resume_effect i agentId toolName callId t0 out e w)
        as ((q & Hq & Hlog) & _ & _ & Hcs & Hpa & Hta & _).
      set (wr := executeStep_resume i agentId toolName callId t0 out e w) in *.
      assert (Hsoler : sole tid wr) by (right; exists (KInvoke o cap i agentId toolName callId t0); congruence).
      assert (Hafter : state (after_step o cap i tid wr) = state wr /\
                       pendingApproval (after_step o cap i tid wr) = pendingApproval wr /\
                       (tasks (after_step o cap i tid wr) = ∅ \/
                        tasks (after_step o cap i tid wr) = {[tid := KDelay o cap i]})).
      { unfold after_step.
        destruct o; [destruct (WORKFLOW_STEPS !! i); [case_bool_decide|]|];
          (split; [reflexivity|]); (split; [reflexivity|]);
          first [ left; apply (sole_finish tid wr Hsoler)
                | right; apply (sole_park tid _ wr Hsoler) ]. }
      destruct Hafter as (Hs2 & Hp2 & Ht2).
      assert (Hn2 : map tc_toolName (toolCalls (state wr)) = map tc_toolName (toolCalls (state w))).
      { rewrite Hlog, map_map. apply map_ext. intros c. by case_bool_decide. }
      split.
      * unfold Sequenced. rewrite Hs2, Hcs, Hn2.
        split; [exact Hnames|]. split.
        -- rewrite Hlog. apply Forall_map. eapply Forall_impl; [exact Herr|].
           cbn. intros c Hc0. case_bool_decide; [cbn; by rewrite Hq | exact Hc0].
        -- destruct Ht2 as [-> | ->]; [apply map_Forall_empty|].
           apply map_Forall_singleton. by split.
      * apply still_in_order; try done; rewrite ?Hs2, ?Hp2.
        -- exact Hcs.
        -- by rewrite <- (length_map tc_toolName), Hn2, length_map.
        -- congruence.
  - (* a pause ends *)
    destruct (tasks w !! tid) as [k|] eqn:Hk; [|discriminate].
    pose proof (Htasks tid k Hk) as [Hcap Hki].
    destruct k as [cap|cap|o cap i agentId toolName callId t0|o cap i]; try discriminate.
    injection Hstep as <-. cbn [kont_agents] in Hcap.
    assert (Hfacts : tasks w = {[tid := KDelay o cap i]} /\ pendingApproval w = None /\
                     no_pending w /\ origin_ok o cap i (currentStep (state w))).
    { destruct Hphase as [t k0 H1 [c [-> | ->]] _ _ _
                         | t o' c i' a tn cid s H1 _ _ _ _
                         | t o' c i' H1 H2 _ H4 H5 | H1 _ _];
        rewrite H1 in Hk; try done; task_lookup Hk; try discriminate.
      injection Hk as -> -> ->. done. }
    destruct Hfacts as (Ht & Hp & Hnp & Hor).
    assert (Hi : (o = InStart -> S i <= 3) /\ S i <= 6 /\ i <> 3).
    { destruct o; cbn in Hor; [split; [lia|split; lia] | split; [done|lia]]. }
    destruct Hi as (Hi1 & Hi2 & Hi3).
    assert (HnS : map tc_toolName (toolCalls (state w)) = begun_tools (S i))
      by (by rewrite Hki in Hnames).
    destruct (loop_from_sequenced o cap (S i) e tid w
                Hcap ltac:(right; eauto) Hi1 Hi2 Hp Hki HnS Herr)
      as (Hseq' & Hbeg & Hend).
    split; [exact Hseq'|].
    destruct (decide (S i < 6)) as [Hlt | Hge].
    + destruct (Hbeg Hlt) as [Hc2 Hb].
      unfold in_order. cbn zeta. rewrite Hc2, Hki.
      split; [exact HnS|]. split; [by right|]. split; [intros ?; lia|].
      split; [intros _; split; [by apply settled_all_success | exact Hb]|].
      split; [done | intros ? ?; lia].
    + destruct Hend as (Hc2 & Hl2 & Hp2); [lia|].
      apply still_in_order; try done; [lia | by rewrite Hl2].
Qed.

Lemma transitions_in_order (evs : list Event) : forall w,
  Inv w -> Sequenced w -> forallb run_event evs = true ->
  Forall in_order (transitions evs w).
Proof.
  induction evs as [|ev evs IH]; intros w Hinv Hseq Hevs; cbn; [constructor|].
  cbn in Hevs. apply andb_prop in Hevs as [Hev Hevs].
  destruct (step_event ev w) as [w'|] eqn:Hstep; [|constructor].
  destruct (step_preserves w ev w' Hinv Hev Hstep) as [Hinv' _].
  destruct (step_sequenced w ev w' Hinv Hseq Hev Hstep) as [Hseq' Hord].
  constructor; [exact Hord | by apply IH].
Qed.

(** C4. Take any world in which nothing is in flight and no approval is
    open and whose agents have the five roles, call [startWorkflow], and let
    anything happen afterwards but another start or a reset: awaited calls
    settling with any outcome, pauses ending, timers, decisions taken with
    the [handleApproval] of the current render.  The run begins at
    [currentStep] 0 with an empty log, and at every event of it the log holds
    exactly one call for each step begun that calls an agent, in the order of
    the steps; [currentStep] stays or goes up by one; when it goes up, from
    [i] to [i + 1], every call of the log has succeeded (the steps before
    are completed) and it is the step of index [i] that begins: a pending
    call of its tool is appended, or, for the approval step, a pending
    request is opened and no call is made; when it stays, no call is added
    and no request opened.  While the request is open [currentStep] is 4,
    and it goes to 5, the step of index 4 beginning, exactly at an approving
    decision: the approval step does not complete by itself, and an approval
    resumes the run at index 4. *)
Theorem steps_in_order (w : World) (e : Env) (evs : list Event) :
  quiescent w ->
  roles_ok (agents (state w)) ->
  forallb run_event evs = true ->
  currentStep (state (startWorkflow e w)) = 0 /\
  toolCalls (state (startWorkflow e w)) = [] /\
  Forall in_order (transitions evs (startWorkflow e w)).
Proof.
  intros [Ht Hp] Hroles Hevs. split; [reflexivity|]. split; [reflexivity|].
  apply transitions_in_order; [by apply startWorkflow_Inv | | exact Hevs].
  unfold Sequenced. cbn. split; [reflexivity|]. split; [constructor|].
  rewrite Ht. apply map_Forall_insert_2; [by split | apply map_Forall_empty].
Qed.

(** The run of the scenario, from the first render to completion. *)
Lemma steps_in_order_witness :
  currentStep (state (startWorkflow (mkEnv 0 "a") initialWorld)) = 0 /\
  toolCalls (state (startWorkflow (mkEnv 0 "a") initialWorld)) = [] /\
  Forall in_order
    (transitions (tail until_approval ++ after_approval 6000)
                 (startWorkflow (mkEnv 0 "a") initialWorld)).
Proof.
  exact (steps_in_order initialWorld (mkEnv 0 "a")
           (tail until_approval ++ after_approval 6000)
           (conj eq_refl eq_refl) eq_refl eq_refl).
Defined.

(** C4, as stated for every run, fails.  [start()], the first backend call
    fails, the call of step 0 is in flight, [reset()], then [start()] again:
    the hook accepts all of it, and the loop of the first run is still
    suspended.  In the second run the old call settles and the old loop
    begins step 1 ([currentStep] 2, a call of [run_monte_carlo]) before the
    run has begun its step 0; then the loop of the second run begins step 0
    ([currentStep] back to 1, a call of [analyze_satellite_imagery]) while
    the call of step 1 is pending. *)
Theorem stale_loop_breaks_step_order :
  let restart := EStart (mkEnv 200 "c") in
  let observe := fun w => (currentStep (state w),
                           map (fun c => (tc_toolName c, tc_status c))
                               (toolCalls (state w))) in
  forallb run_event stale_run = true /\
  observe <$> run (stale_start ++ [restart]) initialWorld = Some (0, []) /\
  observe <$> run (stale_start ++ restart :: take 1 stale_run) initialWorld =
    Some (0, []) /\
  observe <$> run (stale_start ++ restart :: take 2 stale_run) initialWorld =
    Some (2, [("run_monte_carlo", call_pending)]) /\
  observe <$> run (stale_start ++ restart :: stale_run) initialWorld =
    Some (1, [("run_monte_carlo", call_pending);
              ("analyze_satellite_imagery", call_pending)]) /\
  from_option
    (fun w0 => size (tasks w0) = 1 /\
               ~ Forall in_order (transitions stale_run (startWorkflow (mkEnv 200 "c") w0)))
    False (run stale_start initialWorld).
Proof.
  cbn zeta. split; [reflexivity|].
  do 4 (split; [vm_compute; reflexivity|]).
  assert (Hsome : from_option (fun _ => true) false (run stale_start initialWorld) = true)
    by (vm_compute; reflexivity).
  assert (Hsize : from_option (fun w0 => size (tasks w0)) 0 (run stale_start initialWorld) = 1)
    by (vm_compute; reflexivity).
  assert (Hsteps : from_option
            (fun w0 => map (fun t => (currentStep (state t.1.1), currentStep (state t.2)))
                           (transitions stale_run (startWorkflow (mkEnv 200 "c") w0)))
            [] (run stale_start initialWorld) = [(0, 0); (0, 2); (2, 1)])
    by (vm_compute; reflexivity).
  destruct (run stale_start initialWorld) as [w0|]; [|discriminate].
  cbn [from_option] in *. split; [exact Hsize|].
  intros H.
  assert (Hall : Forall (fun c : nat * nat => c.2 = c.1 \/ c.2 = S c.1)
                   (map (fun t : World * Event * World =>
                           (currentStep (state t.1.1), currentStep (state t.2)))
                        (transitions stale_run (startWorkflow (mkEnv 200 "c") w0)))).
  { apply Forall_map. eapply Forall_impl; [exact H|].
    intros [[w1 ev] w2] (_ & Hc & _). exact Hc. }
  rewrite Hsteps in Hall.
  apply Forall_cons in Hall as [_ Hall]. apply Forall_cons in Hall as [[Hc | Hc] _];
    discriminate.
Qed.


(** In that run every event happens, and [currentStep] goes through
    0, 1, ..., 6. *)
Example scenario_steps :
  map (fun t => currentStep (state t.2))
      (transitions (tail until_approval ++ after_approval 6000)
                   (startWorkflow (mkEnv 0 "a") initialWorld)) =
  [1; 1; 2; 2; 3; 3; 4; 5; 5; 6; 6; 6].
Proof. vm_compute. reflexivity. Qed.

(** ** What the dashboard lets happen *)

Lemma executeStep_isRunning cap i e w :
  isRunning (state (executeStep cap i e w).1) = isRunning (state w).
Proof.
  unfold executeStep.
  destruct (WORKFLOW_STEPS !! i); [|reflexivity].
  destruct (find _ cap); [|reflexivity].
  case_bool_decide; reflexivity.
Qed.

Lemma loop_from_isRunning o cap i e tid w :
  i < 6 -> isRunning (state (loop_from o cap i e tid w)) = isRunning (state w).
Proof.
  intros Hi. unfold loop_from. rewrite bool_decide_eq_true_2 by exact Hi.
  pose proof (executeStep_isRunning cap i e w) as Hrun.
  destruct (executeStep cap i e w) as [w1 r]. cbn [fst] in Hrun.
  destruct r; [|exact Hrun].
  unfold after_step. destruct o; [|exact Hrun].
  destruct (WORKFLOW_STEPS !! i); [case_bool_decide|]; exact Hrun.
Qed.

Lemma loop_from_done o cap i e tid w :
  6 <= i -> sole tid w ->
  tasks (loop_from o cap i e tid w) = ∅ /\
  pendingApproval (loop_from o cap i e tid w) = pendingApproval w.
Proof.
  intros Hi Hsole. unfold loop_from.
  rewrite bool_decide_eq_false_2 by (cbn; lia).
  split; [|reflexivity]. apply (sole_finish tid _ Hsole).
Qed.

(** While a task is suspended or an approval is open, [isRunning] is
    true: this is kept by every event of a run. *)
Lemma step_calm w ev w' :
  Inv w -> (isRunning (state w) = false -> quiescent w) ->
  run_event ev = true -> step_event ev w = Some w' ->
  isRunning (state w') = false -> quiescent w'.
Proof.
  intros [Hroles Hphase] Hcalm Hev Hstep Hidle.
  destruct ev as [e0| |approved e|h|tid out e|tid e]; try discriminate; cbn in Hstep.
  - injection Hstep as <-.
    destruct (pendingApproval w) as [p|] eqn:Hp.
    + destruct (Phase_pending w p Hphase Hp) as (Htasks & Hnp & Hcur).
      destruct approved.
      * destruct (handleApproval_approve e w p Hp)
          as (wm & Heq & Htm & Hcm & Hsm & Hrm & Hpm & Hrun).
        rewrite Heq in Hidle. rewrite loop_from_isRunning in Hidle by lia.
        rewrite Hrun in Hidle. destruct (Hcalm Hidle) as [_ ?]. congruence.
      * destruct (handleApproval_reject e w p Hp) as (Ht & _ & _ & _ & Hpa & _).
        split; congruence.
    + unfold handleApproval in *. rewrite Hp in *. auto.
  - destruct (timers w !! h) as [agentId|]; [|discriminate]. injection Hstep as <-.
    destruct (Hcalm Hidle) as [Ht Hp]. split; [exact Ht|]. cbn. by rewrite Hp.
  - destruct (tasks w !! tid) as [k|] eqn:Hk; [|discriminate].
    assert (Hrun : isRunning (state w) = true).
    { destruct (isRunning (state w)) eqn:Hr; [reflexivity|].
      destruct (Hcalm eq_refl) as [Ht _]. rewrite Ht, lookup_empty in Hk. discriminate. }
    exfalso. revert Hidle. apply not_false_iff_true.
    destruct k as [cap|cap|o cap i a tn cid t0|o cap i]; [| | |discriminate];
      injection Hstep as <-.
    + destruct out; cbn [startWorkflow_after_init];
        [exact Hrun | by rewrite loop_from_isRunning by lia].
    + destruct out as [d r|]; cbn [startWorkflow_after_analysis];
        [destruct (negb (truthy r) && truthy (jget_opt "analysis" d))|];
        by rewrite loop_from_isRunning by lia.
    + destruct (executeStep_resume_effect i a tn cid t0 out e w)
        as (_ & _ & Hr & _).
      rewrite <- Hrun, <- Hr. unfold after_step.
      destruct o; [destruct (WORKFLOW_STEPS !! i); [case_bool_decide|]|]; reflexivity.
  - destruct Hphase as [tid0 k H1 H2 H3 H4 H5
                       | tid0 o cap i a tn cid t0 H1 H2 H3 H4 H5
                       | tid0 o cap i H1 H2 H3 H4 H5
                       | H1 H2 H3];
      rewrite H1 in Hstep.
    + task_lookup Hstep. destruct H2 as [cap [-> | ->]]; discriminate.
    + task_lookup Hstep. discriminate.
    + task_lookup Hstep. injection Hstep as <-.
      assert (Hrun : isRunning (state w) = true).
      { destruct (isRunning (state w)) eqn:Hr; [reflexivity|].
        destruct (Hcalm eq_refl) as [Ht _]. rewrite Ht in H1.
        apply (f_equal (fun m => m !! tid)) in H1.
        rewrite lookup_empty, lookup_singleton_eq in H1. discriminate. }
      destruct (decide (S i < 6)) as [Hlt|Hge].
      * rewrite loop_from_isRunning in Hidle by exact Hlt. congruence.
      * destruct (loop_from_done o cap (S i) e tid w) as [Ht Hp];
          [lia | right; eauto |]. split; congruence.
    + rewrite lookup_empty in Hstep. discriminate.
Qed.

(** An event that keeps to the gating of the buttons (a start or a reset
    only while the run is not running), decisions being taken with the
    handler of the latest render, keeps the invariant; and whenever the run
    is then not running, nothing is in flight and no approval is open. *)
Lemma gated_step w ev w1 :
  Inv w -> (isRunning (state w) = false -> quiescent w) ->
  (run_event ev = false -> isRunning (state w) = false) ->
  step_event ev w = Some w1 ->
  Inv w1 /\ (isRunning (state w1) = false -> quiescent w1).
Proof.
  intros Hinv Hcalm Hen Hstep.
  destruct (run_event ev) eqn:Hev.
  - split.
    + apply (step_preserves w ev w1 Hinv Hev Hstep).
    + apply (step_calm w ev w1 Hinv Hcalm Hev Hstep).
  - destruct (Hcalm (Hen eq_refl)) as [Ht Hp].
    destruct ev; try discriminate; cbn in Hstep; injection Hstep as <-.
    + split; [by apply startWorkflow_Inv | discriminate].
    + split.
      * split; [unfold resetWorkflow, clearTimeoutRef; destruct (timeoutRef w); reflexivity|].
        apply PIdle.
        -- unfold resetWorkflow, clearTimeoutRef. destruct (timeoutRef w); exact Ht.
        -- unfold no_pending, resetWorkflow, clearTimeoutRef.
           destruct (timeoutRef w); constructor.
        -- unfold resetWorkflow, clearTimeoutRef. destruct (timeoutRef w); done.
      * intros _. unfold quiescent, resetWorkflow, clearTimeoutRef.
        destruct (timeoutRef w); done.
Qed.

(** [handleApproval] is its closure at the latest render. *)
Lemma handleApproval_latest (approved : bool) (e : Env) (w : World) :
  handleApproval approved e w =
  handleApproval_closure (pendingApproval w) (agents (state w)) approved e w.
Proof. reflexivity. Qed.

Lemma render_current (previous : option Dialog) (w : World) :
  dialog_current (render previous w).
Proof. intros p Hp. cbn in *. by rewrite Hp. Qed.

(** An action of the dashboard that is no click on a dialog on its way out
    is an event of the hook within the gating of the buttons, the decisions
    taken with the handler of the latest render; or it is the end of an exit
    animation, which leaves the hook as it is. *)
Lemma dashboard_step_hook (a : Action) (d d' : Dashboard) :
  dialog_current d -> on_open_request a d = true -> dashboard_step a d = Some d' ->
  dialog_current d' /\
  match a with
  | Happens ev =>
      step_event ev (hook d) = Some (hook d') /\
      (run_event ev = false -> isRunning (state (hook d)) = false)
  | ExitEnds => hook d' = hook d
  end.
Proof.
  intros Hcur Hopen Hstep. destruct a as [ev|]; cbn in Hstep.
  - destruct ev as [e| |approved e|h|tid out e|tid e].
    + destruct (isRunning (state (hook d))) eqn:Hr; [discriminate|].
      injection Hstep as <-. split; [apply render_current|]. by split.
    + destruct (isRunning (state (hook d))) eqn:Hr; [discriminate|].
      injection Hstep as <-. split; [apply render_current|]. by split.
    + cbn in Hopen. destruct (pendingApproval (hook d)) as [p|] eqn:Hp; [|discriminate].
      rewrite (Hcur p Hp) in Hstep. injection Hstep as <-.
      split; [apply render_current|]. split; [|discriminate].
      cbn. by rewrite handleApproval_latest, Hp.
    + cbn in Hstep. destruct (timers (hook d) !! h) as [agentId|] eqn:Hh; [|discriminate].
      injection Hstep as <-. split; [apply render_current|]. split; [|discriminate].
      cbn. by rewrite Hh.
    + destruct (step_event (ESettle tid out e) (hook d)) as [w|] eqn:Hev; [|discriminate].
      injection Hstep as <-. split; [apply render_current|]. by split.
    + destruct (step_event (EDelay tid e) (hook d)) as [w|] eqn:Hev; [|discriminate].
      injection Hstep as <-. split; [apply render_current|]. by split.
  - destruct (pendingApproval (hook d)) eqn:Hp; [discriminate|].
    destruct (dialog d); [|discriminate]. injection Hstep as <-.
    split; [|reflexivity]. intros p Hp'. cbn in Hp'. congruence.
Qed.

(** What holds of the hook in every state that the dashboard reaches from
    the first render without a click on a dialog on its way out, for any
    property [P] that the gated events of the hook keep. *)
Lemma dashboard_run_invariant (P : World -> Prop) :
  (forall ev w w1,
     Inv w -> (isRunning (state w) = false -> quiescent w) -> P w ->
     (run_event ev = false -> isRunning (state w) = false) ->
     step_event ev w = Some w1 -> P w1) ->
  forall acts d d',
    dialog_current d -> Inv (hook d) ->
    (isRunning (state (hook d)) = false -> quiescent (hook d)) -> P (hook d) ->
    dashboard_run acts d = Some d' -> no_late_click acts d = true ->
    Inv (hook d') /\
    (isRunning (state (hook d')) = false -> quiescent (hook d')) /\ P (hook d').
Proof.
  intros HP acts. induction acts as [|a acts IH];
    intros d d' Hcur Hinv Hcalm Hp Hrun Hlate; cbn in Hrun, Hlate.
  - by injection Hrun as <-.
  - apply andb_true_iff in Hlate as [Hopen Hlate].
    destruct (dashboard_step a d) as [d1|] eqn:Hstep; [|discriminate].
    destruct (dashboard_step_hook a d d1 Hcur Hopen Hstep) as [Hcur1 Hhook].
    destruct a as [ev|].
    + destruct Hhook as [Hev Hgate].
      destruct (gated_step (hook d) ev (hook d1) Hinv Hcalm Hgate Hev) as [Hinv1 Hcalm1].
      apply (IH d1 d' Hcur1 Hinv1 Hcalm1); [|exact Hrun | exact Hlate].
      by apply (HP ev (hook d) (hook d1)).
    + apply (IH d1 d' Hcur1); rewrite ?Hhook; done.
Qed.

Lemma firstRender_current : dialog_current firstRender.
Proof. apply render_current. Qed.



Lemma initialWorld_Inv : Inv initialWorld.
Proof.
  split; [reflexivity|]. apply PIdle; [reflexivity | constructor | done].
Qed.

(** ** After a decision

    Once [handleApproval] has acted on a request, the request is gone and
    the timer that [timeoutRef] held is cleared: that timer cannot fire any
    more, and a second decision is a no-op. *)
Lemma decide_clears_timer (approved : bool) (e : Env) (w : World)
    (p : ApprovalRequest) (h : nat) :
  pendingApproval w = Some p ->
  timeoutRef w = Some h ->
  let w' := handleApproval approved e w in
  pendingApproval w' = None /\ timers w' !! h = None /\
  step_event (ETimeout h) w' = None /\
  handleApproval approved e w' = w'.
Proof.
  intros Hp Hh. cbn zeta.
  assert (Hnone : pendingApproval (handleApproval approved e w) = None).
  { destruct approved.
    - destruct (handleApproval_approve e w p Hp) as (wm & -> & _ & _ & _ & _ & Hpm & _).
      unfold loop_from. rewrite bool_decide_eq_true_2 by (cbn; lia).
      pose proof (executeStep_effect (agents (state w)) 4 e wm) as Heff. cbn zeta in Heff.
      destruct (executeStep (agents (state w)) 4 e wm) as [w1 r]. cbn [fst snd] in Heff.
      destruct Heff as (_ & _ & Hr). destruct r.
      + destruct Hr as (_ & [[_ Hpa] | (? & _)]); [|lia]. cbn. congruence.
      + destruct Hr as (_ & _ & Hpa & _). cbn. congruence.
    - by destruct (handleApproval_reject e w p Hp) as (_ & _ & _ & _ & Hpa & _). }
  assert (Htimer : timers (handleApproval approved e w) !! h = None).
  { unfold handleApproval, clearTimeoutRef. rewrite Hp, Hh.
    destruct (find _ (agents (state w))), approved; cbn;
      try apply lookup_delete_eq.
    all: unfold loop_from, executeStep; cbn;
      destruct (find _ (agents (state w))); cbn; apply lookup_delete_eq. }
  split; [exact Hnone|]. split; [exact Htimer|]. split.
  - cbn. by rewrite Htimer.
  - unfold handleApproval at 1. by rewrite Hnone.
Qed.

(** * Further properties of the hook *)

(** ** updateAgent and updateToolCall *)

(** X1. [updateAgent], with the updates the hook makes (status,
    confidence, lastUpdate), keeps the list of agents in place: same length
    and order, same id, name, type, description and tools for each, the
    agents with another id untouched; and it changes nothing else in the
    world. *)
Theorem updateAgent_frame (agentId : string) (p : AgentPatch) (w : World) :
  let w' := updateAgent agentId p w in
  map agentIdentity (agents (state w')) = map agentIdentity (agents (state w)) /\
  filter (fun a => id a <> agentId) (agents (state w')) =
    filter (fun a => id a <> agentId) (agents (state w)) /\
  Forall (fun a => id a = agentId ->
                   status a = default (status a) (p_status p) /\
                   confidence a = default (confidence a) (p_confidence p))
         (agents (state w')) /\
  toolCalls (state w') = toolCalls (state w) /\
  (currentStep (state w'), totalSteps (state w'), isRunning (state w'),
   startTime (state w'), endTime (state w')) =
  (currentStep (state w), totalSteps (state w), isRunning (state w),
   startTime (state w), endTime (state w)) /\
  ports (state w') = ports (state w) /\
  metrics (state w') = metrics (state w) /\
  pendingApproval w' = pendingApproval w /\
  timers w' = timers w /\ timeoutRef w' = timeoutRef w /\
  tasks w' = tasks w /\ toasts w' = toasts w.
Proof.
  cbn. split; [|split; [|split; [|done]]].
  - rewrite map_map. apply map_ext. intros a. case_bool_decide; reflexivity.
  - induction (agents (state w)) as [|a l IH]; [reflexivity|]. cbn [map].
    rewrite !filter_cons. case_bool_decide as Ha; cbn [id patchAgent].
    + rewrite !decide_False by (intros Hn; apply Hn, Ha). exact IH.
    + rewrite !decide_True by exact Ha. by rewrite IH.
  - apply Forall_map, Forall_forall. intros a _.
    case_bool_decide as Ha; cbn; [|done].
    intros _. destruct (p_status p), (p_confidence p); done.
Qed.

(** X2. [updateAgent] with an id that no agent has changes nothing at
    all. *)
Theorem updateAgent_unknown_id (agentId : string) (p : AgentPatch) (w : World) :
  Forall (fun a => id a <> agentId) (agents (state w)) ->
  updateAgent agentId p w = w.
Proof.
  intros Hno. destruct w as [s pa tr tm nt ts tk nk].
  destruct s as [cs tot run st en ag tc po me]. cbn in *.
  unfold updateAgent, setState, set_agents. cbn. do 2 f_equal.
  induction Hno as [|a l Ha _ IH]; [reflexivity|]. cbn.
  rewrite bool_decide_eq_false_2 by exact Ha. by rewrite IH.
Qed.

Lemma updateAgent_unknown_id_witness :
  updateAgent "pilot-001" (statusPatch error) initialWorld = initialWorld.
Proof.
  apply (updateAgent_unknown_id "pilot-001" (statusPatch error) initialWorld).
  repeat constructor; discriminate.
Defined.

(** X3. [updateToolCall] with an id that no entry of the log has changes
    nothing at all: this is what happens to a call that settles after the
    log was emptied. *)
Theorem updateToolCall_unknown_id (callId : CallId) (q : ToolCallPatch) (w : World) :
  Forall (fun c => tc_id c <> callId) (toolCalls (state w)) ->
  updateToolCall callId q w = w.
Proof.
  intros Hno. destruct w as [s pa tr tm nt ts tk nk].
  destruct s as [cs tot run st en ag tc po me]. cbn in *.
  unfold updateToolCall, setState, set_toolCalls. cbn. do 2 f_equal.
  induction Hno as [|c l Hc _ IH]; [reflexivity|]. cbn.
  rewrite bool_decide_eq_false_2 by exact Hc. by rewrite IH.
Qed.

Lemma updateToolCall_unknown_id_witness :
  updateToolCall (mkCallId 100 "b") (mkToolCallPatch JNull call_success 2000) initialWorld =
  initialWorld.
Proof.
  apply (updateToolCall_unknown_id (mkCallId 100 "b")
           (mkToolCallPatch JNull call_success 2000) initialWorld).
  constructor.
Defined.

(** ** The log of tool calls *)

Lemma same_frame_refl w : same_frame w w.
Proof. by repeat split. Qed.

Lemma same_frame_trans w1 w2 w3 : same_frame w1 w2 -> same_frame w2 w3 -> same_frame w1 w3.
Proof.
  intros (H1 & H2 & H3 & H4) (G1 & G2 & G3 & G4). repeat split; congruence.
Qed.

Lemma identity_patched agentId p (l : list Agent) :
  map agentIdentity
      (map (fun a => if bool_decide (id a = agentId) then patchAgent a p else a) l) =
  map agentIdentity l.
Proof.
  rewrite map_map. apply map_ext. intros a. case_bool_decide; reflexivity.
Qed.

Lemma executeStep_frame cap i e w :
  let w' := (executeStep cap i e w).1 in
  same_frame w w' /\
  (currentStep (state w') = currentStep (state w) \/
   i < length WORKFLOW_STEPS /\ currentStep (state w') = S i) /\
  (i <> 3 -> timers w' = timers w /\ timeoutRef w' = timeoutRef w).
Proof.
  unfold executeStep.
  destruct (WORKFLOW_STEPS !! i) as [st|] eqn:Hst;
    [|cbn; split; [apply same_frame_refl | auto]].
  destruct (find _ cap) as [ag|]; [|cbn; split; [apply same_frame_refl | auto]].
  assert (Hi : i < length WORKFLOW_STEPS) by (apply lookup_lt_is_Some; eauto).
  pose proof (approval_index i st Hst) as Hidx.
  case_bool_decide as Htool; cbn.
  - split; [split; [apply identity_patched | done]|].
    split; [right; split; [exact Hi | lia]|].
    intros Hne. destruct Hne. by apply Hidx.
  - split; [split; [apply identity_patched | done]|].
    split; [right; split; [exact Hi | lia]|]. done.
Qed.

Lemma loop_from_frame o cap i e tid w :
  let w' := loop_from o cap i e tid w in
  same_frame w w' /\
  (currentStep (state w') = currentStep (state w) \/
   i < length WORKFLOW_STEPS /\ currentStep (state w') = S i) /\
  (i <> 3 -> timers w' = timers w /\ timeoutRef w' = timeoutRef w) /\
  log_grows w w'.
Proof.
  unfold loop_from. case_bool_decide as Hi.
  - pose proof (executeStep_frame cap i e w) as Hf.
    pose proof (executeStep_effect cap i e w) as He. cbn zeta in Hf, He.
    destruct (executeStep cap i e w) as [w1 r]. cbn [fst snd] in Hf, He.
    destruct Hf as (Hfr & Hcur & Htim). destruct He as (_ & _ & Hr).
    assert (Hlog : log_grows w w1).
    { destruct r as [|a tn cid t0].
      - destruct Hr as [Hc _]. exists (toolCalls (state w)), []. rewrite app_nil_r.
        split; [exact Hc|]. split; [cbn; lia|]. apply Forall2_same_length_lookup_2; [done|].
        intros k c c' H1 H2. rewrite H1 in H2. injection H2 as <-. done.
      - destruct Hr as (_ & _ & _ & c & _ & Hc). exists (toolCalls (state w)), [c].
        split; [exact Hc|]. split; [cbn; lia|]. apply Forall2_same_length_lookup_2; [done|].
        intros k c1 c' H1 H2. rewrite H1 in H2. injection H2 as <-. done. }
    assert (Hgo : forall w2, state w2 = state w1 -> timers w2 = timers w1 ->
                             timeoutRef w2 = timeoutRef w1 ->
              same_frame w w2 /\
              (currentStep (state w2) = currentStep (state w) \/
               i < length WORKFLOW_STEPS /\ currentStep (state w2) = S i) /\
              (i <> 3 -> timers w2 = timers w /\ timeoutRef w2 = timeoutRef w) /\
              log_grows w w2).
    { intros w2 Hs Ht Hr2. unfold same_frame, log_grows. rewrite Hs, Ht, Hr2. done. }
    destruct r; [|by apply Hgo].
    unfold after_step. destruct o; [|by apply Hgo].
    destruct (WORKFLOW_STEPS !! i); [case_bool_decide|]; by apply Hgo.
  - cbn. split; [by repeat split|]. split; [by left|]. split; [done|].
    exists (toolCalls (state w)), []. rewrite app_nil_r.
    split; [done|]. split; [cbn; lia|]. apply Forall2_same_length_lookup_2; [done|].
    intros k c c' H1 H2. rewrite H1 in H2. injection H2 as <-. done.
Qed.

Lemma log_grows_refl w w' :
  toolCalls (state w') = toolCalls (state w) -> log_grows w w'.
Proof.
  intros Hc. exists (toolCalls (state w)), []. rewrite app_nil_r.
  split; [exact Hc|]. split; [cbn; lia|]. apply Forall2_same_length_lookup_2; [done|].
  intros k c c' H1 H2. rewrite H1 in H2. injection H2 as <-. done.
Qed.

Lemma log_grows_ext w' w1 w2 :
  toolCalls (state w2) = toolCalls (state w1) -> log_grows w1 w' -> log_grows w2 w'.
Proof. unfold log_grows. by intros ->. Qed.

Lemma executeStep_resume_frame i agentId toolName callId t0 out e w :
  let w' := executeStep_resume i agentId toolName callId t0 out e w in
  same_frame w w' /\ log_grows w w' /\
  currentStep (state w') = currentStep (state w) /\
  timers w' = timers w /\ timeoutRef w' = timeoutRef w.
Proof.
  cbn zeta.
  destruct (executeStep_resume_effect i agentId toolName callId t0 out e w)
    as ((q & Hq & Hcalls) & (p & _ & Hagents) & _ & Hcur & _ & _ & Htm & Hrf).
  split; [|split; [|done]].
  - split; [rewrite Hagents; apply identity_patched|].
    unfold executeStep_resume, callLaunchIOAgent_settle.
    destruct (invoke_result toolName out); repeat case_bool_decide; done.
  - eexists _, []. rewrite app_nil_r. split; [exact Hcalls|]. split; [cbn; lia|].
    apply Forall2_fmap_r, Forall2_same_length_lookup_2; [done|].
    intros k c c' H1 H2. rewrite H1 in H2. injection H2 as <-. unfold compose. cbn beta.
    case_bool_decide; cbn; [|done]. split; [reflexivity | by rewrite Hq].
Qed.

Lemma handleApproval_frame approved e w :
  let w' := handleApproval approved e w in
  same_frame w w' /\ log_grows w w' /\
  (currentStep (state w') = currentStep (state w) \/ currentStep (state w') = 5).
Proof.
  cbn zeta. unfold handleApproval.
  destruct (pendingApproval w) as [p|];
    [|split; [apply same_frame_refl | split; [by apply log_grows_refl | by left]]].
  assert (Hgo : forall wm,
             same_frame w wm -> toolCalls (state wm) = toolCalls (state w) ->
             currentStep (state wm) = currentStep (state w) ->
             let w' := if approved
                       then (let '(tid, w1) := spawn
                               (toast (mkToast "Approval Granted"
                                  "Continuing with container rerouting..." false) wm) in
                             loop_from InApproval (agents (state w)) 4 e tid w1)
                       else setState (fun prev =>
                              mkState (currentStep prev) (totalSteps prev) false
                                      (startTime prev) (Some (now e))
                                      (agents prev) (toolCalls prev) (ports prev)
                                      (metrics prev))
                              (toast (mkToast "Approval Denied"
                                 "Workflow terminated by human override" true) wm) in
             same_frame w w' /\ log_grows w w' /\
             (currentStep (state w') = currentStep (state w) \/
              currentStep (state w') = 5)).
  { intros wm Hfr Hc Hs. destruct approved; cbn zeta.
    - unfold spawn.
      match goal with |- context [loop_from InApproval (agents (state w)) 4 e ?t ?w1] =>
        destruct (loop_from_frame InApproval (agents (state w)) 4 e t w1) as (Hf & Hcur & _ & Hlog);
        set (wl := loop_from InApproval (agents (state w)) 4 e t w1) in *
      end.
      split; [exact (same_frame_trans w wm wl Hfr Hf)|].
      split; [exact (log_grows_ext wl wm w (eq_sym Hc) Hlog)|].
      destruct Hcur as [Hcur | [_ Hcur]]; [left | right]; cbn in Hcur; congruence.
    - split; [exact Hfr|]. split; [by apply log_grows_refl | by left]. }
  unfold clearTimeoutRef.
  destruct (timeoutRef w), (find _ (agents (state w))); apply Hgo; cbn;
    try reflexivity;
    (split; [first [apply identity_patched | reflexivity] | done]).
Qed.

(** What an event of a run leaves alone. *)
Lemma run_event_frame ev w w' :
  run_event ev = true -> step_event ev w = Some w' ->
  same_frame w w' /\ log_grows w w' /\
  (currentStep (state w') = currentStep (state w) \/
   0 < currentStep (state w') <= length WORKFLOW_STEPS).
Proof.
  intros Hev Hstep.
  destruct ev as [e0| |approved e|h|tid out e|tid e]; try discriminate; cbn in Hstep.
  - injection Hstep as <-.
    destruct (handleApproval_frame approved e w) as (Hf & Hl & [Hc | Hc]);
      repeat split; try apply Hf; try done; [by left | right; cbn; lia].
  - destruct (timers w !! h); [|discriminate]. injection Hstep as <-.
    split; [split; [apply identity_patched | done]|].
    split; [by apply log_grows_refl | by left].
  - assert (Hloop : forall cap i wm,
               same_frame w wm -> toolCalls (state wm) = toolCalls (state w) ->
               currentStep (state wm) = currentStep (state w) ->
               let wl := loop_from InStart cap i e tid wm in
               same_frame w wl /\ log_grows w wl /\
               (currentStep (state wl) = currentStep (state w) \/
                0 < currentStep (state wl) <= length WORKFLOW_STEPS)).
    { intros cap i wm Hfr Hc Hs. cbn zeta.
      destruct (loop_from_frame InStart cap i e tid wm) as (Hf & Hcur & _ & Hlog).
      split; [exact (same_frame_trans w wm _ Hfr Hf)|].
      split; [exact (log_grows_ext _ wm w (eq_sym Hc) Hlog)|].
      destruct Hcur as [Hcur | [Hi Hcur]]; [left; congruence | right; lia]. }
    destruct (tasks w !! tid) as [[cap|cap|o cap i a tn cid t0|o cap i]|];
      try discriminate; injection Hstep as <-.
    + destruct out; cbn [startWorkflow_after_init].
      * split; [by repeat split|]. split; [by apply log_grows_refl | by left].
      * by apply Hloop.
    + destruct out as [d r|]; cbn [startWorkflow_after_analysis];
        [destruct (negb (truthy r) && truthy (jget_opt "analysis" d))|];
        by apply Hloop.
    + destruct (executeStep_resume_frame i a tn cid t0 out e w) as (Hf & Hl & Hc & _).
      set (w1 := executeStep_resume i a tn cid t0 out e w) in *.
      assert (Hgo : forall w2, state w2 = state w1 ->
                same_frame w w2 /\ log_grows w w2 /\
                (currentStep (state w2) = currentStep (state w) \/
                 0 < currentStep (state w2) <= length WORKFLOW_STEPS)).
      { intros w2 Hs. unfold same_frame, log_grows. rewrite Hs.
        split; [exact Hf|]. split; [exact Hl | by left]. }
      unfold after_step. destruct o; [|by apply Hgo].
      destruct (WORKFLOW_STEPS !! i); [case_bool_decide|]; by apply Hgo.
  - destruct (tasks w !! tid) as [[cap|cap|o cap i a tn cid t0|o cap i]|];
      try discriminate; injection Hstep as <-.
    destruct (loop_from_frame o cap (S i) e tid w) as (Hf & Hcur & _ & Hlog).
    split; [exact Hf|]. split; [exact Hlog|].
    destruct Hcur as [Hcur | [Hi Hcur]]; [by left | right; lia].
Qed.

(** X4. The log of tool calls is append-only between a start and a reset:
    at any event but those two, every entry of the log stays in its place
    with its id, agent, tool, parameters and timestamp, an entry that has
    succeeded stays so, and at most one entry is added.  A start and a reset
    empty the log. *)
Theorem log_append_only (ev : Event) (w : World) :
  from_option
    (fun w' => if run_event ev then log_grows w w' else toolCalls (state w') = [])
    True (step_event ev w).
Proof.
  destruct (step_event ev w) as [w'|] eqn:Hstep; [cbn|exact I].
  destruct (run_event ev) eqn:Hev.
  - apply (run_event_frame ev w w' Hev Hstep).
  - destruct ev; try discriminate; cbn in Hstep; injection Hstep as <-; [reflexivity|].
    unfold resetWorkflow, clearTimeoutRef. destruct (timeoutRef w); reflexivity.
Qed.

(** ** What holds in every world the hook can reach *)

Lemma reachable_invariants evs : forall w w',
  step_bounded w /\ mock_agents w /\ ports_follow_start w ->
  run evs w = Some w' ->
  step_bounded w' /\ mock_agents w' /\ ports_follow_start w'.
Proof.
  induction evs as [|ev evs IH]; intros w w' Hw Hrun; cbn in Hrun.
  - by injection Hrun as <-.
  - destruct (step_event ev w) as [w1|] eqn:Hstep; [|discriminate].
    apply (IH w1 w'); [|exact Hrun]. clear IH Hrun.
    destruct Hw as ((Htot & Hcur) & Hag & Hports).
    destruct (run_event ev) eqn:Hev.
    + destruct (run_event_frame ev w w1 Hev Hstep)
        as ((Hid & Ht & Hp & Hs) & _ & Hc).
      unfold step_bounded, mock_agents, ports_follow_start.
      rewrite Hid, Ht, Hp, Hs. repeat split; try done.
      rewrite Htot. destruct Hc as [-> | Hc]; [by rewrite <- Htot | lia].
    + destruct ev; try discriminate; cbn in Hstep; injection Hstep as <-.
      * unfold step_bounded, mock_agents, ports_follow_start. cbn.
        split; [split; [exact Htot | lia]|]. split; [reflexivity|].
        rewrite Hports. by destruct (startTime (state w)).
      * unfold step_bounded, mock_agents, ports_follow_start, resetWorkflow, clearTimeoutRef.
        destruct (timeoutRef w); cbn; repeat split; lia.
Qed.

Lemma initialWorld_invariants :
  step_bounded initialWorld /\ mock_agents initialWorld /\ ports_follow_start initialWorld.
Proof. repeat split. cbn. lia. Qed.

(** X5. In every world reached from the first render, by any events in
    any order, [totalSteps] is the number of workflow steps and
    [currentStep] does not exceed it. *)
Theorem currentStep_within_totalSteps (evs : list Event) :
  from_option step_bounded True (run evs initialWorld).
Proof.
  destruct (run evs initialWorld) as [w|] eqn:Hrun; [cbn|exact I].
  apply (reachable_invariants evs initialWorld w initialWorld_invariants Hrun).
Qed.

(** X6. In every world reached from the first render the agents are the
    five of [MOCK_AGENTS], in that order, with their ids, names, types,
    descriptions and tools: the hook only ever changes an agent's status,
    confidence and last update. *)
Theorem agents_stay_the_mock_agents (evs : list Event) :
  from_option mock_agents True (run evs initialWorld).
Proof.
  destruct (run evs initialWorld) as [w|] eqn:Hrun; [cbn|exact I].
  apply (reachable_invariants evs initialWorld w initialWorld_invariants Hrun).
Qed.

(** X7. In every world reached from the first render the ports are those
    of [MOCK_PORTS] as long as no run was started since the last reset, and
    those with Los Angeles on strike (congestion 0.92) from a start on: no
    decision, timeout or completion puts the port back to normal, only a
    reset does. *)
Theorem ports_change_only_at_start_and_reset (evs : list Event) :
  from_option ports_follow_start True (run evs initialWorld).
Proof.
  destruct (run evs initialWorld) as [w|] eqn:Hrun; [cbn|exact I].
  apply (reachable_invariants evs initialWorld w initialWorld_invariants Hrun).
Qed.

(** ** Agent calls *)

Lemma mock_is_an_object toolName :
  exists fields, getMockResultForTool toolName = JObj fields.
Proof. unfold getMockResultForTool. repeat case_bool_decide; eauto. Qed.

Lemma jor_truthy a b : truthy b = true -> truthy (jor a b) = true.
Proof. unfold jor. intros Hb. by destruct (truthy a) eqn:Ha. Qed.

(** X8. However the invocation of the agent settles (rejected, answered
    with an error, answered with no data, with a result that is not an
    object, or with an object), the result that [callLaunchIOAgent] returns
    and records is a non-null object, every entry of the log with the call's
    id has status success and that result, and every agent with the call's
    agent id has status success and a confidence that is truthy (never 0,
    null or undefined). *)
Theorem settled_call_has_an_object_result
    (agentId toolName : string) (callId : CallId) (t0 : Z)
    (out : InvokeOutcome) (e : Env) (w : World) :
  let w' := (callLaunchIOAgent_settle agentId toolName callId t0 out e w).1 in
  let r := (callLaunchIOAgent_settle agentId toolName callId t0 out e w).2 in
  truthy r = true /\ typeof_object r = true /\
  Forall (fun c => tc_id c = callId ->
                   tc_status c = call_success /\ tc_result c = Some r)
         (toolCalls (state w')) /\
  Forall (fun a => id a = agentId ->
                   status a = success /\ truthy (confidence a) = true)
         (agents (state w')).
Proof.
  cbn zeta. unfold callLaunchIOAgent_settle.
  destruct (mock_is_an_object toolName) as [fields Hmock].
  assert (Hlog : forall r d,
    Forall (fun c => tc_id c = callId ->
                     tc_status c = call_success /\ tc_result c = Some r)
      (map (fun call => if bool_decide (tc_id call = callId)
                        then patchToolCall call (mkToolCallPatch r call_success d)
                        else call)
           (toolCalls (state w)))).
  { intros r d. apply Forall_map, Forall_forall. intros c _. cbn.
    case_bool_decide; cbn; done. }
  assert (Hag : forall r d t,
    truthy d = true ->
    Forall (fun a => id a = agentId -> status a = success /\ truthy (confidence a) = true)
      (map (fun a => if bool_decide (id a = agentId)
                     then patchAgent a (mkAgentPatch (Some success)
                                          (Some (jor (jget "confidence" r) d)) (Some t))
                     else a)
           (agents (state w)))).
  { intros r d t Hd. apply Forall_map, Forall_forall. intros a _. cbn.
    case_bool_decide; cbn; [|done]. intros _. split; [reflexivity|]. by apply jor_truthy. }
  destruct (invoke_result toolName out) as [r|] eqn:Hres; cbn.
  - assert (Hr : truthy r = true /\ typeof_object r = true).
    { unfold invoke_result in Hres. destruct out as [d err|]; [|discriminate].
      destruct (truthy err); [discriminate|]. destruct (nullish d); [discriminate|].
      injection Hres as <-.
      destruct (truthy (jget "result" d)) eqn:Ht, (typeof_object (jget "result" d)) eqn:Ho;
        cbn; rewrite ?Hmock; done. }
    destruct Hr as [Ht Ho]. split; [exact Ht|]. split; [exact Ho|].
    split; [apply Hlog | by apply Hag].
  - rewrite Hmock. split; [reflexivity|]. split; [reflexivity|].
    rewrite <- Hmock. split; [apply Hlog | by apply Hag].
Qed.

(** ** executeStep at its edges *)

(** X9. [executeStep] with an index past the last step, or for a step
    whose agent type no agent of the list it closed over has, returns at
    once: nothing in the world changes (no toast, no tool call, no change of
    [currentStep]). *)
Theorem executeStep_without_step_or_agent
    (cap : list Agent) (i : nat) (e : Env) (w : World) :
  (length WORKFLOW_STEPS <= i \/
   exists st, WORKFLOW_STEPS !! i = Some st /\
              Forall (fun a => type a <> agent st) cap) ->
  executeStep cap i e w = (w, Returned).
Proof.
  intros [Hi | (st & Hst & Hno)]; unfold executeStep.
  - by rewrite lookup_ge_None_2.
  - rewrite Hst.
    destruct (find _ cap) as [ag|] eqn:Hfind; [|reflexivity].
    apply find_some in Hfind as [Hin Hty].
    apply bool_decide_eq_true_1 in Hty.
    rewrite Forall_forall in Hno. destruct (Hno ag); [by apply list_elem_of_In | exact Hty].
Qed.

Lemma executeStep_without_step_or_agent_witness :
  executeStep MOCK_AGENTS 6 (mkEnv 0 "a") initialWorld = (initialWorld, Returned) /\
  executeStep [] 0 (mkEnv 0 "a") initialWorld = (initialWorld, Returned).
Proof.
  split.
  - apply (executeStep_without_step_or_agent MOCK_AGENTS 6 (mkEnv 0 "a") initialWorld).
    left. cbn. lia.
  - apply (executeStep_without_step_or_agent [] 0 (mkEnv 0 "a") initialWorld).
    right. eexists. split; [reflexivity | constructor].
Defined.

(** ** The approval request and its timer *)

Lemma handleApproval_timers approved e w p h :
  pendingApproval w = Some p -> timeoutRef w = Some h ->
  timers (handleApproval approved e w) = delete h (timers w).
Proof.
  intros Hp Hh. unfold handleApproval, clearTimeoutRef. rewrite Hp, Hh.
  destruct (find _ (agents (state w))), approved; cbn; try reflexivity; unfold spawn;
    match goal with |- timers (loop_from ?o ?c 4 ?e0 ?t ?w0) = _ =>
      destruct (loop_from_frame o c 4 e0 t w0) as (_ & _ & Ht & _);
      destruct (Ht ltac:(lia)) as [-> _]
    end; reflexivity.
Qed.

(** X10. The approval step, run with a list that has a negotiator agent,
    adds no tool call: it opens a pending request in that agent's name with
    a timeout of 300000 ms and arms one timer, which [timeoutRef] holds.
    Whatever the decision then taken, and likewise at a reset, that timer is
    cleared: the table of live timers is back to what it was before the
    step. *)
Theorem approval_timer_is_cleared
    (cap : list Agent) (e : Env) (w : World) (ag : Agent) :
  find (fun a => bool_decide (type a = negotiator)) cap = Some ag ->
  timers w !! nextTimer w = None ->
  let w1 := (executeStep cap 3 e w).1 in
  (executeStep cap 3 e w).2 = Returned /\
  pendingApproval w1 =
    Some (mkApproval (now e) "Approve Oakland reroute for 150 containers?"
                     (id ag) (now e) 300000 ap_pending) /\
  timeoutRef w1 = Some (nextTimer w) /\
  timers w1 = <[nextTimer w := id ag]> (timers w) /\
  toolCalls (state w1) = toolCalls (state w) /\
  (forall approved e', timers (handleApproval approved e' w1) = timers w) /\
  timers (resetWorkflow w1) = timers w.
Proof.
  intros Hag Hfresh. cbn zeta.
  assert (Hstep : executeStep cap 3 e w =
            (setTimeoutRef (id ag)
               (updateAgent (id ag) (statusPatch waiting)
                  (setPendingApproval
                     (fun _ => Some (mkApproval (now e)
                                       "Approve Oakland reroute for 150 containers?"
                                       (id ag) (now e) 300000 ap_pending))
                     (toast (mkToast "Human Approval"
                                     "Request approval for rerouting decision" false)
                            (setState (set_currentStep (3 + 1)) w)))),
             Returned)).
  { unfold executeStep. cbn [lookup list_lookup WORKFLOW_STEPS agent tool].
    rewrite Hag. by rewrite bool_decide_eq_true_2 by reflexivity. }
  rewrite Hstep. cbn [fst snd].
  do 5 (split; [reflexivity|]). split.
  - intros approved e'.
    erewrite handleApproval_timers by reflexivity. cbn. by apply delete_insert_id.
  - cbn. by apply delete_insert_id.
Qed.

Lemma approval_timer_is_cleared_witness :
  let w1 := (executeStep MOCK_AGENTS 3 (mkEnv 4900 "h") initialWorld).1 in
  pendingApproval w1 =
    Some (mkApproval 4900 "Approve Oakland reroute for 150 containers?"
                     "negotiator-001" 4900 300000 ap_pending) /\
  timers (handleApproval true (mkEnv 6000 "i") w1) = timers initialWorld /\
  timers (resetWorkflow w1) = timers initialWorld.
Proof.
  pose proof (approval_timer_is_cleared MOCK_AGENTS (mkEnv 4900 "h") initialWorld
                (mkAgent "negotiator-001" "Diplomat" negotiator idle
                   "Autonomous contracting and deal optimization"
                   ["negotiate_terms"; "request_human_approval";
                    "analyze_carrier_rates"; "optimize_contracts"]
                   (JNum 0) None)
                eq_refl eq_refl) as H.
  cbv zeta in H. destruct H as (_ & Hp & _ & _ & _ & Hd & Hr).
  split; [exact Hp|]. split; [apply Hd | exact Hr].
Defined.

(** X11. A rejection of an open request ends the run: [isRunning] becomes
    false and [endTime] the current time, the request is cleared, every
    agent with the requesting id gets status error, and a toast says so.  No
    loop is started, and the step counter, the log and the metrics already
    gathered stay as they are. *)
Theorem rejection_ends_the_run (e : Env) (w : World) (p : ApprovalRequest) :
  pendingApproval w = Some p ->
  let w' := handleApproval false e w in
  isRunning (state w') = false /\
  endTime (state w') = Some (now e) /\
  pendingApproval w' = None /\
  tasks w' = tasks w /\ nextTask w' = nextTask w /\
  (currentStep (state w'), toolCalls (state w'), metrics (state w'), ports (state w')) =
  (currentStep (state w), toolCalls (state w), metrics (state w), ports (state w)) /\
  map agentIdentity (agents (state w')) = map agentIdentity (agents (state w)) /\
  Forall (fun a => id a = requestedBy p -> status a = error) (agents (state w')) /\
  toasts w' = (toasts w ++ [mkToast "Approval Denied"
                                    "Workflow terminated by human override" true])%list.
Proof.
  intros Hp. cbn zeta. unfold handleApproval, clearTimeoutRef. rewrite Hp.
  destruct (find _ (agents (state w))) as [ag|] eqn:Hfind.
  - apply find_some in Hfind as [_ Hid]. apply bool_decide_eq_true_1 in Hid.
    destruct (timeoutRef w); cbn; (do 6 (split; [reflexivity|]));
      (split; [apply identity_patched|]); (split; [|reflexivity]);
      apply Forall_map, Forall_forall; intros a _; cbn;
      rewrite Hid; case_bool_decide; cbn; done.
  - assert (Hno : Forall (fun a => id a = requestedBy p -> status a = error)
                         (agents (state w))).
    { apply Forall_forall. intros a Ha Hid.
      apply list_elem_of_In in Ha.
      pose proof (find_none _ _ Hfind a Ha) as Hf. cbn in Hf.
      apply bool_decide_eq_false_1 in Hf. done. }
    destruct (timeoutRef w); cbn; done.
Qed.

Lemma rejection_ends_the_run_witness :
  let w := (executeStep MOCK_AGENTS 3 (mkEnv 4900 "h") initialWorld).1 in
  let w' := handleApproval false (mkEnv 6000 "i") w in
  isRunning (state w') = false /\
  endTime (state w') = Some 6000%Z /\
  pendingApproval w' = None /\
  agentStatus "negotiator-001" w' = Some error.
Proof.
  pose proof (rejection_ends_the_run (mkEnv 6000 "i")
                (executeStep MOCK_AGENTS 3 (mkEnv 4900 "h") initialWorld).1
                (mkApproval 4900 "Approve Oakland reroute for 150 containers?"
                            "negotiator-001" 4900 300000 ap_pending)
                eq_refl) as H.
  cbv zeta in H. destruct H as (H1 & H2 & H3 & _).
  split; [exact H1|]. split; [exact H2|]. split; [exact H3|]. reflexivity.
Defined.

(** ** The dashboard *)

(** The dashboard run of the scenario: every call fails, the request is
    approved while it is open, and the dialog goes away. *)
Lemma scenario_on_dashboard :
  from_option (fun _ => true) false
    (dashboard_run (map Happens (until_approval ++ after_approval 6000) ++ [ExitEnds])
                   firstRender) = true /\
  no_late_click (map Happens (until_approval ++ after_approval 6000) ++ [ExitEnds])
                firstRender = true.
Proof. split; vm_compute; reflexivity. Qed.

(** X12. Driven by the dashboard from the first render, with no click on
    the buttons of a dialog that is on its way out (every decision is taken
    while the request is open), the hook runs at most one loop at a time;
    while the run is shown as not running, nothing is in flight and no
    approval is open; and while an approval request is open, no loop is in
    flight, no tool call is pending, the run is shown as running and
    [currentStep] is 4. *)
Theorem dashboard_one_loop_at_a_time (acts : list Action) (d : Dashboard) :
  dashboard_run acts firstRender = Some d ->
  no_late_click acts firstRender = true ->
  size (tasks (hook d)) <= 1 /\
  (isRunning (state (hook d)) = false -> quiescent (hook d)) /\
  (pendingApproval (hook d) <> None ->
   tasks (hook d) = ∅ /\ no_pending (hook d) /\
   isRunning (state (hook d)) = true /\ currentStep (state (hook d)) = 4).
Proof.
  intros Hrun Hlate.
  destruct (dashboard_run_invariant (fun _ => True) ltac:(done) acts firstRender d
              firstRender_current initialWorld_Inv ltac:(by intros _; split) I Hrun Hlate)
    as ([_ Hph] & Hcalm & _).
  set (w := hook d) in *.
  split; [|split; [exact Hcalm|]].
  - destruct Hph as [tid k H1 _ _ _ _ | tid o cap i a tn cid t0 H1 _ _ _ _
                    | tid o cap i H1 _ _ _ _ | H1 _ _];
      rewrite H1, ?map_size_singleton, ?map_size_empty; lia.
  - intros Hne. destruct (pendingApproval w) as [p|] eqn:Hp; [|done].
    destruct (Phase_pending w p Hph Hp) as (Ht & Hn & Hc).
    repeat split; try done.
    destruct (isRunning (state w)) eqn:Hr; [reflexivity|].
    destruct (Hcalm eq_refl) as [_ ?]. congruence.
Qed.

Lemma dashboard_one_loop_at_a_time_witness :
  from_option
    (fun d => size (tasks (hook d)) <= 1 /\
              (isRunning (state (hook d)) = false -> quiescent (hook d)))
    False
    (dashboard_run (map Happens (until_approval ++ after_approval 6000) ++ [ExitEnds])
                   firstRender).
Proof.
  destruct scenario_on_dashboard as [Hsome Hlate].
  destruct (dashboard_run (map Happens (until_approval ++ after_approval 6000) ++ [ExitEnds])
                          firstRender) as [d|] eqn:Hrun; [|discriminate].
  cbn [from_option].
  destruct (dashboard_one_loop_at_a_time _ d Hrun Hlate) as (H1 & H2 & _).
  by split.
Defined.



(** * The edge function zerotouch-workflow *)

(** ** Start and status *)

(** X13. A workflow that [startWorkflow] has stored is what
    [getWorkflowStatus] returns for its id: active, at step 0, its five
    steps pending, its metrics 0, 150 containers when the request names none.
    The status of every other id is as before. *)
Theorem started_workflow_is_stored
    (request : JValue) (workflowId : string) (t : Z) (store : gmap string Workflow) :
  nullish request = false ->
  let store' := (Backend.startWorkflow request workflowId t store).1 in
  exists workflow,
    (Backend.startWorkflow request workflowId t store).2 =
      ReplyStarted workflowId workflow /\
    Backend.getWorkflowStatus workflowId store' = ReplyStatus workflow /\
    wf_status workflow = flow_active /\
    wf_current_step workflow = 0%Z /\
    wf_created_at workflow = t /\
    map fs_status (wf_steps workflow) =
      [st_pending; st_pending; st_pending; st_pending; st_pending] /\
    map fs_agent (wf_steps workflow) =
      ["sentinel"; "simulator"; "negotiator"; "executor"; "audit"] /\
    wf_metrics workflow = mkFlowMetrics (JNum 0) 0 0 0 /\
    (truthy (jget "containers_affected" request) = false ->
     wf_containers_affected workflow = JNum 150) /\
    forall other, other <> workflowId ->
      Backend.getWorkflowStatus other store' = Backend.getWorkflowStatus other store.
Proof.
  intros Hreq. cbn zeta. unfold Backend.startWorkflow, Backend.getWorkflowStatus.
  rewrite Hreq. cbn [fst snd]. eexists. split; [reflexivity|].
  rewrite lookup_insert_eq. do 7 (split; [reflexivity|]). split.
  - cbn. unfold jor. by intros ->.
  - intros other Hne. by rewrite lookup_insert_ne.
Qed.

Lemma started_workflow_is_stored_witness :
  let request := JObj [("crisis_type", JStr "port_strike"); ("severity", JStr "high")] in
  let store' := (Backend.startWorkflow request "workflow-1-a" 1000 ∅).1 in
  exists workflow,
    Backend.getWorkflowStatus "workflow-1-a" store' = ReplyStatus workflow /\
    wf_containers_affected workflow = JNum 150 /\
    Backend.getWorkflowStatus "workflow-2-b" store' = ReplyNotFound.
Proof.
  destruct (started_workflow_is_stored
              (JObj [("crisis_type", JStr "port_strike"); ("severity", JStr "high")])
              "workflow-1-a" 1000 ∅ eq_refl)
    as (workflow & _ & Hget & _ & _ & _ & _ & _ & _ & Hc & Hother).
  exists workflow. split; [exact Hget|]. split; [exact (Hc eq_refl)|].
  rewrite Hother by discriminate. reflexivity.
Defined.

(** ** executeWorkflowStep *)

(** X14. [executeWorkflowStep] for an id that the map does not hold, or
    with a step index outside the steps of the workflow, answers with an
    error (status 500) and leaves the map as it was; the agent is not
    called, so its reply plays no part. *)
Theorem executeWorkflowStep_rejects_bad_requests
    (request : StepRequest) (t1 t2 : Z) (reply : AgentReply)
    (store : gmap string Workflow) :
  (store !! rq_workflow_id request = None \/
   exists workflow,
     store !! rq_workflow_id request = Some workflow /\
     ~ (0 <= rq_step_index request < Z.of_nat (length (wf_steps workflow)))%Z) ->
  exists err,
    Backend.executeWorkflowStep request t1 reply t2 store = (store, ReplyError err) /\
    (err = ErrWorkflowNotFound \/ err = ErrInvalidStepIndex) /\
    reply_status (ReplyError err) = 500%Z.
Proof.
  intros [Hnone | (workflow & Hsome & Hidx)];
    unfold Backend.executeWorkflowStep, Backend.executeWorkflowStep_begin.
  - rewrite Hnone. eauto.
  - rewrite Hsome, bool_decide_eq_false_2 by exact Hidx. eauto.
Qed.

Lemma executeWorkflowStep_rejects_bad_requests_witness :
  exists err,
    Backend.executeWorkflowStep (mkStepRequest "workflow-9-z" 0 "sentinel" JNull)
      10 AgentThrows 20 ∅ = (∅, ReplyError err) /\
    (err = ErrWorkflowNotFound \/ err = ErrInvalidStepIndex) /\
    reply_status (ReplyError err) = 500%Z.
Proof.
  apply (executeWorkflowStep_rejects_bad_requests
           (mkStepRequest "workflow-9-z" 0 "sentinel" JNull) 10 20 AgentThrows ∅).
  left. reflexivity.
Defined.

(** X15. When the call of the agent throws, [executeWorkflowStep] answers
    with an error, and the step that it had marked before the call stays
    marked in the map: status processing, started at the time of the
    request.  The other steps, the status of the workflow, its current step
    and its metrics are as before. *)
Theorem thrown_agent_call_leaves_step_processing
    (request : StepRequest) (t1 t2 : Z) (store : gmap string Workflow)
    (workflow : Workflow) (step : FlowStep) :
  store !! rq_workflow_id request = Some workflow ->
  (0 <= rq_step_index request)%Z ->
  wf_steps workflow !! Z.to_nat (rq_step_index request) = Some step ->
  let res := Backend.executeWorkflowStep request t1 AgentThrows t2 store in
  res.2 = ReplyError ErrRuntime /\
  exists workflow',
    res.1 !! rq_workflow_id request = Some workflow' /\
    wf_steps workflow' !! Z.to_nat (rq_step_index request) =
      Some (mkFlowStep (fs_name step) (fs_agent step) st_processing (fs_description step)
                       (Some t1) (fs_completed_at step) (fs_result step) (fs_error step)) /\
    (forall j, j <> Z.to_nat (rq_step_index request) ->
               wf_steps workflow' !! j = wf_steps workflow !! j) /\
    (wf_status workflow', wf_current_step workflow', wf_metrics workflow') =
    (wf_status workflow, wf_current_step workflow, wf_metrics workflow) /\
    forall other, other <> rq_workflow_id request -> res.1 !! other = store !! other.
Proof.
  intros Hwf Hpos Hstep. cbn zeta.
  assert (Hin : (0 <= rq_step_index request < Z.of_nat (length (wf_steps workflow)))%Z).
  { apply lookup_lt_Some in Hstep. lia. }
  unfold Backend.executeWorkflowStep, Backend.executeWorkflowStep_begin,
    Backend.executeWorkflowStep_finish.
  rewrite Hwf, bool_decide_eq_true_2 by exact Hin.
  rewrite lookup_insert_eq. cbn [fst snd]. split; [reflexivity|].
  eexists. split; [apply lookup_insert_eq|]. cbn.
  split; [by rewrite list_lookup_alter_eq, Hstep|].
  split; [intros j Hj; by rewrite list_lookup_alter_ne|].
  split; [reflexivity|]. intros other Hne. by rewrite lookup_insert_ne.
Qed.

Lemma thrown_agent_call_leaves_step_processing_witness :
  let request := mkStepRequest "workflow-1-a" 0 "sentinel" JNull in
  let store := (Backend.startWorkflow (JObj []) "workflow-1-a" 1000 ∅).1 in
  let res := Backend.executeWorkflowStep request 2000 AgentThrows 3000 store in
  res.2 = ReplyError ErrRuntime /\
  exists workflow',
    res.1 !! "workflow-1-a" = Some workflow' /\
    fs_status <$> wf_steps workflow' !! 0%nat = Some st_processing /\
    wf_status workflow' = flow_active.
Proof.
  destruct (thrown_agent_call_leaves_step_processing
              (mkStepRequest "workflow-1-a" 0 "sentinel" JNull) 2000 3000
              (Backend.startWorkflow (JObj []) "workflow-1-a" 1000 ∅).1
              (mkWorkflow "workflow-1-a" flow_active 1000 None JUndefined JUndefined
                 JUndefined (JNum 150) 0 initialSteps (mkFlowMetrics (JNum 0) 0 0 0))
              (mkFlowStep "Crisis Detection" "sentinel" st_pending
                 "Analyzing satellite imagery and port data for strike indicators"
                 None None None None)
              ltac:(apply lookup_insert_eq) ltac:(done) eq_refl)
    as [Hr (workflow' & Hget & Hstep & _ & Hrest & _)].
  split; [exact Hr|]. exists workflow'. split; [exact Hget|]. split.
  - change (wf_steps workflow' !! 0%nat = Some (mkFlowStep "Crisis Detection" "sentinel" st_processing
        "Analyzing satellite imagery and port data for strike indicators"
        (Some 2000%Z) None None None)) in Hstep.
    by rewrite Hstep.
  - by injection Hrest.
Defined.

Lemma executeWorkflowStep_begun
    (request : StepRequest) (t1 t2 : Z) (reply : AgentReply)
    (store : gmap string Workflow) (workflow : Workflow) (step : FlowStep) :
  store !! rq_workflow_id request = Some workflow ->
  (0 <= rq_step_index request)%Z ->
  wf_steps workflow !! Z.to_nat (rq_step_index request) = Some step ->
  Backend.executeWorkflowStep request t1 reply t2 store =
  Backend.executeWorkflowStep_finish request (Z.to_nat (rq_step_index request)) reply t2
    (<[rq_workflow_id request :=
         set_step (fun step =>
           mkFlowStep (fs_name step) (fs_agent step) st_processing
                      (fs_description step) (Some t1) (fs_completed_at step)
                      (fs_result step) (fs_error step))
           (Z.to_nat (rq_step_index request)) workflow]> store).
Proof.
  intros Hwf Hpos Hstep.
  assert (Hin : (0 <= rq_step_index request < Z.of_nat (length (wf_steps workflow)))%Z).
  { apply lookup_lt_Some in Hstep. lia. }
  unfold Backend.executeWorkflowStep, Backend.executeWorkflowStep_begin.
  by rewrite Hwf, bool_decide_eq_true_2 by exact Hin.
Qed.

Lemma truthy_not_nullish (k : string) (v : JValue) :
  truthy (jget k v) = true -> nullish v = false.
Proof. by destruct v. Qed.

Lemma updateWorkflowMetrics_frame (workflow workflow' : Workflow) (agentType : string)
    (result : JValue) :
  Backend.updateWorkflowMetrics workflow agentType result = Some workflow' ->
  wf_steps workflow' = wf_steps workflow /\
  wf_status workflow' = wf_status workflow /\
  wf_created_at workflow' = wf_created_at workflow /\
  wf_completed_at workflow' = wf_completed_at workflow /\
  wf_current_step workflow' = wf_current_step workflow /\
  time_to_resolution (wf_metrics workflow') = time_to_resolution (wf_metrics workflow).
Proof.
  unfold Backend.updateWorkflowMetrics. intros H.
  repeat case_bool_decide;
    repeat match type of H with
           | context [if ?b then _ else _] => destruct b
           end;
    inversion H; subst; by repeat split.
Qed.

Lemma updateWorkflowMetrics_returns (workflow : Workflow) (agentType : string)
    (result : JValue) :
  nullish result = false \/ (agentType <> "simulator" /\ agentType <> "negotiator") ->
  exists workflow', Backend.updateWorkflowMetrics workflow agentType result = Some workflow'.
Proof.
  unfold Backend.updateWorkflowMetrics. intros [-> | [H1 H2]].
  - repeat case_bool_decide;
      repeat match goal with
             | |- context [if ?b then _ else _] => destruct b
             end; eauto.
  - rewrite !bool_decide_eq_false_2 by done. case_bool_decide; eauto.
Qed.

(** X16. A step for which the agent reports success is completed, whatever
    the current step of the workflow and the states of its other steps were
    (the function does not compare the index with the current step): the step
    keeps the start time of the request and gets the result and the completion
    time, the other steps are untouched, the current step becomes the index
    plus one, and the reply carries the new status and current step.  The
    workflow becomes completed exactly when the index is the last one; then
    the time to resolution is the time since the creation in minutes.  It
    takes a result that is not null or undefined, or an agent other than the
    simulator and the negotiator. *)
Theorem successful_step_advances_workflow
    (request : StepRequest) (t1 t2 : Z) (agentResult : JValue)
    (store : gmap string Workflow) (workflow : Workflow) (step : FlowStep) :
  store !! rq_workflow_id request = Some workflow ->
  (0 <= rq_step_index request)%Z ->
  wf_steps workflow !! Z.to_nat (rq_step_index request) = Some step ->
  truthy (jget "success" agentResult) = true ->
  (nullish (jget "result" agentResult) = false \/
   (rq_agent_type request <> "simulator" /\ rq_agent_type request <> "negotiator")) ->
  let res := Backend.executeWorkflowStep request t1 (AgentJson agentResult) t2 store in
  let last := bool_decide (rq_step_index request + 1 = Z.of_nat (length (wf_steps workflow)))%Z in
  exists workflow',
    res.1 !! rq_workflow_id request = Some workflow' /\
    res.2 = ReplyStep (rq_workflow_id request) agentResult
              (wf_status workflow') (rq_step_index request + 1) /\
    wf_steps workflow' !! Z.to_nat (rq_step_index request) =
      Some (mkFlowStep (fs_name step) (fs_agent step) st_completed (fs_description step)
                       (Some t1) (Some t2) (Some (jget "result" agentResult))
                       (fs_error step)) /\
    (forall j, j <> Z.to_nat (rq_step_index request) ->
               wf_steps workflow' !! j = wf_steps workflow !! j) /\
    wf_current_step workflow' = (rq_step_index request + 1)%Z /\
    wf_status workflow' = (if last then flow_completed else wf_status workflow) /\
    wf_completed_at workflow' = (if last then Some t2 else wf_completed_at workflow) /\
    time_to_resolution (wf_metrics workflow') =
      (if last then (inject_Z (t2 - wf_created_at workflow) / 1000 / 60)%Q
       else time_to_resolution (wf_metrics workflow)).
Proof.
  intros Hwf Hpos Hstep Hok Hres. cbn zeta.
  rewrite (executeWorkflowStep_begun _ _ _ _ _ _ _ Hwf Hpos Hstep).
  unfold Backend.executeWorkflowStep_finish.
  rewrite lookup_insert_eq, (truthy_not_nullish _ _ Hok), Hok.
  match goal with
  | |- context [Backend.updateWorkflowMetrics ?w ?a ?r] =>
      destruct (updateWorkflowMetrics_returns w a r Hres) as [wm Hm];
      rewrite Hm;
      destruct (updateWorkflowMetrics_frame _ _ _ _ Hm)
        as (Hs & Hst & Hcr & Hco & Hcu & Htt)
  end.
  cbn [fst snd]. eexists. split; [apply lookup_insert_eq|].
  assert (Hlen : length (wf_steps wm) = length (wf_steps workflow)).
  { rewrite Hs. cbn. by rewrite !length_alter. }
  assert (Hlt : (rq_step_index request + 1 <= Z.of_nat (length (wf_steps workflow)))%Z).
  { apply lookup_lt_Some in Hstep. lia. }
  unfold Backend.advance. rewrite Hlen.
  case_bool_decide as Hc; case_bool_decide as Hl; try lia; cbn;
    rewrite ?Hs, ?Hst, ?Hcr, ?Hco, ?Htt; cbn;
    (split; [reflexivity|]);
    (split; [by rewrite list_lookup_alter_eq, list_lookup_alter_eq, Hstep|]);
    (split; [intros j Hj; by rewrite !list_lookup_alter_ne|]);
    by repeat split.
Qed.

Lemma successful_step_advances_workflow_witness :
  let request := mkStepRequest "workflow-1-a" 4 "audit" JNull in
  let store := (Backend.startWorkflow (JObj []) "workflow-1-a" 1000 ∅).1 in
  let res := Backend.executeWorkflowStep request 2000
               (AgentJson (JObj [("success", JBool true)])) 121000 store in
  exists workflow',
    res.1 !! "workflow-1-a" = Some workflow' /\
    wf_status workflow' = flow_completed /\
    wf_current_step workflow' = 5%Z /\
    wf_steps workflow' !! 0%nat = initialSteps !! 0%nat /\
    (time_to_resolution (wf_metrics workflow') == 2)%Q.
Proof.
  destruct (successful_step_advances_workflow
              (mkStepRequest "workflow-1-a" 4 "audit" JNull) 2000 121000
              (JObj [("success", JBool true)])
              (Backend.startWorkflow (JObj []) "workflow-1-a" 1000 ∅).1
              (mkWorkflow "workflow-1-a" flow_active 1000 None JUndefined JUndefined
                 JUndefined (JNum 150) 0 initialSteps (mkFlowMetrics (JNum 0) 0 0 0))
              (mkFlowStep "Compliance Audit" "audit" st_pending
                 "Logging actions to blockchain for audit trail" None None None None)
              ltac:(apply lookup_insert_eq) ltac:(done) eq_refl eq_refl
              ltac:(right; split; discriminate))
    as (workflow' & Hget & _ & _ & Hother & Hcur & Hst & _ & Htt).
  exists workflow'. split; [exact Hget|]. split; [exact Hst|]. split; [exact Hcur|].
  split; [exact (Hother 0%nat ltac:(discriminate))|].
  rewrite Htt. reflexivity.
Defined.

(** X17. When the agent does not report success, the step becomes failed
    with the error of the reply and the workflow becomes failed; the current
    step, the metrics and the other steps stay, and the function still
    answers with status 200, the failure being in the workflow status of
    the body. *)
Theorem failed_step_fails_workflow
    (request : StepRequest) (t1 t2 : Z) (agentResult : JValue)
    (store : gmap string Workflow) (workflow : Workflow) (step : FlowStep) :
  store !! rq_workflow_id request = Some workflow ->
  (0 <= rq_step_index request)%Z ->
  wf_steps workflow !! Z.to_nat (rq_step_index request) = Some step ->
  nullish agentResult = false ->
  truthy (jget "success" agentResult) = false ->
  let res := Backend.executeWorkflowStep request t1 (AgentJson agentResult) t2 store in
  exists workflow',
    res.1 !! rq_workflow_id request = Some workflow' /\
    res.2 = ReplyStep (rq_workflow_id request) agentResult flow_failed
              (wf_current_step workflow) /\
    reply_status res.2 = 200%Z /\
    wf_status workflow' = flow_failed /\
    wf_steps workflow' !! Z.to_nat (rq_step_index request) =
      Some (mkFlowStep (fs_name step) (fs_agent step) st_failed (fs_description step)
                       (Some t1) (fs_completed_at step) (fs_result step)
                       (Some (jget "error" agentResult))) /\
    (forall j, j <> Z.to_nat (rq_step_index request) ->
               wf_steps workflow' !! j = wf_steps workflow !! j) /\
    wf_current_step workflow' = wf_current_step workflow /\
    wf_metrics workflow' = wf_metrics workflow.
Proof.
  intros Hwf Hpos Hstep Hnn Hok. cbn zeta.
  rewrite (executeWorkflowStep_begun _ _ _ _ _ _ _ Hwf Hpos Hstep).
  unfold Backend.executeWorkflowStep_finish.
  rewrite lookup_insert_eq, Hnn, Hok. cbn [fst snd].
  eexists. split; [apply lookup_insert_eq|]. cbn.
  do 3 (split; [reflexivity|]).
  split; [by rewrite list_lookup_alter_eq, list_lookup_alter_eq, Hstep|].
  split; [intros j Hj; by rewrite !list_lookup_alter_ne|].
  by split.
Qed.

Lemma failed_step_fails_workflow_witness :
  let request := mkStepRequest "workflow-1-a" 1 "simulator" JNull in
  let store := (Backend.startWorkflow (JObj []) "workflow-1-a" 1000 ∅).1 in
  let res := Backend.executeWorkflowStep request 2000
               (AgentJson (JObj [("success", JBool false); ("error", JStr "Unknown agent type")]))
               3000 store in
  exists workflow',
    res.1 !! "workflow-1-a" = Some workflow' /\
    reply_status res.2 = 200%Z /\
    wf_status workflow' = flow_failed /\
    wf_current_step workflow' = 0%Z.
Proof.
  destruct (failed_step_fails_workflow
              (mkStepRequest "workflow-1-a" 1 "simulator" JNull) 2000 3000
              (JObj [("success", JBool false); ("error", JStr "Unknown agent type")])
              (Backend.startWorkflow (JObj []) "workflow-1-a" 1000 ∅).1
              (mkWorkflow "workflow-1-a" flow_active 1000 None JUndefined JUndefined
                 JUndefined (JNum 150) 0 initialSteps (mkFlowMetrics (JNum 0) 0 0 0))
              (mkFlowStep "Impact Simulation" "simulator" st_pending
                 "Running Monte Carlo simulations for optimal rerouting"
                 None None None None)
              ltac:(apply lookup_insert_eq) ltac:(done) eq_refl eq_refl eq_refl)
    as (workflow' & Hget & _ & H200 & Hst & _ & _ & Hcur & _).
  exists workflow'. by repeat split.
Defined.

(** X18. A simulator or negotiator step whose agent reports success
    without a result (null or undefined) makes [updateWorkflowMetrics] throw
    after the step was marked: the function answers with an error, and the
    map holds the step as completed while the current step and the status of
    the workflow are as before. *)
Theorem success_without_result_half_completes
    (request : StepRequest) (t1 t2 : Z) (agentResult : JValue)
    (store : gmap string Workflow) (workflow : Workflow) (step : FlowStep) :
  store !! rq_workflow_id request = Some workflow ->
  (0 <= rq_step_index request)%Z ->
  wf_steps workflow !! Z.to_nat (rq_step_index request) = Some step ->
  truthy (jget "success" agentResult) = true ->
  nullish (jget "result" agentResult) = true ->
  rq_agent_type request = "simulator" \/ rq_agent_type request = "negotiator" ->
  let res := Backend.executeWorkflowStep request t1 (AgentJson agentResult) t2 store in
  res.2 = ReplyError ErrRuntime /\
  exists workflow',
    res.1 !! rq_workflow_id request = Some workflow' /\
    fs_status <$> wf_steps workflow' !! Z.to_nat (rq_step_index request) =
      Some st_completed /\
    wf_current_step workflow' = wf_current_step workflow /\
    wf_status workflow' = wf_status workflow /\
    wf_metrics workflow' = wf_metrics workflow.
Proof.
  intros Hwf Hpos Hstep Hok Hnull Hagent. cbn zeta.
  rewrite (executeWorkflowStep_begun _ _ _ _ _ _ _ Hwf Hpos Hstep).
  unfold Backend.executeWorkflowStep_finish.
  rewrite lookup_insert_eq, (truthy_not_nullish _ _ Hok), Hok.
  assert (Hm : forall wf, Backend.updateWorkflowMetrics wf (rq_agent_type request)
                            (jget "result" agentResult) = None).
  { intros wf. unfold Backend.updateWorkflowMetrics. rewrite Hnull.
    destruct Hagent as [-> | ->]; reflexivity. }
  rewrite Hm. cbn [fst snd]. split; [reflexivity|].
  eexists. split; [apply lookup_insert_eq|]. cbn.
  split; [by rewrite list_lookup_alter_eq, list_lookup_alter_eq, Hstep|].
  by repeat split.
Qed.

Lemma success_without_result_half_completes_witness :
  let request := mkStepRequest "workflow-1-a" 1 "simulator" JNull in
  let store := (Backend.startWorkflow (JObj []) "workflow-1-a" 1000 ∅).1 in
  let res := Backend.executeWorkflowStep request 2000
               (AgentJson (JObj [("success", JBool true)])) 3000 store in
  res.2 = ReplyError ErrRuntime /\
  exists workflow',
    res.1 !! "workflow-1-a" = Some workflow' /\
    fs_status <$> wf_steps workflow' !! 1%nat = Some st_completed /\
    wf_current_step workflow' = 0%Z.
Proof.
  destruct (success_without_result_half_completes
              (mkStepRequest "workflow-1-a" 1 "simulator" JNull) 2000 3000
              (JObj [("success", JBool true)])
              (Backend.startWorkflow (JObj []) "workflow-1-a" 1000 ∅).1
              (mkWorkflow "workflow-1-a" flow_active 1000 None JUndefined JUndefined
                 JUndefined (JNum 150) 0 initialSteps (mkFlowMetrics (JNum 0) 0 0 0))
              (mkFlowStep "Impact Simulation" "simulator" st_pending
                 "Running Monte Carlo simulations for optimal rerouting"
                 None None None None)
              ltac:(apply lookup_insert_eq) ltac:(done) eq_refl eq_refl eq_refl
              ltac:(by left))
    as [Hr (workflow' & Hget & Hs & Hcur & _)].
  split; [exact Hr|]. exists workflow'. by repeat split.
Defined.

(** ** The dispatch of the edge function *)

Lemma prefix_app (sub rest : string) : String.prefix sub (sub ++ rest) = true.
Proof.
  induction sub as [|c sub IH]; [by destruct rest|].
  change (String c sub ++ rest) with (String c (sub ++ rest)).
  cbn [String.prefix]. destruct (Ascii.ascii_dec c c); [exact IH | done].
Qed.

Lemma includes_app (sub base rest : string) :
  includes sub (base ++ sub ++ rest) = true.
Proof.
  induction base as [|c base IH].
  - change ("" ++ sub ++ rest) with (sub ++ rest).
    destruct (sub ++ rest) eqn:E; cbn [includes]; rewrite <- E, prefix_app; reflexivity.
  - change (String c base ++ sub ++ rest) with (String c (base ++ sub ++ rest)).
    cbn [includes]. rewrite IH. apply orb_true_r.
Qed.

Lemma append_cons (c : Ascii.ascii) (s t : string) : String c s ++ t = String c (s ++ t).
Proof. reflexivity. Qed.

Lemma append_empty_r (s : string) : s ++ "" = s.
Proof.
  induction s as [|c s IH]; [reflexivity|].
  change (String c s ++ "") with (String c (s ++ "")). by rewrite IH.
Qed.

Lemma append_assoc (a b c : string) : (a ++ b) ++ c = a ++ b ++ c.
Proof.
  induction a as [|x a IH]; [reflexivity|].
  change ((String x a ++ b) ++ c) with (String x ((a ++ b) ++ c)). by rewrite IH.
Qed.

Lemma last_segment_from_plain (cur s : string) :
  includes "/" s = false -> last_segment_from cur s = cur ++ s.
Proof.
  revert cur. induction s as [|c s IH]; intros cur H.
  - cbn [last_segment_from]. by rewrite append_empty_r.
  - cbn [includes] in H. apply orb_false_iff in H as [Hc Hs].
    cbn [last_segment_from]. case_bool_decide as Heq.
    + injection Heq as ->. by destruct s.
    + rewrite IH by exact Hs. by rewrite append_assoc.
Qed.

Lemma last_segment_from_app (cur base workflowId : string) :
  includes "/" workflowId = false ->
  last_segment_from cur (base ++ "/" ++ workflowId) = workflowId.
Proof.
  intros H. revert cur. induction base as [|c base IH]; intros cur.
  - change ("" ++ "/" ++ workflowId) with ("/" ++ workflowId).
    rewrite append_cons. cbn [last_segment_from]. rewrite bool_decide_eq_true_2 by reflexivity.
    apply (last_segment_from_plain "" workflowId H).
  - change (String c base ++ "/" ++ workflowId) with (String c (base ++ "/" ++ workflowId)).
    cbn [last_segment_from]. case_bool_decide; apply IH.
Qed.

(** X19. A request for the status of a workflow reaches
    [getWorkflowStatus] with the id that the URL ends with: for a path
    [base/status/id] that contains neither [/start] nor [/execute-step],
    with an id without a slash, and a method other than OPTIONS, the
    dispatch yields the status endpoint for exactly that id. *)
Theorem status_route_recovers_id (method base workflowId : string) :
  method <> "OPTIONS" ->
  includes "/start" (base ++ "/status/" ++ workflowId) = false ->
  includes "/execute-step" (base ++ "/status/" ++ workflowId) = false ->
  includes "/" workflowId = false ->
  endpoint_of method (base ++ "/status/" ++ workflowId) = EpStatus workflowId.
Proof.
  intros Hm Hs He Hid. unfold endpoint_of.
  rewrite bool_decide_eq_false_2 by exact Hm. rewrite Hs, He.
  change ("/status/" ++ workflowId) with ("/status" ++ "/" ++ workflowId).
  rewrite includes_app. f_equal. unfold last_segment.
  replace (base ++ "/status" ++ "/" ++ workflowId)
    with ((base ++ "/status") ++ "/" ++ workflowId).
  - by apply last_segment_from_app.
  - apply append_assoc.
Qed.

Lemma status_route_recovers_id_witness :
  endpoint_of "GET" ("/zerotouch-workflow" ++ "/status/" ++ "workflow-1700000000000-k3j9x2a1b")
  = EpStatus "workflow-1700000000000-k3j9x2a1b".
Proof.
  apply (status_route_recovers_id "GET" "/zerotouch-workflow"
           "workflow-1700000000000-k3j9x2a1b");
    [discriminate | reflexivity | reflexivity | reflexivity].
Defined.

(** ** orchestrateWorkflow *)

Lemma orchestrate_from_ids k exec agents :
  map tr_task_id (orchestrate_from k exec agents) = map at_task_id agents.
Proof.
  revert k. induction agents as [|t rest IH]; intros k; cbn; [reflexivity|].
  rewrite IH. f_equal. by destruct (exec k t).
Qed.

(** X20. [orchestrateWorkflow] gives one result for each task of the
    request, in the order of the request and with the id of its task; a task
    whose execution throws does not stop the tasks after it, and its result
    is the one without success. *)
Theorem orchestrateWorkflow_one_result_per_task
    (workflow_id : string) (agents : list AgentTask)
    (exec : nat -> AgentTask -> TaskOutcome) :
  let r := orchestrateWorkflow workflow_id agents exec in
  map tr_task_id (results r) = map at_task_id agents /\
  forall k agentTask,
    agents !! k = Some agentTask ->
    exists result,
      results r !! k = Some result /\
      result = taskResultOf agentTask (exec k agentTask) /\
      (tr_success result = false <-> exists message, exec k agentTask = TaskThrows message).
Proof.
  cbn zeta. unfold orchestrateWorkflow. cbn [results].
  split; [apply orchestrate_from_ids|].
  assert (H : forall k0 k agentTask, agents !! k = Some agentTask ->
                orchestrate_from k0 exec agents !! k =
                  Some (taskResultOf agentTask (exec (k0 + k) agentTask))).
  { induction agents as [|t rest IH]; intros k0 k agentTask Hk; [done|].
    destruct k as [|k].
    - injection Hk as ->. cbn [orchestrate_from]. by rewrite Nat.add_0_r.
    - cbn [orchestrate_from]. change ((?x :: ?l) !! S k) with (l !! k).
      rewrite (IH (S k0) k agentTask Hk). do 3 f_equal. lia. }
  intros k agentTask Hk. eexists. split; [apply (H 0 k agentTask Hk)|].
  split; [reflexivity|]. cbn [Nat.add].
  destruct (exec k agentTask); cbn; split; eauto; try done.
  intros [m Hm]. discriminate.
Qed.

(** X21. The workflow counts as an overall success exactly when the
    request has at least one task and at least four fifths of the results
    have success; with no task the rate is the NaN of 0 / 0 and the workflow
    is no success. *)
Theorem orchestrateWorkflow_success_threshold
    (workflow_id : string) (agents : list AgentTask)
    (exec : nat -> AgentTask -> TaskOutcome) :
  let r := orchestrateWorkflow workflow_id agents exec in
  let successes := length (filter (fun x => tr_success x = true) (results r)) in
  (overall_success r = true <->
   agents <> [] /\ 4 * length agents <= 5 * successes) /\
  (success_rate r = None <-> agents = []).
Proof.
  cbn zeta. unfold orchestrateWorkflow. cbn [results overall_success success_rate].
  assert (Hlen : length (orchestrate_from 0 exec agents) = length agents).
  { rewrite <- (length_map tr_task_id), orchestrate_from_ids. apply length_map. }
  rewrite Hlen.
  set (s := length (filter _ _)).
  destruct agents as [|t rest]; cbn [length].
  - split; [split; [discriminate | intros [? _]; done] | done].
  - split; [|split; discriminate].
    rewrite Qle_bool_iff. unfold Qle. cbn [Qnum Qden].
    rewrite Zpos_P_of_succ_nat. clearbody s. split.
    + intros H. split; [discriminate|]. lia.
    + intros [_ H]. lia.
Qed.

(** ** The countdown of the approval dialog *)

Lemma countdown_invariant (n : nat) (timeout : Z) :
  (0 <= timeout)%Z ->
  let c := countdown_after n timeout in
  timeLeft c = Z.max 0 (timeout - 1000 * Z.of_nat n) /\
  (ticking c = false -> timeLeft c = 0%Z).
Proof.
  intros HT. induction n as [|n [IH1 IH2]].
  - cbn. split; [lia | done].
  - cbn zeta in *. unfold countdown_after in *. rewrite Nat.iter_succ.
    set (c := Nat.iter n countdown_tick (countdown_start timeout)) in *.
    unfold countdown_tick. destruct (ticking c) eqn:Hc.
    + case_bool_decide; cbn [timeLeft ticking]; (split; [lia | done]).
    + split; [rewrite (IH2 eq_refl); rewrite (IH2 eq_refl) in IH1; lia | intros _; exact (IH2 eq_refl)].
Qed.

(** X22. The countdown of the approval dialog, started at a timeout that
    is not negative, shows after [n] seconds the timeout less [n] seconds, and
    0 once that is used up; so it is at 0 exactly when [n] seconds are at
    least the timeout, which is when the timer of the request fires, and it
    never leaves the range from 0 to the timeout. *)
Theorem countdown_follows_the_timeout (n : nat) (timeout : Z) :
  (0 <= timeout)%Z ->
  let left := timeLeft (countdown_after n timeout) in
  left = Z.max 0 (timeout - 1000 * Z.of_nat n) /\
  (0 <= left <= timeout)%Z /\
  (left = 0%Z <-> (timeout <= 1000 * Z.of_nat n)%Z).
Proof.
  intros HT. cbn zeta. destruct (countdown_invariant n timeout HT) as [-> _]. lia.
Qed.

Lemma countdown_follows_the_timeout_witness :
  timeLeft (countdown_after 299 300000) = 1000%Z /\
  timeLeft (countdown_after 300 300000) = 0%Z.
Proof.
  destruct (countdown_follows_the_timeout 299 300000 ltac:(done)) as [H1 _].
  destruct (countdown_follows_the_timeout 300 300000 ltac:(done)) as [H2 _].
  rewrite H1, H2. split; reflexivity.
Defined.

(** ** The text of the countdown *)

Lemma digits_no_colon (d : Decimal.uint) :
  has_colon (DecimalString.NilEmpty.string_of_uint d) = false.
Proof. induction d; cbn; try done. Qed.

Lemma string_of_N_inj (a b : N) :
  DecimalString.NilEmpty.string_of_uint (N.to_uint a) =
  DecimalString.NilEmpty.string_of_uint (N.to_uint b) -> a = b.
Proof.
  intros H.
  rewrite <- (DecimalN.Unsigned.of_to a), <- (DecimalN.Unsigned.of_to b).
  f_equal.
  pose proof (DecimalString.NilEmpty.usu (N.to_uint a)) as Ha.
  pose proof (DecimalString.NilEmpty.usu (N.to_uint b)) as Hb.
  rewrite H in Ha. congruence.
Qed.

Lemma split_at_colon (m1 m2 s1 s2 : string) :
  has_colon m1 = false -> has_colon m2 = false ->
  m1 ++ ":" ++ s1 = m2 ++ ":" ++ s2 -> m1 = m2 /\ s1 = s2.
Proof.
  revert m2. induction m1 as [|c m1 IH]; intros [|c2 m2] H1 H2 H.
  - injection H as H. split; [reflexivity | exact H].
  - exfalso. injection H as Hc _. cbn in H2. subst c2.
    rewrite bool_decide_eq_true_2 in H2 by done. done.
  - exfalso. injection H as Hc _. cbn in H1. subst c.
    rewrite bool_decide_eq_true_2 in H1 by done. done.
  - injection H as -> H. cbn in H1, H2.
    apply orb_false_iff in H1 as [_ H1]. apply orb_false_iff in H2 as [_ H2].
    destruct (IH m2 H1 H2 H) as [-> ->]. done.
Qed.

Lemma seconds_inj (x y : nat) :
  x < 60 -> y < 60 ->
  padStart2 (numberToString (Z.of_nat x)) = padStart2 (numberToString (Z.of_nat y)) ->
  x = y.
Proof.
  intros Hx Hy H.
  assert (Hall : forallb (fun a => forallb (fun b =>
             implb (String.eqb (padStart2 (numberToString (Z.of_nat a)))
                               (padStart2 (numberToString (Z.of_nat b))))
                   (Nat.eqb a b)) (seq 0 60)) (seq 0 60) = true)
    by (vm_compute; reflexivity).
  rewrite forallb_forall in Hall.
  specialize (Hall x). rewrite forallb_forall in Hall.
  assert (Hxy := Hall ltac:(apply in_seq; lia) y ltac:(apply in_seq; lia)).
  apply String.eqb_eq in H. rewrite H in Hxy. cbn in Hxy. by apply Nat.eqb_eq.
Qed.

(** X23. For times that are not negative, [formatTime] shows two times
    by the same text exactly when they lie in the same second: the text is
    the minutes, a colon and the seconds in two digits, and it has no other
    colon that could blur where the minutes end. *)
Theorem formatTime_shows_the_second (a b : Z) :
  (0 <= a)%Z -> (0 <= b)%Z ->
  (formatTime a = formatTime b <-> (a / 1000 = b / 1000)%Z).
Proof.
  intros Ha Hb.
  assert (Hparts : forall ms, (0 <= ms)%Z ->
            formatTime ms =
              DecimalString.NilEmpty.string_of_uint (N.to_uint (Z.to_N (ms / 1000 / 60))) ++
              ":" ++ padStart2 (numberToString (Z.of_nat (Z.to_nat (ms / 1000 mod 60)))) /\
            Z.to_nat (ms / 1000 mod 60) < 60).
  { intros ms Hms. unfold formatTime. cbn zeta.
    rewrite Z.rem_mod_nonneg by lia.
    replace (ms / 60000)%Z with (ms / 1000 / 60)%Z
      by (rewrite Z.div_div by lia; reflexivity).
    replace (ms mod 60000 / 1000)%Z with (ms / 1000 mod 60)%Z.
    2:{ change 60000%Z with (1000 * 60)%Z. rewrite Z.rem_mul_r by lia.
        rewrite Z.mul_comm, Z.div_add by lia.
        rewrite (Z.div_small (ms mod 1000)) by (apply Z.mod_pos_bound; lia). lia. }
    assert (0 <= ms / 1000 / 60)%Z by (apply Z.div_pos; [apply Z.div_pos|]; lia).
    assert (0 <= ms / 1000 mod 60 < 60)%Z by (apply Z.mod_pos_bound; lia).
    rewrite Z2Nat.id by lia. split; [|lia].
    unfold numberToString at 1. by rewrite bool_decide_eq_false_2 by lia. }
  destruct (Hparts a Ha) as [-> Hsa]. destruct (Hparts b Hb) as [-> Hsb].
  split.
  - intros H. apply split_at_colon in H as [Hm Hs]; try apply digits_no_colon.
    apply string_of_N_inj in Hm. apply seconds_inj in Hs; [|lia|lia].
    assert (0 <= a / 1000 / 60)%Z by (apply Z.div_pos; [apply Z.div_pos|]; lia).
    assert (0 <= b / 1000 / 60)%Z by (apply Z.div_pos; [apply Z.div_pos|]; lia).
    assert (0 <= a / 1000 mod 60 < 60)%Z by (apply Z.mod_pos_bound; lia).
    assert (0 <= b / 1000 mod 60 < 60)%Z by (apply Z.mod_pos_bound; lia).
    rewrite (Z.div_mod (a / 1000) 60), (Z.div_mod (b / 1000) 60) by lia. lia.
  - intros ->. reflexivity.
Qed.

Lemma formatTime_shows_the_second_witness :
  formatTime 300000 = formatTime 300999 /\ formatTime 300000 <> formatTime 299000.
Proof.
  split.
  - apply (formatTime_shows_the_second 300000 300999); [lia | lia | reflexivity].
  - intros H. apply (formatTime_shows_the_second 300000 299000) in H; [|lia|lia].
    discriminate.
Defined.

(** What the dialog shows at the start and at the end of the five minutes
    of a request. *)
Example formatTime_of_the_timeout :
  formatTime 300000 = "5:00" /\ formatTime 61000 = "1:01" /\ formatTime 0 = "0:00".
Proof. vm_compute. done. Qed.

(** ** The timeline *)

(** X24. The timeline shows a step as completed from the moment
    [executeStep] begins it, while its tool call is still pending or its
    approval request still open, and while the run is running it shows the
    step after it as the active one: [currentStep] is the index of the step
    begun plus one, and the timeline takes every index below [currentStep]
    for completed. *)
Theorem timeline_shows_begun_step_completed
    (cap : list Agent) (i : nat) (e : Env) (w : World) (st : Step) (ag : Agent) :
  WORKFLOW_STEPS !! i = Some st ->
  find (fun a => bool_decide (type a = agent st)) cap = Some ag ->
  let w' := (executeStep cap i e w).1 in
  getStepStatus (currentStep (state w')) (isRunning (state w')) i = shown_completed /\
  (isRunning (state w) = true ->
   getStepStatus (currentStep (state w')) (isRunning (state w')) (S i) = shown_active) /\
  ((executeStep cap i e w).2 = Returned -> pendingApproval w' <> None) /\
  (forall agentId toolName callId t0,
     (executeStep cap i e w).2 = Awaiting agentId toolName callId t0 ->
     exists c, last (toolCalls (state w')) = Some c /\ tc_status c = call_pending).
Proof.
  intros Hst Hag. cbn zeta. unfold executeStep. rewrite Hst, Hag.
  destruct (bool_decide (tool st = APPROVAL_TOOL)); unfold getStepStatus; cbn.
  - rewrite (bool_decide_eq_true_2 (i < i + 1)) by lia.
    rewrite (bool_decide_eq_false_2 (S i < i + 1)) by lia.
    rewrite (bool_decide_eq_true_2 (S i = i + 1)) by lia.
    split; [reflexivity|]. split; [by intros ->|]. split; [done|]. discriminate.
  - rewrite (bool_decide_eq_true_2 (i < i + 1)) by lia.
    rewrite (bool_decide_eq_false_2 (S i < i + 1)) by lia.
    rewrite (bool_decide_eq_true_2 (S i = i + 1)) by lia.
    split; [reflexivity|]. split; [by intros ->|]. split; [discriminate|].
    intros agentId toolName callId t0 _. eexists. rewrite last_snoc. split; reflexivity.
Qed.

Lemma timeline_shows_begun_step_completed_witness :
  let w' := (executeStep MOCK_AGENTS 0 (mkEnv 1000 "a") initialWorld).1 in
  getStepStatus (currentStep (state w')) (isRunning (state w')) 0 = shown_completed.
Proof.
  apply (timeline_shows_begun_step_completed MOCK_AGENTS 0 (mkEnv 1000 "a") initialWorld
           (mkStep 1 "Threat Detection"
              "Sentinel detects LA port congestion via satellite imagery"
              sentinel "analyze_satellite_imagery" 45)
           (mkAgent "sentinel-001" "Watchtower" sentinel idle
              "Real-time anomaly detection and threat monitoring"
              ["analyze_satellite_imagery"; "monitor_darkweb"; "scan_iot_sensors";
               "detect_anomalies"] (JNum 0) None) eq_refl eq_refl).
Defined.

(** ** The risk report *)

Lemma mock_audit_typed (l : list Agent) :
  map agentIdentity l = map agentIdentity MOCK_AGENTS -> audit_typed l.
Proof.
  intros H.
  destruct l as [|a1 [|a2 [|a3 [|a4 [|a5 [|]]]]]]; try discriminate.
  cbn in H. unfold agentIdentity in H.
  injection H as ? ? ? ? ? ? ? ? ? ? ? ? ? ? ? ? ? ? ? ? ? ? ? ? ?.
  repeat constructor; intros Hid; congruence.
Qed.

Lemma mock_has_audit (l : list Agent) :
  map agentIdentity l = map agentIdentity MOCK_AGENTS ->
  forallb (fun agent => bool_decide (status agent = success)) l = true ->
  audit_succeeded l.
Proof.
  intros H Hall.
  destruct l as [|a1 [|a2 [|a3 [|a4 [|a5 [|]]]]]]; try discriminate.
  cbn in H. unfold agentIdentity in H.
  injection H as ? ? ? ? ? ? ? ? ? ? ? ? ? ? ? ? ? ? ? ? ? ? ? ? ?.
  cbn in Hall. rewrite !andb_true_iff, !bool_decide_eq_true in Hall.
  destruct Hall as (_ & _ & _ & _ & Hs & _).
  do 4 apply Exists_cons_tl. apply Exists_cons_hd. by split.
Qed.

Lemma audit_step (i : nat) (st : Step) :
  WORKFLOW_STEPS !! i = Some st -> agent st = audit -> i = 5.
Proof.
  intros H Ha.
  do 6 (destruct i as [|i]; [injection H as <-; cbn in Ha; congruence|]).
  done.
Qed.

Lemma audit_succeeded_update (agentId : string) (p : AgentPatch) (w : World) :
  audit_succeeded (agents (state (updateAgent agentId p w))) ->
  audit_succeeded (agents (state w)) \/
  (agentId = "audit-001" /\ p_status p = Some success).
Proof.
  unfold audit_succeeded. cbn. induction (agents (state w)) as [|a l IH]; cbn.
  - intros H. inversion H.
  - intros H. apply Exists_cons in H as [[Hid Hst] | H].
    + case_bool_decide as Ha.
      * cbn in Hid, Hst. destruct (p_status p) as [s|] eqn:Hp; cbn in Hst.
        -- right. split; congruence.
        -- left. apply Exists_cons_hd. done.
      * left. apply Exists_cons_hd. done.
    + destruct (IH H) as [H' | H']; [left; by apply Exists_cons_tl | by right].
Qed.

Lemma audit_succeeded_update_other (agentId : string) (s : AgentStatus) (w : World) :
  agentId <> "audit-001" \/ s <> success ->
  audit_succeeded (agents (state (updateAgent agentId (statusPatch s) w))) ->
  audit_succeeded (agents (state w)).
Proof.
  intros Hne H. destruct (audit_succeeded_update _ _ _ H) as [H' | [Hid Hs]]; [exact H'|].
  cbn in Hs. destruct Hne; congruence.
Qed.

(** What [executeStep] does to what the report relies on. *)
Lemma executeStep_report (cap : list Agent) (i : nat) (e : Env) (w : World) :
  audit_typed cap ->
  let w' := (executeStep cap i e w).1 in
  (audit_succeeded (agents (state w')) -> audit_succeeded (agents (state w))) /\
  (forall p, pendingApproval w' = Some p ->
             pendingApproval w = Some p \/ requestedBy p <> "audit-001") /\
  (forall agentId toolName callId t0,
     (executeStep cap i e w).2 = Awaiting agentId toolName callId t0 ->
     agentId = "audit-001" -> i = 5).
Proof.
  intros Hcap. cbn zeta. unfold executeStep.
  destruct (WORKFLOW_STEPS !! i) as [st|] eqn:Hst;
    [|cbn; split; [done|]; split; [by left | discriminate]].
  destruct (find _ cap) as [ag|] eqn:Hag;
    [|cbn; split; [done|]; split; [by left | discriminate]].
  apply find_some in Hag as [Hin Hty]. apply bool_decide_eq_true_1 in Hty.
  assert (Haud : id ag = "audit-001" -> i = 5).
  { intros Hid. apply (audit_step i st Hst). rewrite <- Hty.
    unfold audit_typed in Hcap. rewrite Forall_forall in Hcap.
    apply Hcap; [|exact Hid]. by apply list_elem_of_In. }
  case_bool_decide as Htool.
  - apply (approval_index i st Hst) in Htool. cbn [fst snd].
    split; [|split; [|discriminate]].
    + intros H. apply audit_succeeded_update_other in H; [exact H | by right].
    + intros p Hp. cbn in Hp. injection Hp as <-. right. cbn. intros Hid.
      specialize (Haud Hid). lia.
  - cbn [fst snd]. split; [|split].
    + intros H. apply audit_succeeded_update_other in H; [exact H | by right].
    + intros p Hp. by left.
    + intros agentId toolName callId t0 Heq. injection Heq as <- _ _ _. exact Haud.
Qed.

(** What the loop, entered at index [i], does to it. *)
Lemma loop_from_report (o : Origin) (cap : list Agent) (i : nat) (e : Env) (tid : nat)
    (w : World) :
  audit_typed cap ->
  map_Forall (fun _ k => kont_ok k) (tasks w) ->
  (forall p, pendingApproval w = Some p -> requestedBy p <> "audit-001") ->
  let w' := loop_from o cap i e tid w in
  map_Forall (fun _ k => kont_ok k) (tasks w') /\
  (forall p, pendingApproval w' = Some p -> requestedBy p <> "audit-001") /\
  (audit_succeeded (agents (state w')) -> audit_succeeded (agents (state w))) /\
  (6 <= i ->
   currentStep (state w') = currentStep (state w) /\
   timeToResolution (metrics (state w')) = 4.2%Q /\ endTime (state w') <> None).
Proof.
  intros Hcap Htasks Hpend. cbn zeta. unfold loop_from.
  case_bool_decide as Hlt; cbn in Hlt.
  - destruct (executeStep_report cap i e w Hcap) as (Haud & Hp & Haw).
    destruct (executeStep_effect cap i e w) as (Ht & _ & _).
    destruct (executeStep cap i e w) as [w1 [|agentId toolName callId t0]] eqn:Hexec;
      cbn [fst snd] in *.
    + split; [|split; [|split; [|lia]]].
      * unfold after_step.
        destruct o; [destruct (WORKFLOW_STEPS !! i) as [st|]; [case_bool_decide|]|];
          cbn; rewrite Ht;
          first [ apply map_Forall_insert_2; [by split | exact Htasks]
                | by apply map_Forall_delete ].
      * intros p Hp1.
        assert (Hp2 : pendingApproval w1 = Some p).
        { revert Hp1. unfold after_step.
          destruct o; [destruct (WORKFLOW_STEPS !! i) as [st|]; [case_bool_decide|]|];
            done. }
        destruct (Hp p Hp2) as [H | H]; [by apply Hpend | exact H].
      * intros H. apply Haud. revert H. unfold after_step.
        destruct o; [destruct (WORKFLOW_STEPS !! i) as [st|]; [case_bool_decide|]|];
          done.
    + split; [|split; [|split; [|lia]]].
      * cbn. rewrite Ht. apply map_Forall_insert_2; [|exact Htasks].
        split; [exact Hcap|]. by apply (Haw agentId toolName callId t0).
      * intros p Hp1. destruct (Hp p Hp1) as [H | H]; [by apply Hpend | exact H].
      * exact Haud.
  - cbn. split; [by apply map_Forall_delete|]. split; [exact Hpend|].
    split; [done|]. intros _. by repeat split.
Qed.

Lemma task_is_running (w : World) (tid : nat) (k : Kont) :
  (isRunning (state w) = false -> quiescent w) ->
  tasks w !! tid = Some k -> isRunning (state w) = true.
Proof.
  intros Hcalm Hk. destruct (isRunning (state w)) eqn:Hr; [reflexivity|].
  destruct (Hcalm eq_refl) as [Ht _]. rewrite Ht in Hk. done.
Qed.

Lemma report_step (ev : Event) (w w1 : World) :
  Inv w -> (isRunning (state w) = false -> quiescent w) -> ReportInv w ->
  (run_event ev = false -> isRunning (state w) = false) ->
  step_event ev w = Some w1 ->
  ReportInv w1.
Proof.
  intros [Hroles Hphase] Hcalm (Hmock & Htasks & Hpend & Haud & Hdone) Hen Hstep.
  assert (Hmock1 : mock_agents w1).
  { destruct (run_event ev) eqn:Hev.
    - destruct (run_event_frame ev w w1 Hev Hstep) as ((Hid & _) & _).
      unfold mock_agents. by rewrite Hid.
    - destruct ev; try discriminate; cbn in Hstep; injection Hstep as <-; [reflexivity|].
      unfold resetWorkflow, clearTimeoutRef. by destruct (timeoutRef w). }
  split; [exact Hmock1|].
  destruct ev as [e| |approved e|h|tid out e|tid e]; cbn in Hen, Hstep.
  - (* start *)
    injection Hstep as <-. specialize (Hen eq_refl).
    destruct (Hcalm Hen) as [Ht Hp]. cbn.
    split; [|split; [|split; [|done]]].
    + rewrite Ht. apply map_Forall_insert_2; [|apply map_Forall_empty].
      split; [by apply mock_audit_typed | done].
    + intros p Hp1. congruence.
    + intros H. unfold audit_succeeded in H. cbn in H.
      repeat (apply Exists_cons in H as [[_ ?] | H]; [discriminate|]). inversion H.
  - (* reset *)
    injection Hstep as <-. specialize (Hen eq_refl).
    destruct (Hcalm Hen) as [Ht Hp].
    unfold resetWorkflow, clearTimeoutRef.
    destruct (timeoutRef w); cbn; rewrite Ht;
      (split; [apply map_Forall_empty|]); (split; [done|]);
      (split; [|intros _ ?; done]);
      intros H; unfold audit_succeeded in H; cbn in H;
      repeat (apply Exists_cons in H as [[_ ?] | H]; [discriminate|]); inversion H.
  - (* decide *)
    injection Hstep as <-.
    destruct (pendingApproval w) as [p|] eqn:Hp;
      [|unfold handleApproval; rewrite Hp;
       (split; [exact Htasks|]); (split; [by rewrite Hp|]); by split].
    destruct (Phase_pending w p Hphase Hp) as (Ht & _ & Hcur).
    assert (Hnot : ~ audit_succeeded (agents (state w))).
    { intros H. apply Haud in H. lia. }
    assert (Hmid : forall s,
              audit_succeeded (agents (state
                match find (fun a => bool_decide (id a = requestedBy p)) (agents (state w)) with
                | Some ag => updateAgent (id ag) (statusPatch s) (clearTimeoutRef w)
                | None => clearTimeoutRef w
                end)) -> False).
    { intros s H. apply Hnot.
      destruct (find _ (agents (state w))) as [ag|] eqn:Hag.
      - apply find_some in Hag as [_ Hid]. apply bool_decide_eq_true_1 in Hid.
        apply audit_succeeded_update_other in H.
        + revert H. unfold clearTimeoutRef. by destruct (timeoutRef w).
        + left. rewrite Hid. by apply Hpend.
      - revert H. unfold clearTimeoutRef. by destruct (timeoutRef w). }
    unfold handleApproval. rewrite Hp. destruct approved.
    + cbn [spawn].
      match goal with
      | |- context [loop_from InApproval ?cap 4 e ?t ?wm] =>
          destruct (loop_from_report InApproval cap 4 e t wm) as (H1 & H2 & H3 & _);
          [ by apply mock_audit_typed
          | cbn; replace (tasks (match find _ _ with Some _ => _ | None => _ end))
              with (tasks w); [rewrite Ht; apply map_Forall_empty|];
            unfold clearTimeoutRef; destruct (find _ _), (timeoutRef w); reflexivity
          | cbn; intros ? ?; discriminate
          | ];
          split; [exact H1|]; split; [exact H2|]; split;
          [ intros H; exfalso; apply H3 in H; cbn in H; by apply (Hmid success) in H
          | intros Hidle; rewrite loop_from_isRunning in Hidle by lia;
            cbn in Hidle;
            replace (isRunning (state (match find _ _ with Some _ => _ | None => _ end)))
              with (isRunning (state w)) in Hidle;
            [ destruct (Hcalm Hidle) as [_ ?]; congruence
            | unfold clearTimeoutRef; destruct (find _ _), (timeoutRef w); reflexivity ] ]
      end.
    + cbn. split; [|split; [done|split]].
      * replace (tasks (match find _ _ with Some _ => _ | None => _ end)) with (tasks w);
          [rewrite Ht; apply map_Forall_empty|].
        unfold clearTimeoutRef; destruct (find _ _), (timeoutRef w); reflexivity.
      * intros H. exfalso. by apply (Hmid error) in H.
      * intros _ H6. exfalso.
        replace (currentStep (state (match find _ _ with Some _ => _ | None => _ end)))
          with (currentStep (state w)) in H6; [lia|].
        unfold clearTimeoutRef; destruct (find _ _), (timeoutRef w); reflexivity.
  - (* the approval timer *)
    destruct (timers w !! h) as [agentId|]; [|discriminate]. injection Hstep as <-.
    cbn. split; [exact Htasks|]. split; [|split; [|exact Hdone]].
    + intros p Hp1. destruct (pendingApproval w) as [p0|] eqn:Hp; [|discriminate].
      injection Hp1 as <-. cbn. by apply Hpend.
    + intros H. apply Haud.
      change (audit_succeeded (agents (state
                (updateAgent agentId (statusPatch error) w)))) in H.
      apply audit_succeeded_update_other in H; [exact H | by right].
  - (* an awaited call settles *)
    destruct (tasks w !! tid) as [k|] eqn:Hk; [|discriminate].
    pose proof (task_is_running w tid k Hcalm Hk) as Hrun.
    pose proof (Htasks tid k Hk) as [Hcap Hki].
    destruct k as [cap|cap|o cap i agentId toolName callId t0|o cap i]; [| | |discriminate];
      injection Hstep as <-; cbn [kont_agents] in Hcap.
    + (* zerotouch-workflow *)
      assert (H0 : currentStep (state w) = 0).
      { destruct Hphase as [t k H1 H2 H3 _ _ | t o c i a tn cid s H1 _ _ _ _
                           | t o c i H1 _ _ _ _ | H1 _ _];
          rewrite H1 in Hk; first [done | task_lookup Hk; discriminate]. }
      unfold startWorkflow_after_init. destruct out as [d er|].
      * cbn. split; [apply map_Forall_insert_2; [by split | exact Htasks]|].
        split; [exact Hpend|]. split; [exact Haud|]. intros Hi. congruence.
      * destruct (loop_from_report InStart cap 0 e tid (startWorkflow_catch w) Hcap Htasks Hpend)
          as (H1 & H2 & H3 & _).
        split; [exact H1|]. split; [exact H2|]. split.
        -- intros H. apply H3, Haud in H. cbn in H. lia.
        -- intros Hi. rewrite loop_from_isRunning in Hi by lia. cbn in Hi. congruence.
    + (* ai-crisis-analyzer *)
      assert (H0 : currentStep (state w) = 0).
      { destruct Hphase as [t k H1 H2 H3 _ _ | t o c i a tn cid s H1 _ _ _ _
                           | t o c i H1 _ _ _ _ | H1 _ _];
          rewrite H1 in Hk; first [done | task_lookup Hk; discriminate]. }
      unfold startWorkflow_after_analysis.
      destruct out as [d er|];
        match goal with
        | |- context [loop_from InStart cap 0 e tid ?wm] =>
            destruct (loop_from_report InStart cap 0 e tid wm Hcap) as (H1 & H2 & H3 & _);
            [ by destruct (negb (truthy er) && _) || exact Htasks
            | by destruct (negb (truthy er) && _) || exact Hpend
            | split; [exact H1|]; split; [exact H2|]; split;
              [ intros H; apply H3 in H;
                assert (audit_succeeded (agents (state w))) as H'
                  by (revert H; try destruct (negb (truthy er) && _); done);
                apply Haud in H'; lia
              | intros Hi; rewrite loop_from_isRunning in Hi by lia;
                exfalso; revert Hi; try destruct (negb (truthy er) && _); cbn; congruence ] ]
        end.
    + (* launch-io-agents *)
      assert (Hc : currentStep (state w) = S i).
      { destruct Hphase as [t k H1 [c [-> | ->]] _ _ _ | t o' c i' a tn cid s H1 _ H3 _ _
                           | t o' c i' H1 _ _ _ _ | H1 _ _];
          rewrite H1 in Hk; try done; task_lookup Hk; try discriminate.
        injection Hk as _ _ <- _ _ _ _. exact H3. }
      destruct (executeStep_resume_effect i agentId toolName callId t0 out e w)
        as (_ & (p & Hps & Hag) & Hr & Hcs & Hpa & Hta & _).
      set (wr := executeStep_resume i agentId toolName callId t0 out e w) in *.
      assert (Hafter : forall P : World -> Prop,
                (forall t k, P (park t k wr)) -> (forall t, P (finish t wr)) ->
                P (after_step o cap i tid wr)).
      { intros P Hpark Hfin. unfold after_step.
        destruct o; [destruct (WORKFLOW_STEPS !! i); [case_bool_decide|]|]; auto. }
      split; [|split; [|split]].
      * unfold after_step.
        destruct o; [destruct (WORKFLOW_STEPS !! i); [case_bool_decide|]|];
          cbn; rewrite Hta;
          first [ apply map_Forall_insert_2; [by split | exact Htasks]
                | by apply map_Forall_delete ].
      * apply Hafter; cbn; intros; rewrite Hpa in *; by apply Hpend.
      * apply Hafter; cbn; intros; rewrite Hcs, Hc; rewrite Hag in *.
        -- clear Hafter. f_equal.
           assert (H' : audit_succeeded (agents (state (updateAgent agentId p w)))) by done.
           apply audit_succeeded_update in H' as [H' | [Hid _]];
             [apply Haud in H'; lia | by apply Hki].
        -- clear Hafter. f_equal.
           assert (H' : audit_succeeded (agents (state (updateAgent agentId p w)))) by done.
           apply audit_succeeded_update in H' as [H' | [Hid _]];
             [apply Haud in H'; lia | by apply Hki].
      * apply Hafter; cbn; intros; rewrite Hr in *; congruence.
  - (* a pause ends *)
    destruct (tasks w !! tid) as [k|] eqn:Hk; [|discriminate].
    pose proof (task_is_running w tid k Hcalm Hk) as Hrun.
    pose proof (Htasks tid k Hk) as [Hcap Hki].
    destruct k as [cap|cap|o cap i agentId toolName callId t0|o cap i]; try discriminate.
    injection Hstep as <-. cbn [kont_agents] in Hcap.
    assert (Hc : currentStep (state w) <= S i).
    { destruct Hphase as [t k H1 [c [-> | ->]] _ _ _ | t o' c i' a tn cid s H1 _ _ _ _
                         | t o' c i' H1 _ H3 _ _ | H1 _ _];
        rewrite H1 in Hk; try done; task_lookup Hk; try discriminate.
      injection Hk as _ _ <-. exact H3. }
    destruct (loop_from_report o cap (S i) e tid w Hcap Htasks Hpend)
      as (H1 & H2 & H3 & H4).
    split; [exact H1|]. split; [exact H2|].
    destruct (decide (S i < 6)) as [Hlt | Hge].
    + split.
      * intros H. apply H3, Haud in H. lia.
      * intros Hi. rewrite loop_from_isRunning in Hi by exact Hlt. congruence.
    + destruct H4 as (Hcs & Htt & Hend); [lia|]. split.
      * intros H. rewrite Hcs. by apply Haud, H3.
      * intros _ _. by split.
Qed.

(** X25. Driven by the dashboard from the first render, with no click on
    the buttons of a dialog that is on its way out, the risk report (visible
    when every agent has status success and the run is not running) is shown
    only after a run that went through all six steps and was completed:
    [currentStep] is 6, the end time is set, the time to resolution is the
    4.2 of the completion block, and nothing is in flight.  A rejected run, a
    timed-out request or a reset never show it. *)
Theorem report_only_after_completed_run (acts : list Action) (d : Dashboard) :
  dashboard_run acts firstRender = Some d ->
  no_late_click acts firstRender = true ->
  report_visible (hook d) = true ->
  currentStep (state (hook d)) = 6 /\
  timeToResolution (metrics (state (hook d))) = 4.2%Q /\
  endTime (state (hook d)) <> None /\
  quiescent (hook d).
Proof.
  intros Hrun Hlate Hvis. unfold report_visible in Hvis.
  apply andb_true_iff in Hvis as [Hall Hidle]. apply negb_true_iff in Hidle.
  assert (Hrep : ReportInv initialWorld).
  { split; [reflexivity|]. split; [apply map_Forall_empty|]. split; [done|].
    split; [|done].
    intros H. unfold audit_succeeded in H. cbn in H.
    repeat (apply Exists_cons in H as [[_ ?] | H]; [discriminate|]). inversion H. }
  destruct (dashboard_run_invariant ReportInv
              (fun ev w w1 Hi Hc Hr Hg Hs => report_step ev w w1 Hi Hc Hr Hg Hs)
              acts firstRender d firstRender_current initialWorld_Inv
              ltac:(by intros _; split) Hrep Hrun Hlate)
    as (_ & Hcalm & Hmock & _ & _ & Haud & Hdone).
  assert (H6 : currentStep (state (hook d)) = 6) by (apply Haud; by apply mock_has_audit).
  destruct (Hdone Hidle H6) as [Htt Hend].
  repeat split; try done; by destruct (Hcalm Hidle).
Qed.

(** The run in which every call fails and the decision is an approval ends
    with the report shown. *)
Lemma report_only_after_completed_run_witness :
  from_option
    (fun d => report_visible (hook d) = true /\ currentStep (state (hook d)) = 6)
    False
    (dashboard_run (map Happens (until_approval ++ after_approval 6000) ++ [ExitEnds])
                   firstRender).
Proof.
  destruct scenario_on_dashboard as [Hsome Hlate].
  assert (Hvis : from_option (fun d => report_visible (hook d)) false
            (dashboard_run (map Happens (until_approval ++ after_approval 6000) ++ [ExitEnds])
                           firstRender) = true)
    by (vm_compute; reflexivity).
  destruct (dashboard_run (map Happens (until_approval ++ after_approval 6000) ++ [ExitEnds])
                          firstRender) as [d|] eqn:Hrun; [|discriminate].
  cbn [from_option] in *. split; [exact Hvis|].
  by destruct (report_only_after_completed_run _ d Hrun Hlate Hvis).
Defined.

(** The same run with a rejection does not show the report. *)
Example report_hidden_after_rejected_run :
  from_option (fun d => report_visible (hook d)) true
    (dashboard_run (map Happens (until_approval ++ [EDecide false (mkEnv 6000 "i")]))
                   firstRender) = false.
Proof. vm_compute. reflexivity. Qed.

(** The loop of [handleApproval] entered at index 4 with a list that has
    the five roles: it begins the step of the executor and suspends. *)
Lemma loop_from_resumes (cap : list Agent) (e : Env) (tid : nat) (w0 : World) :
  roles_ok cap ->
  exists w1 agentId c,
    loop_from InApproval cap 4 e tid w0 =
      park tid (KInvoke InApproval cap 4 agentId "reroute_shipments"
                        (mkCallId (now e) (rnd e)) (now e)) w1 /\
    tasks w1 = tasks w0 /\ nextTask w1 = nextTask w0 /\
    pendingApproval w1 = pendingApproval w0 /\
    currentStep (state w1) = 5 /\
    toolCalls (state w1) = (toolCalls (state w0) ++ [c])%list /\
    tc_toolName c = "reroute_shipments" /\ tc_status c = call_pending /\
    isRunning (state w1) = isRunning (state w0).
Proof.
  intros Hcap.
  destruct (roles_find cap 4 _ Hcap eq_refl) as [ag Hag].
  unfold loop_from, executeStep. rewrite bool_decide_eq_true_2 by (cbn; lia).
  cbn [lookup list_lookup WORKFLOW_STEPS]. cbn in Hag. cbn. rewrite Hag. cbn.
  eexists _, (id ag), _. split; [reflexivity|]. cbn. by repeat split.
Qed.

(** X26. A click on Approve in a dialog that is on its way out starts a
    second loop.  The [handleApproval] of that dialog closed over the
    request it showed, so its guard passes although the request has been
    decided: after an approval and a second click on the same dialog the hook
    has two loops suspended, each with its own pending call of
    [reroute_shipments], and [currentStep] is 5. *)
Theorem late_approval_starts_second_loop
    (d : Dashboard) (p : ApprovalRequest) (e1 e2 : Env) :
  dialog_current d ->
  pendingApproval (hook d) = Some p ->
  tasks (hook d) = ∅ ->
  roles_ok (agents (state (hook d))) ->
  let clicks := [Happens (EDecide true e1); Happens (EDecide true e2)] in
  no_late_click clicks d = false /\
  exists d' c1 c2,
    dashboard_run clicks d = Some d' /\
    size (tasks (hook d')) = 2 /\
    currentStep (state (hook d')) = 5 /\
    toolCalls (state (hook d')) = (toolCalls (state (hook d)) ++ [c1; c2])%list /\
    (tc_toolName c1, tc_status c1) = ("reroute_shipments", call_pending) /\
    (tc_toolName c2, tc_status c2) = ("reroute_shipments", call_pending).
Proof.
  intros Hcur Hp Ht Hroles. cbn zeta.
  pose proof (Hcur p Hp) as Hdl.
  (* the first click *)
  assert (H1 : exists wa a1 c1,
            handleApproval_closure (Some p) (agents (state (hook d))) true e1 (hook d) =
              park (nextTask (hook d))
                   (KInvoke InApproval (agents (state (hook d))) 4 a1 "reroute_shipments"
                            (mkCallId (now e1) (rnd e1)) (now e1)) wa /\
            tasks wa = ∅ /\ nextTask wa = S (nextTask (hook d)) /\
            pendingApproval wa = None /\
            toolCalls (state wa) = (toolCalls (state (hook d)) ++ [c1])%list /\
            tc_toolName c1 = "reroute_shipments" /\ tc_status c1 = call_pending).
  { unfold handleApproval_closure, clearTimeoutRef. cbn [spawn].
    match goal with
    | |- context [loop_from InApproval ?cap 4 e1 ?t ?w0] =>
        destruct (loop_from_resumes cap e1 t w0 Hroles)
          as (wa & a1 & c1 & -> & Hta & Hna & Hpa & _ & Hla & Hc1 & Hs1 & _)
    end.
    exists wa, a1, c1.
    destruct (find _ (agents (state (hook d)))), (timeoutRef (hook d));
      cbn in *; (split; [reflexivity|]); repeat split; congruence. }
  destruct H1 as (wa & a1 & c1 & Hfirst & Hta & Hna & Hpa & Hla & Hc1 & Hs1).
  set (w1 := park (nextTask (hook d))
               (KInvoke InApproval (agents (state (hook d))) 4 a1 "reroute_shipments"
                        (mkCallId (now e1) (rnd e1)) (now e1)) wa) in *.
  (* the second click, on the same dialog *)
  assert (H2 : exists wb a2 c2,
            handleApproval_closure (Some p) (agents (state (hook d))) true e2 w1 =
              park (S (nextTask (hook d)))
                   (KInvoke InApproval (agents (state (hook d))) 4 a2 "reroute_shipments"
                            (mkCallId (now e2) (rnd e2)) (now e2)) wb /\
            tasks wb = tasks w1 /\ currentStep (state wb) = 5 /\
            toolCalls (state wb) = (toolCalls (state w1) ++ [c2])%list /\
            tc_toolName c2 = "reroute_shipments" /\ tc_status c2 = call_pending).
  { unfold handleApproval_closure, clearTimeoutRef. cbn [spawn].
    match goal with
    | |- context [loop_from InApproval ?cap 4 e2 ?t ?w0] =>
        destruct (loop_from_resumes cap e2 t w0 Hroles)
          as (wb & a2 & c2 & -> & Htb & Hnb & _ & Hcb & Hlb & Hc2 & Hs2 & _)
    end.
    exists wb, a2, c2.
    destruct (find _ (agents (state (hook d)))), (timeoutRef w1);
      cbn in *; rewrite ?Hna in *; (split; [reflexivity|]); repeat split; congruence. }
  destruct H2 as (wb & a2 & c2 & Hsecond & Htb & Hcb & Hlb & Hc2 & Hs2).
  set (w2 := park (S (nextTask (hook d)))
               (KInvoke InApproval (agents (state (hook d))) 4 a2 "reroute_shipments"
                        (mkCallId (now e2) (rnd e2)) (now e2)) wb) in *.
  assert (Hpw1 : pendingApproval w1 = None) by exact Hpa.
  assert (Hstep1 : dashboard_step (Happens (EDecide true e1)) d =
                   Some (render (dialog d) w1)).
  { cbn [dashboard_step]. rewrite Hdl. cbn [dialog_request dialog_agents].
    by rewrite Hfirst. }
  assert (Hd1 : dialog (render (dialog d) w1) = dialog d).
  { unfold render. cbn [dialog]. by rewrite Hpw1. }
  assert (Hstep2 : dashboard_step (Happens (EDecide true e2)) (render (dialog d) w1) =
                   Some (render (dialog d) w2)).
  { cbn [dashboard_step]. rewrite Hd1, Hdl. cbn [dialog_request dialog_agents].
    change (hook (render ?x w1)) with w1. by rewrite Hsecond. }
  split.
  - cbn [no_late_click]. rewrite Hstep1, Hstep2. cbn [on_open_request]. rewrite Hp.
    change (hook (render (dialog d) w1)) with w1. by rewrite Hpw1.
  - exists (render (dialog d) w2), c1, c2. split.
    + cbn [dashboard_run]. by rewrite Hstep1, Hstep2.
    + change (hook (render (dialog d) w2)) with w2.
      change (tasks w2) with (<[S (nextTask (hook d)) :=
                 KInvoke InApproval (agents (state (hook d))) 4 a2 "reroute_shipments"
                         (mkCallId (now e2) (rnd e2)) (now e2)]> (tasks wb)).
      change (state w2) with (state wb).
      rewrite Htb, Hcb, Hlb.
      change (tasks w1) with (<[nextTask (hook d) :=
                 KInvoke InApproval (agents (state (hook d))) 4 a1 "reroute_shipments"
                         (mkCallId (now e1) (rnd e1)) (now e1)]> (tasks wa)).
      change (state w1) with (state wa). rewrite Hta, Hla.
      split; [|split; [reflexivity|split; [by rewrite <- app_assoc|]]].
      * rewrite map_size_insert_None; [by rewrite insert_empty, map_size_singleton|].
        rewrite insert_empty. apply lookup_singleton_ne. lia.
      * by rewrite Hc1, Hs1, Hc2, Hs2.
Qed.

Lemma late_approval_starts_second_loop_witness :
  from_option
    (fun w =>
       let d := render None w in
       exists d',
         dashboard_run [Happens (EDecide true (mkEnv 6000 "i"));
                        Happens (EDecide true (mkEnv 6100 "j"))] d = Some d' /\
         size (tasks (hook d')) = 2)
    False (run until_approval initialWorld).
Proof.
  assert (Hfacts : from_option
            (fun w => (match pendingApproval w with Some _ => true | None => false end,
                       bool_decide (tasks w = ∅),
                       bool_decide (map type (agents (state w)) = map type MOCK_AGENTS)))
            (false, false, false) (run until_approval initialWorld) = (true, true, true))
    by (vm_compute; reflexivity).
  destruct (run until_approval initialWorld) as [w|]; [|discriminate].
  cbn [from_option] in *.
  destruct (pendingApproval w) as [p|] eqn:Hp; [|discriminate].
  injection Hfacts as Ht Hr.
  apply bool_decide_eq_true_1 in Ht. apply bool_decide_eq_true_1 in Hr.
  destruct (late_approval_starts_second_loop (render None w) p
              (mkEnv 6000 "i") (mkEnv 6100 "j")
              (render_current None w) Hp Ht Hr)
    as (_ & d' & c1 & c2 & Hrun & Hsize & _).
  exists d'. by split.
Defined.

